(** * Starfield: the adaptive particle-count controller and its pipeline

    A shallow embedding of [src/Starfield.js] (the v2 class: constructor,
    [_validateConfig], [_mergeDeep], [_detectDeviceCapability], [_createStar],
    [_project], [_update], [_render], [_animate], [_runOptimization], [start],
    [stop], [updateConfig], [getCurrentFPS]) followed by the properties the
    specification states about it and by further properties of the same
    methods and of [resize], [destroy] and [_drawBackgroundGradient].

    Conventions of the embedding.
    - A JavaScript number that is always finite in the program (a timestamp,
      a coordinate, a configured value that passed validation) is a rational
      [Q]; a number that an operation may make non-finite is a [jsnum].
    - The arithmetic of the frame clock and of the controller ([_animate]
      up to [_runOptimization], and [_runOptimization] itself) is binary64:
      every operation gives the exact result rounded to the nearest binary64
      number, ties to even, and a decimal literal stands for the binary64
      number nearest to it.  There the results are compared with thresholds
      and rounded to counts, so that the last bit decides.  The two zeros are
      not told apart.  The geometry of the stars (sampling, the advance step,
      the projection) and the count of stars to add are exact rational
      arithmetic.
    - An options object is the record [Options.t] of the keys that hold a
      value, and the methods take such objects.  A key can also be written
      with the value [undefined]: what [_validateConfig] and [_mergeDeep] do
      with it is given by [asRead] and [_mergeDeepPassed] on [Passed.t]; an
      instance whose configuration holds [undefined] is not followed.
    - [Math.random] and [performance.now] are oracles of the browser: the
      n-th call returns the n-th value of a stream kept in the [Browser].
    - The object [this] is the record [Starfield]; every method is a function
      in the monad [M] that threads [this] and the browser and propagates a
      thrown [Error].
    - [_animate] is reached again from itself through
      [_runOptimization -> updateConfig -> start]; the embedding bounds the
      depth of that nesting by a natural number. *)

From Stdlib Require Import ZArith QArith Qround Qabs Qpower Qreduction.
From Stdlib Require Import List String Ascii Bool Lia Lqa.
From Stdlib Require Qcanon.
Import ListNotations.

Open Scope Q_scope.

(* ================================================================== *)
(** ** JavaScript numbers that may leave the finite range *)

Inductive jsnum : Type :=
| Fin (q : Q)
| PInf
| NInf
| NaN.

Coercion Fin : Q >-> jsnum.

(** Rounding to binary64: 53 significant bits, exponents from -1074, round
    to nearest, ties to even. *)
Module Binary64.

(** [floor(log2 |q|)] for [q] other than 0. *)
Definition ilog2 (q : Q) : Z :=
  let k := (Z.log2 (Z.abs (Qnum q)) - Z.log2 (Zpos (Qden q)))%Z in
  if Qle_bool (2 ^ k) (Qabs q) then k else (k - 1)%Z.

(** The nearest integer, a tie going to the even one. *)
Definition rne (x : Q) : Z :=
  let f := Qfloor x in
  match Qcompare (x - inject_Z f) (1 # 2) with
  | Lt => f
  | Gt => (f + 1)%Z
  | Eq => if Z.even f then f else (f + 1)%Z
  end.

(** The exponent of the last place: 53 significant bits, not below the
    subnormal exponent -1074. *)
Definition exponent (q : Q) : Z := Z.max (ilog2 q - 52) (-1074).

(** The multiple of the last place nearest to [q], a tie going to the even
    multiple. *)
Definition nearest (q : Q) : Q :=
  let e := exponent q in
  inject_Z (rne (q / 2 ^ e)) * 2 ^ e.

(** The binary64 number nearest to [q], as a reduced fraction; from
    [2^1024 - 2^970] on the result is infinite. *)
Definition round (q : Q) : jsnum :=
  if Qeq_bool q 0 then Fin 0
  else
    let r := nearest q in
    if Qle_bool (2 ^ 1024) (Qabs r) then (if Qle_bool 0 q then PInf else NInf)
    else Fin (Qred r).

End Binary64.

Module Js.

Definition isZero (q : Q) : bool := Qeq_bool q 0.
Definition isNeg (q : Q) : bool := negb (Qle_bool 0 q).
Definition ltb (a b : Q) : bool := negb (Qle_bool b a).

(** [typeof v === 'number' && isFinite(v)] on a value that is a number. *)
Definition isFinite (a : jsnum) : bool :=
  match a with Fin _ => true | _ => false end.

Definition neg (a : jsnum) : jsnum :=
  match a with
  | Fin q => Fin (- q)
  | PInf => NInf
  | NInf => PInf
  | NaN => NaN
  end.

Definition add (a b : jsnum) : jsnum :=
  match a, b with
  | NaN, _ | _, NaN => NaN
  | Fin p, Fin q => Fin (p + q)
  | PInf, NInf | NInf, PInf => NaN
  | PInf, _ | _, PInf => PInf
  | NInf, _ | _, NInf => NInf
  end.

Definition sub (a b : jsnum) : jsnum := add a (neg b).

(** An infinity scaled by a finite factor: the sign follows the factor and
    a zero factor gives [NaN]. *)
Definition scaleInf (positive : bool) (q : Q) : jsnum :=
  if isZero q then NaN
  else if Bool.eqb positive (isNeg q) then NInf else PInf.

Definition mul (a b : jsnum) : jsnum :=
  match a, b with
  | NaN, _ | _, NaN => NaN
  | Fin p, Fin q => Fin (p * q)
  | PInf, Fin q | Fin q, PInf => scaleInf true q
  | NInf, Fin q | Fin q, NInf => scaleInf false q
  | PInf, PInf | NInf, NInf => PInf
  | PInf, NInf | NInf, PInf => NInf
  end.

(** Division.  A zero divisor is the positive zero, which is what the sums
    and differences of the program produce. *)
Definition div (a b : jsnum) : jsnum :=
  match a, b with
  | NaN, _ | _, NaN => NaN
  | Fin p, Fin q =>
      if isZero q then
        (if isZero p then NaN else if isNeg p then NInf else PInf)
      else Fin (p / q)
  | Fin _, _ => Fin 0
  | PInf, Fin q => if isNeg q then NInf else PInf
  | NInf, Fin q => if isNeg q then PInf else NInf
  | _, _ => NaN
  end.

(** Comparisons: every comparison with [NaN] is false. *)
Definition leb (a b : jsnum) : bool :=
  match a, b with
  | NaN, _ | _, NaN => false
  | Fin p, Fin q => Qle_bool p q
  | NInf, _ | _, PInf => true
  | _, _ => false
  end.

Definition lt (a b : jsnum) : bool :=
  match a, b with
  | NaN, _ | _, NaN => false
  | Fin p, Fin q => ltb p q
  | PInf, _ | _, NInf => false
  | _, _ => true
  end.

Definition geb (a b : jsnum) : bool := leb b a.
Definition gt (a b : jsnum) : bool := lt b a.

(** [a === b] on numbers. *)
Definition eqb (a b : jsnum) : bool :=
  match a, b with
  | Fin p, Fin q => Qeq_bool p q
  | PInf, PInf | NInf, NInf => true
  | _, _ => false
  end.

(** [Math.min], [Math.max]: [NaN] if an argument is [NaN]. *)
Definition min (a b : jsnum) : jsnum :=
  match a, b with
  | NaN, _ | _, NaN => NaN
  | _, _ => if leb a b then a else b
  end.

Definition max (a b : jsnum) : jsnum :=
  match a, b with
  | NaN, _ | _, NaN => NaN
  | _, _ => if leb a b then b else a
  end.

(** [Math.round]: the nearest integer, halves towards plus infinity. *)
Definition roundQ (q : Q) : Z := Qfloor (q + (1 # 2)).

Definition round (a : jsnum) : jsnum :=
  match a with
  | Fin q => Fin (inject_Z (roundQ q))
  | _ => a
  end.

Definition abs (a : jsnum) : jsnum :=
  match a with
  | Fin q => Fin (Qabs q)
  | PInf | NInf => PInf
  | NaN => NaN
  end.

(** *** The operations of binary64: the exact result, rounded *)

Definition b64 (a : jsnum) : jsnum :=
  match a with
  | Fin q => Binary64.round q
  | _ => a
  end.

Definition fadd (a b : jsnum) : jsnum := b64 (add a b).
Definition fsub (a b : jsnum) : jsnum := b64 (sub a b).
Definition fmul (a b : jsnum) : jsnum := b64 (mul a b).
Definition fdiv (a b : jsnum) : jsnum := b64 (div a b).

End Js.

(** A decimal literal of the source: the binary64 number nearest to it. *)
Definition literal (q : Q) : jsnum := Binary64.round q.

(** The binary64 number nearest to [q] as a rational (for [q] inside the
    finite range). *)
Definition binary64 (q : Q) : Q :=
  match Binary64.round q with
  | Fin r => r
  | _ => 0
  end.

Declare Scope js_scope.
Delimit Scope js_scope with js.
Bind Scope js_scope with jsnum.
Infix "+" := Js.add : js_scope.
Infix "-" := Js.sub : js_scope.
Infix "*" := Js.mul : js_scope.
Infix "/" := Js.div : js_scope.
Infix "<=?" := Js.leb (at level 70) : js_scope.
Infix "<?" := Js.lt (at level 70) : js_scope.
Infix ">=?" := Js.geb (at level 70) : js_scope.
Infix ">?" := Js.gt (at level 70) : js_scope.

Declare Scope b64_scope.
Delimit Scope b64_scope with b64.
Arguments Js.b64 a%_b64.
Arguments Js.fadd (a b)%_b64.
Arguments Js.fsub (a b)%_b64.
Arguments Js.fmul (a b)%_b64.
Arguments Js.fdiv (a b)%_b64.
Infix "+" := Js.fadd : b64_scope.
Infix "-" := Js.fsub : b64_scope.
Infix "*" := Js.fmul : b64_scope.
Infix "/" := Js.fdiv : b64_scope.

(* ================================================================== *)
(** ** Data model *)

(** A star: [{ x, y, z, baseSize, hue }]. *)
Module Star.
Record t : Type := mk { x : Q; y : Q; z : Q; baseSize : Q; hue : Q }.
End Star.

(** *** User options: every key may be absent

    A field is [Some v] for a key that holds the value [v] and [None] for a
    key that reads [undefined].  Reading does not tell an absent key from a
    key that is present with the value [undefined]; the merge does, and
    [Passed.t] below gives the keys of the second kind. *)

Definition isSome {A : Type} (o : option A) : bool :=
  match o with Some _ => true | None => false end.

(** [starColors.hue]: a number or an array of numbers. *)
Inductive HueOption : Type :=
| HueNumber (h : jsnum)
| HueArray (hs : list jsnum).

(** [starCount]: ['auto'] or a number. *)
Inductive CountOption : Type :=
| AutoO
| CountO (n : jsnum).

(** A colour stop [{ stop, color }]. *)
Module ColorStop.
Record t : Type := mk { stop : Q; color : string }.
End ColorStop.

Module BackgroundO.
Record t : Type := mk {
  type : option string;
  colors : option (list ColorStop.t) }.
(** The empty object [{}]. *)
Definition empty : t := mk None None.
End BackgroundO.

Module StarColorsO.
Record t : Type := mk {
  hue : option HueOption;
  saturation : option jsnum;
  lightness : option jsnum }.
End StarColorsO.

Module StarSizeO.
Record t : Type := mk { min : option jsnum; max : option jsnum }.
End StarSizeO.

Module DeviceDetectionO.
Record t : Type := mk { mobile : option jsnum; desktop : option jsnum }.
End DeviceDetectionO.

Module Options.
Record t : Type := mk {
  starCount : option CountOption;
  maxStarCount : option jsnum;
  speed : option jsnum;
  focalLength : option jsnum;
  starColors : option StarColorsO.t;
  starSize : option StarSizeO.t;
  (** [Some None] is the value [false]: the background is disabled. *)
  background : option (option BackgroundO.t);
  trailEffect : option jsnum;
  autoStart : option bool;
  debug : option bool;
  deviceDetection : option DeviceDetectionO.t }.

(** The empty object [{}]. *)
Definition empty : t :=
  mk None None None None None None None None None None None.
End Options.

(** *** The resolved configuration [this.config] *)

Inductive Hue : Type :=
| HueValue (h : Q)
| HueRange (lo hi : Q).

Inductive StarCount : Type :=
| Auto
| Count (n : Q).

Module StarColors.
Record t : Type := mk { hue : Hue; saturation : Q; lightness : Q }.
End StarColors.

Module StarSize.
Record t : Type := mk { min : Q; max : Q }.
End StarSize.

Module DeviceDetection.
Record t : Type := mk { mobile : Q; desktop : Q }.
End DeviceDetection.

Module Config.
Record t : Type := mk {
  starCount : StarCount;
  maxStarCount : Q;
  speed : Q;
  focalLength : Q;
  starColors : StarColors.t;
  starSize : StarSize.t;
  (** [None] is [false]; the object may lack [type] or [colors]. *)
  background : option BackgroundO.t;
  trailEffect : Q;
  autoStart : bool;
  debug : bool;
  deviceDetection : DeviceDetection.t }.
End Config.

(** [Starfield.defaults]. *)
Definition defaults : Config.t :=
  Config.mk Auto 10000 (6 # 10) 300
    (StarColors.mk (HueRange 180 260) 70 90)
    (StarSize.mk (5 # 10) 2)
    (Some (BackgroundO.mk (Some "radial"%string)
             (Some [ColorStop.mk 0 "#000000"%string; ColorStop.mk 1 "#341b6f"%string])))
    (3 # 10) true false
    (DeviceDetection.mk 200 500).

(** *** Errors *)

Inductive Error : Type :=
(** [Invalid ${name}: must be a finite number between ${min} and ${max}
    (got ${value})] *)
| InvalidNumber (name : string) (lo hi : Q) (got : jsnum)
(** [starSize.min must be less than or equal to starSize.max] *)
| StarSizeOrder
(** [starColors.hue array must contain exactly 2 values [min, max]] *)
| HueArrayLength
(** A [TypeError] of the runtime (a property read on [undefined] or [null]). *)
| TypeError (what : string).

(* ================================================================== *)
(** ** [_mergeDeep] and [_validateConfig] *)

(** The view of a resolved configuration as an options object with every
    key present, and back.  [resolve] falls back on [defaults] for a key that
    is absent or not finite; neither happens for an object that
    [_validateConfig] accepted and that was merged over a complete one. *)
Definition optQ (v : option jsnum) (d : Q) : Q :=
  match v with Some (Fin q) => q | _ => d end.

Definition embedHue (h : Hue) : HueOption :=
  match h with
  | HueValue v => HueNumber (Fin v)
  | HueRange lo hi => HueArray [Fin lo; Fin hi]
  end.

Definition resolveHue (h : option HueOption) : Hue :=
  match h with
  | Some (HueNumber (Fin v)) => HueValue v
  | Some (HueArray [Fin lo; Fin hi]) => HueRange lo hi
  | _ => StarColors.hue (Config.starColors defaults)
  end.

Definition embedCount (c : StarCount) : CountOption :=
  match c with Auto => AutoO | Count n => CountO (Fin n) end.

Definition resolveCount (c : option CountOption) : StarCount :=
  match c with
  | Some (CountO (Fin n)) => Count n
  | _ => Auto
  end.

Definition embed (c : Config.t) : Options.t :=
  Options.mk
    (Some (embedCount (Config.starCount c)))
    (Some (Fin (Config.maxStarCount c)))
    (Some (Fin (Config.speed c)))
    (Some (Fin (Config.focalLength c)))
    (Some (StarColorsO.mk
             (Some (embedHue (StarColors.hue (Config.starColors c))))
             (Some (Fin (StarColors.saturation (Config.starColors c))))
             (Some (Fin (StarColors.lightness (Config.starColors c))))))
    (Some (StarSizeO.mk
             (Some (Fin (StarSize.min (Config.starSize c))))
             (Some (Fin (StarSize.max (Config.starSize c))))))
    (Some (Config.background c))
    (Some (Fin (Config.trailEffect c)))
    (Some (Config.autoStart c))
    (Some (Config.debug c))
    (Some (DeviceDetectionO.mk
             (Some (Fin (DeviceDetection.mobile (Config.deviceDetection c))))
             (Some (Fin (DeviceDetection.desktop (Config.deviceDetection c)))))).

Definition resolve (o : Options.t) : Config.t :=
  let sc := match Options.starColors o with
            | Some c => c | None => StarColorsO.mk None None None end in
  let ss := match Options.starSize o with
            | Some c => c | None => StarSizeO.mk None None end in
  let dd := match Options.deviceDetection o with
            | Some c => c | None => DeviceDetectionO.mk None None end in
  Config.mk
    (resolveCount (Options.starCount o))
    (optQ (Options.maxStarCount o) (Config.maxStarCount defaults))
    (optQ (Options.speed o) (Config.speed defaults))
    (optQ (Options.focalLength o) (Config.focalLength defaults))
    (StarColors.mk
       (resolveHue (StarColorsO.hue sc))
       (optQ (StarColorsO.saturation sc) 70)
       (optQ (StarColorsO.lightness sc) 90))
    (StarSize.mk
       (optQ (StarSizeO.min ss) (5 # 10))
       (optQ (StarSizeO.max ss) 2))
    (match Options.background o with
     | Some b => b
     | None => Config.background defaults
     end)
    (optQ (Options.trailEffect o) (Config.trailEffect defaults))
    (match Options.autoStart o with Some b => b | None => true end)
    (match Options.debug o with Some b => b | None => false end)
    (DeviceDetection.mk
       (optQ (DeviceDetectionO.mobile dd) 200)
       (optQ (DeviceDetectionO.desktop dd) 500)).

(** [Object.assign(output, { [key]: source[key] })] for a key whose value is
    not a plain object: the source wins when the key is present. *)
Definition assign {A : Type} (target source : option A) : option A :=
  match source with Some v => Some v | None => target end.

(** [_mergeDeep] on a nested plain object: a key absent from the target
    takes the source object as it is, otherwise the two are merged. *)
Definition mergeObject {A : Type} (merge : A -> A -> A)
  (target source : option A) : option A :=
  match source with
  | None => target
  | Some s =>
      match target with
      | None => Some s
      | Some t => Some (merge t s)
      end
  end.

Definition mergeStarColors (t s : StarColorsO.t) : StarColorsO.t :=
  StarColorsO.mk
    (assign (StarColorsO.hue t) (StarColorsO.hue s))
    (assign (StarColorsO.saturation t) (StarColorsO.saturation s))
    (assign (StarColorsO.lightness t) (StarColorsO.lightness s)).

Definition mergeStarSize (t s : StarSizeO.t) : StarSizeO.t :=
  StarSizeO.mk
    (assign (StarSizeO.min t) (StarSizeO.min s))
    (assign (StarSizeO.max t) (StarSizeO.max s)).

Definition mergeDeviceDetection (t s : DeviceDetectionO.t) : DeviceDetectionO.t :=
  DeviceDetectionO.mk
    (assign (DeviceDetectionO.mobile t) (DeviceDetectionO.mobile s))
    (assign (DeviceDetectionO.desktop t) (DeviceDetectionO.desktop s)).

Definition mergeBackgroundObject (t s : BackgroundO.t) : BackgroundO.t :=
  BackgroundO.mk
    (assign (BackgroundO.type t) (BackgroundO.type s))
    (assign (BackgroundO.colors t) (BackgroundO.colors s)).

(** The [background] key: an explicit [false] in the source overrides; an
    object merged over a target that is [false] gives a copy of the target's
    own keys, that is the empty object (the target is not a plain object, so
    no key of the source is copied). *)
Definition mergeBackground
  (target source : option (option BackgroundO.t)) : option (option BackgroundO.t) :=
  match source with
  | None => target
  | Some None => Some None
  | Some (Some s) =>
      match target with
      | None => Some (Some s)
      | Some None => Some (Some BackgroundO.empty)
      | Some (Some t) => Some (Some (mergeBackgroundObject t s))
      end
  end.

Definition _mergeDeep (target source : Options.t) : Options.t :=
  Options.mk
    (assign (Options.starCount target) (Options.starCount source))
    (assign (Options.maxStarCount target) (Options.maxStarCount source))
    (assign (Options.speed target) (Options.speed source))
    (assign (Options.focalLength target) (Options.focalLength source))
    (mergeObject mergeStarColors (Options.starColors target) (Options.starColors source))
    (mergeObject mergeStarSize (Options.starSize target) (Options.starSize source))
    (mergeBackground (Options.background target) (Options.background source))
    (assign (Options.trailEffect target) (Options.trailEffect source))
    (assign (Options.autoStart target) (Options.autoStart source))
    (assign (Options.debug target) (Options.debug source))
    (mergeObject mergeDeviceDetection
       (Options.deviceDetection target) (Options.deviceDetection source)).

(** The local [validate(value, min, max, name)]: the error it throws, if any. *)
Definition validate (value : jsnum) (lo hi : Q) (name : string) : option Error :=
  if negb (Js.isFinite value) || (value <? lo)%js || (value >? hi)%js
  then Some (InvalidNumber name lo hi value)
  else None.

(** [if (v !== undefined) validate(v, ...)]. *)
Definition validateIfDefined (v : option jsnum) (lo hi : Q) (name : string)
  : option Error :=
  match v with
  | Some value => validate value lo hi name
  | None => None
  end.

(** Statements in sequence: the first error thrown ends the function. *)
Definition andThen (first next : option Error) : option Error :=
  match first with
  | Some e => Some e
  | None => next
  end.

Infix ";;;" := andThen (at level 61, right associativity).

Definition validateStarSize (s : StarSizeO.t) : option Error :=
  validateIfDefined (StarSizeO.min s) (1 # 10) 10 "starSize.min" ;;;
  validateIfDefined (StarSizeO.max s) (1 # 10) 10 "starSize.max" ;;;
  match StarSizeO.min s, StarSizeO.max s with
  | Some lo, Some hi => if (lo >? hi)%js then Some StarSizeOrder else None
  | _, _ => None
  end.

Definition validateHue (h : HueOption) : option Error :=
  match h with
  | HueArray hs =>
      match hs with
      | [h0; h1] =>
          validate h0 0 360 "starColors.hue[0]" ;;;
          validate h1 0 360 "starColors.hue[1]"
      | _ => Some HueArrayLength
      end
  | HueNumber v => validate v 0 360 "starColors.hue"
  end.

Definition validateStarColors (c : StarColorsO.t) : option Error :=
  validateIfDefined (StarColorsO.saturation c) 0 100 "starColors.saturation" ;;;
  validateIfDefined (StarColorsO.lightness c) 0 100 "starColors.lightness" ;;;
  match StarColorsO.hue c with
  | Some h => validateHue h
  | None => None
  end.

Definition validateDeviceDetection (d : DeviceDetectionO.t) : option Error :=
  validateIfDefined (DeviceDetectionO.mobile d) 1 10000 "deviceDetection.mobile" ;;;
  validateIfDefined (DeviceDetectionO.desktop d) 1 10000 "deviceDetection.desktop".

(** [_validateConfig(config)]: [None] when it returns, [Some e] when it throws. *)
Definition _validateConfig (config : Options.t) : option Error :=
  validateIfDefined (Options.speed config) (1 # 100) 10 "speed" ;;;
  validateIfDefined (Options.focalLength config) 50 1000 "focalLength" ;;;
  validateIfDefined (Options.trailEffect config) 0 1 "trailEffect" ;;;
  match Options.starCount config with
  | Some (CountO n) => validate n 1 10000 "starCount"
  | _ => None
  end ;;;
  validateIfDefined (Options.maxStarCount config) 100 50000 "maxStarCount" ;;;
  match Options.starSize config with
  | Some s => validateStarSize s
  | None => None
  end ;;;
  match Options.starColors config with
  | Some c => validateStarColors c
  | None => None
  end ;;;
  match Options.deviceDetection config with
  | Some d => validateDeviceDetection d
  | None => None
  end.


(** *** Keys passed with the value [undefined] *)

(** The keys of an options object, the nested ones after their object. *)
Module Key.
Inductive t : Type :=
| starCount | maxStarCount | speed | focalLength
| starColors | starColors_hue | starColors_saturation | starColors_lightness
| starSize | starSize_min | starSize_max
| background | background_type | background_colors
| trailEffect | autoStart | debug
| deviceDetection | deviceDetection_mobile | deviceDetection_desktop.
End Key.

(** An options object as a caller writes it: the keys that hold a value,
    and the keys written with the value [undefined], as [speed] is in
    [{ speed: undefined }]. *)
Module Passed.
Record t : Type := mk { values : Options.t; undefinedKeys : list Key.t }.
End Passed.

(** [o.key !== undefined], and [o.object && o.object.key !== undefined] for
    a nested key. *)
Definition reads (k : Key.t) (o : Options.t) : bool :=
  match k with
  | Key.starCount => isSome (Options.starCount o)
  | Key.maxStarCount => isSome (Options.maxStarCount o)
  | Key.speed => isSome (Options.speed o)
  | Key.focalLength => isSome (Options.focalLength o)
  | Key.starColors => isSome (Options.starColors o)
  | Key.starColors_hue =>
      match Options.starColors o with Some c => isSome (StarColorsO.hue c) | None => false end
  | Key.starColors_saturation =>
      match Options.starColors o with
      | Some c => isSome (StarColorsO.saturation c) | None => false end
  | Key.starColors_lightness =>
      match Options.starColors o with
      | Some c => isSome (StarColorsO.lightness c) | None => false end
  | Key.starSize => isSome (Options.starSize o)
  | Key.starSize_min =>
      match Options.starSize o with Some c => isSome (StarSizeO.min c) | None => false end
  | Key.starSize_max =>
      match Options.starSize o with Some c => isSome (StarSizeO.max c) | None => false end
  | Key.background => isSome (Options.background o)
  | Key.background_type =>
      match Options.background o with
      | Some (Some bg) => isSome (BackgroundO.type bg) | _ => false end
  | Key.background_colors =>
      match Options.background o with
      | Some (Some bg) => isSome (BackgroundO.colors bg) | _ => false end
  | Key.trailEffect => isSome (Options.trailEffect o)
  | Key.autoStart => isSome (Options.autoStart o)
  | Key.debug => isSome (Options.debug o)
  | Key.deviceDetection => isSome (Options.deviceDetection o)
  | Key.deviceDetection_mobile =>
      match Options.deviceDetection o with
      | Some c => isSome (DeviceDetectionO.mobile c) | None => false end
  | Key.deviceDetection_desktop =>
      match Options.deviceDetection o with
      | Some c => isSome (DeviceDetectionO.desktop c) | None => false end
  end.

(** The object a nested key belongs to is there. *)
Definition objectGiven (k : Key.t) (o : Options.t) : bool :=
  match k with
  | Key.starColors_hue | Key.starColors_saturation | Key.starColors_lightness =>
      isSome (Options.starColors o)
  | Key.starSize_min | Key.starSize_max => isSome (Options.starSize o)
  | Key.background_type | Key.background_colors =>
      match Options.background o with Some (Some _) => true | _ => false end
  | Key.deviceDetection_mobile | Key.deviceDetection_desktop =>
      isSome (Options.deviceDetection o)
  | _ => true
  end.

(** [Object.assign(output, { [key]: undefined })]: the key reads
    [undefined] from then on. *)
Definition setUndefined (k : Key.t) (o : Options.t) : Options.t :=
  let sc f := match Options.starColors o with Some c => Some (f c) | None => None end in
  let ss f := match Options.starSize o with Some c => Some (f c) | None => None end in
  let bg f := match Options.background o with
              | Some (Some c) => Some (Some (f c)) | other => other end in
  let dd f := match Options.deviceDetection o with Some c => Some (f c) | None => None end in
  let mk a b c d e f g h i j l := Options.mk a b c d e f g h i j l in
  let a := Options.starCount o in
  let b := Options.maxStarCount o in
  let c := Options.speed o in
  let d := Options.focalLength o in
  let e := Options.starColors o in
  let f := Options.starSize o in
  let g := Options.background o in
  let h := Options.trailEffect o in
  let i := Options.autoStart o in
  let j := Options.debug o in
  let l := Options.deviceDetection o in
  match k with
  | Key.starCount => mk None b c d e f g h i j l
  | Key.maxStarCount => mk a None c d e f g h i j l
  | Key.speed => mk a b None d e f g h i j l
  | Key.focalLength => mk a b c None e f g h i j l
  | Key.starColors => mk a b c d None f g h i j l
  | Key.starColors_hue =>
      mk a b c d
        (sc (fun x => StarColorsO.mk None (StarColorsO.saturation x) (StarColorsO.lightness x)))
        f g h i j l
  | Key.starColors_saturation =>
      mk a b c d
        (sc (fun x => StarColorsO.mk (StarColorsO.hue x) None (StarColorsO.lightness x)))
        f g h i j l
  | Key.starColors_lightness =>
      mk a b c d
        (sc (fun x => StarColorsO.mk (StarColorsO.hue x) (StarColorsO.saturation x) None))
        f g h i j l
  | Key.starSize => mk a b c d e None g h i j l
  | Key.starSize_min =>
      mk a b c d e (ss (fun x => StarSizeO.mk None (StarSizeO.max x))) g h i j l
  | Key.starSize_max =>
      mk a b c d e (ss (fun x => StarSizeO.mk (StarSizeO.min x) None)) g h i j l
  | Key.background => mk a b c d e f None h i j l
  | Key.background_type =>
      mk a b c d e f (bg (fun x => BackgroundO.mk None (BackgroundO.colors x))) h i j l
  | Key.background_colors =>
      mk a b c d e f (bg (fun x => BackgroundO.mk (BackgroundO.type x) None)) h i j l
  | Key.trailEffect => mk a b c d e f g None i j l
  | Key.autoStart => mk a b c d e f g h None j l
  | Key.debug => mk a b c d e f g h i None l
  | Key.deviceDetection => mk a b c d e f g h i j None
  | Key.deviceDetection_mobile =>
      mk a b c d e f g h i j
        (dd (fun x => DeviceDetectionO.mk None (DeviceDetectionO.desktop x)))
  | Key.deviceDetection_desktop =>
      mk a b c d e f g h i j
        (dd (fun x => DeviceDetectionO.mk (DeviceDetectionO.mobile x) None))
  end.

(** A key cannot both hold a value and be written as [undefined], and a
    nested key is written inside its object. *)
Definition wellFormed (p : Passed.t) : bool :=
  forallb (fun k => negb (reads k (Passed.values p)) && objectGiven k (Passed.values p))
    (Passed.undefinedKeys p).

(** What reading the keys of the passed object gives: this is what
    [_validateConfig(newConfig)] sees. *)
Definition asRead (p : Passed.t) : Options.t :=
  fold_right setUndefined (Passed.values p) (Passed.undefinedKeys p).

(** [_mergeDeep(target, source)] for a source as it is passed:
    [Object.keys(source)] lists the keys written as [undefined] too, they are
    not plain objects, and [Object.assign] copies them. *)
Definition _mergeDeepPassed (target : Options.t) (source : Passed.t) : Options.t :=
  fold_right setUndefined (_mergeDeep target (Passed.values source))
    (Passed.undefinedKeys source).

(* ================================================================== *)
(** ** The browser and the instance *)

(** A filled disc: [fillStyle = hsla(h, s%, l%, a)], then
    [arc(x, y, radius, 0, 2*PI)] and [fill()]. *)
Record Disc : Type := mkDisc {
  discHue : Q; discSaturation : Q; discLightness : Q; discAlpha : jsnum;
  discX : jsnum; discY : jsnum; discRadius : jsnum }.

(** The cached radial gradient: centre, outer radius, colour stops. *)
Record Gradient : Type := mkGradient {
  gradX : Q; gradY : Q; gradRadius : Q; gradStops : list ColorStop.t }.

(** What [_render] issues on the main 2d context after [clearRect]. *)
Inductive DrawCall : Type :=
(** [fillStyle = this.backgroundGradient; fillRect(0, 0, w, h)]; with [None]
    the assignment of [null] is ignored and the style in force fills. *)
| FillRect (g : option Gradient) (w h : Q)
(** [drawImage(tempCanvas, 0, 0)] under [globalAlpha = alpha]: the snapshot
    of the previous frame. *)
| DrawPreviousFrame (alpha : Q)
| FillDisc (d : Disc).

Module Canvas.
Record t : Type := mk { width : Q; height : Q; calls : list DrawCall }.
End Canvas.

(** The one key of [localStorage] the class uses,
    ['starfield-optimized-count']. *)
Inductive StoredItem : Type :=
(** The text [n.toString()] written by [setItem]. *)
| Written (n : Q)
(** Any other text. *)
| Foreign (text : string).

Inductive LocalStorage : Type :=
(** Every access throws (storage disabled or absent). *)
| StorageUnavailable
(** [getItem] gives the item or [null]. *)
| Storage (item : option StoredItem).

Module Browser.
Record t : Type := mk {
  (** [performance.now()]: the n-th call returns [performance_now n]. *)
  performance_now : nat -> Q;
  nowCalls : nat;
  (** [Math.random()]: the n-th call returns [Math_random n]. *)
  Math_random : nat -> Q;
  randomCalls : nat;
  localStorage : LocalStorage;
  userAgent : string;
  (** [navigator.hardwareConcurrency], [None] when undefined. *)
  hardwareConcurrency : option Z;
  innerWidth : Q;
  innerHeight : Q;
  (** [requestAnimationFrame]: the next handle and the callbacks not yet
      run; every callback of the class is [() => this._animate()]. *)
  nextFrame : nat;
  pendingFrames : list nat }.
End Browser.

(** [this.performanceStats].  The fields that are never reassigned are the
    constants below. *)
Module Stats.
Record t : Type := mk {
  frameTimestamps : list Q;
  calibrationStartTime : option Q;
  initialCalibrationComplete : bool;
  currentFPS : jsnum;
  initialCalibrationAttempts : Z;
  lastOptimizationTime : option Q }.
End Stats.

Definition targetFPS : Q := 60.
Definition initialCalibrationDuration : Q := 1000.
Definition maxInitialCalibrationAttempts : Z := 8.
Definition optimizationInterval : Q := 10000.
Definition continuousOptimizationDuration : Q := 3000.

Module Starfield.
Record t : Type := mk {
  canvas : Canvas.t;
  config : Config.t;
  stars : list Star.t;
  starCount : Q;
  animationId : option nat;
  isRunning : bool;
  backgroundGradient : option Gradient;
  centerX : Q;
  centerY : Q;
  (** The scratch canvas of [_render] with its width and height. *)
  tempCanvas : option (Q * Q);
  performanceStats : Stats.t }.
End Starfield.

Record World : Type := mkWorld { this : Starfield.t; browser : Browser.t }.

(** *** Field updates *)

Definition setStats (f : Stats.t -> Stats.t) (s : Starfield.t) : Starfield.t :=
  Starfield.mk (Starfield.canvas s) (Starfield.config s) (Starfield.stars s)
    (Starfield.starCount s) (Starfield.animationId s) (Starfield.isRunning s)
    (Starfield.backgroundGradient s) (Starfield.centerX s) (Starfield.centerY s)
    (Starfield.tempCanvas s) (f (Starfield.performanceStats s)).

Definition setCanvas (c : Canvas.t) (s : Starfield.t) : Starfield.t :=
  Starfield.mk c (Starfield.config s) (Starfield.stars s)
    (Starfield.starCount s) (Starfield.animationId s) (Starfield.isRunning s)
    (Starfield.backgroundGradient s) (Starfield.centerX s) (Starfield.centerY s)
    (Starfield.tempCanvas s) (Starfield.performanceStats s).

Definition setConfig (c : Config.t) (s : Starfield.t) : Starfield.t :=
  Starfield.mk (Starfield.canvas s) c (Starfield.stars s)
    (Starfield.starCount s) (Starfield.animationId s) (Starfield.isRunning s)
    (Starfield.backgroundGradient s) (Starfield.centerX s) (Starfield.centerY s)
    (Starfield.tempCanvas s) (Starfield.performanceStats s).

Definition setStars (l : list Star.t) (s : Starfield.t) : Starfield.t :=
  Starfield.mk (Starfield.canvas s) (Starfield.config s) l
    (Starfield.starCount s) (Starfield.animationId s) (Starfield.isRunning s)
    (Starfield.backgroundGradient s) (Starfield.centerX s) (Starfield.centerY s)
    (Starfield.tempCanvas s) (Starfield.performanceStats s).

Definition setStarCount (n : Q) (s : Starfield.t) : Starfield.t :=
  Starfield.mk (Starfield.canvas s) (Starfield.config s) (Starfield.stars s)
    n (Starfield.animationId s) (Starfield.isRunning s)
    (Starfield.backgroundGradient s) (Starfield.centerX s) (Starfield.centerY s)
    (Starfield.tempCanvas s) (Starfield.performanceStats s).

Definition setAnimationId (i : option nat) (s : Starfield.t) : Starfield.t :=
  Starfield.mk (Starfield.canvas s) (Starfield.config s) (Starfield.stars s)
    (Starfield.starCount s) i (Starfield.isRunning s)
    (Starfield.backgroundGradient s) (Starfield.centerX s) (Starfield.centerY s)
    (Starfield.tempCanvas s) (Starfield.performanceStats s).

Definition setIsRunning (b : bool) (s : Starfield.t) : Starfield.t :=
  Starfield.mk (Starfield.canvas s) (Starfield.config s) (Starfield.stars s)
    (Starfield.starCount s) (Starfield.animationId s) b
    (Starfield.backgroundGradient s) (Starfield.centerX s) (Starfield.centerY s)
    (Starfield.tempCanvas s) (Starfield.performanceStats s).

Definition setBackgroundGradient (g : option Gradient) (s : Starfield.t) : Starfield.t :=
  Starfield.mk (Starfield.canvas s) (Starfield.config s) (Starfield.stars s)
    (Starfield.starCount s) (Starfield.animationId s) (Starfield.isRunning s)
    g (Starfield.centerX s) (Starfield.centerY s)
    (Starfield.tempCanvas s) (Starfield.performanceStats s).

Definition setCenter (cx cy : Q) (s : Starfield.t) : Starfield.t :=
  Starfield.mk (Starfield.canvas s) (Starfield.config s) (Starfield.stars s)
    (Starfield.starCount s) (Starfield.animationId s) (Starfield.isRunning s)
    (Starfield.backgroundGradient s) cx cy
    (Starfield.tempCanvas s) (Starfield.performanceStats s).

Definition setTempCanvas (c : option (Q * Q)) (s : Starfield.t) : Starfield.t :=
  Starfield.mk (Starfield.canvas s) (Starfield.config s) (Starfield.stars s)
    (Starfield.starCount s) (Starfield.animationId s) (Starfield.isRunning s)
    (Starfield.backgroundGradient s) (Starfield.centerX s) (Starfield.centerY s)
    c (Starfield.performanceStats s).

Definition setFrameTimestamps (l : list Q) (p : Stats.t) : Stats.t :=
  Stats.mk l (Stats.calibrationStartTime p) (Stats.initialCalibrationComplete p)
    (Stats.currentFPS p) (Stats.initialCalibrationAttempts p)
    (Stats.lastOptimizationTime p).

Definition setCalibrationStartTime (t : option Q) (p : Stats.t) : Stats.t :=
  Stats.mk (Stats.frameTimestamps p) t (Stats.initialCalibrationComplete p)
    (Stats.currentFPS p) (Stats.initialCalibrationAttempts p)
    (Stats.lastOptimizationTime p).

Definition setInitialCalibrationComplete (b : bool) (p : Stats.t) : Stats.t :=
  Stats.mk (Stats.frameTimestamps p) (Stats.calibrationStartTime p) b
    (Stats.currentFPS p) (Stats.initialCalibrationAttempts p)
    (Stats.lastOptimizationTime p).

Definition setCurrentFPS (f : jsnum) (p : Stats.t) : Stats.t :=
  Stats.mk (Stats.frameTimestamps p) (Stats.calibrationStartTime p)
    (Stats.initialCalibrationComplete p) f (Stats.initialCalibrationAttempts p)
    (Stats.lastOptimizationTime p).

Definition setInitialCalibrationAttempts (n : Z) (p : Stats.t) : Stats.t :=
  Stats.mk (Stats.frameTimestamps p) (Stats.calibrationStartTime p)
    (Stats.initialCalibrationComplete p) (Stats.currentFPS p) n
    (Stats.lastOptimizationTime p).

Definition setLastOptimizationTime (t : option Q) (p : Stats.t) : Stats.t :=
  Stats.mk (Stats.frameTimestamps p) (Stats.calibrationStartTime p)
    (Stats.initialCalibrationComplete p) (Stats.currentFPS p)
    (Stats.initialCalibrationAttempts p) t.

Definition setNowCalls (n : nat) (b : Browser.t) : Browser.t :=
  Browser.mk (Browser.performance_now b) n (Browser.Math_random b)
    (Browser.randomCalls b) (Browser.localStorage b) (Browser.userAgent b)
    (Browser.hardwareConcurrency b) (Browser.innerWidth b) (Browser.innerHeight b)
    (Browser.nextFrame b) (Browser.pendingFrames b).

Definition setRandomCalls (n : nat) (b : Browser.t) : Browser.t :=
  Browser.mk (Browser.performance_now b) (Browser.nowCalls b) (Browser.Math_random b)
    n (Browser.localStorage b) (Browser.userAgent b)
    (Browser.hardwareConcurrency b) (Browser.innerWidth b) (Browser.innerHeight b)
    (Browser.nextFrame b) (Browser.pendingFrames b).

Definition setLocalStorage (l : LocalStorage) (b : Browser.t) : Browser.t :=
  Browser.mk (Browser.performance_now b) (Browser.nowCalls b) (Browser.Math_random b)
    (Browser.randomCalls b) l (Browser.userAgent b)
    (Browser.hardwareConcurrency b) (Browser.innerWidth b) (Browser.innerHeight b)
    (Browser.nextFrame b) (Browser.pendingFrames b).

Definition setFrames (next : nat) (pending : list nat) (b : Browser.t) : Browser.t :=
  Browser.mk (Browser.performance_now b) (Browser.nowCalls b) (Browser.Math_random b)
    (Browser.randomCalls b) (Browser.localStorage b) (Browser.userAgent b)
    (Browser.hardwareConcurrency b) (Browser.innerWidth b) (Browser.innerHeight b)
    next pending.

(* ================================================================== *)
(** ** The monad of the methods *)

Inductive Outcome (A : Type) : Type :=
(** The call returned [a]. *)
| Returned (a : A) (w : World)
(** The call threw [e]; [w] is the state the throw leaves behind. *)
| Threw (e : Error) (w : World)
(** The nesting bound of [_animate] was reached before the call ended. *)
| Unfinished.

Arguments Returned {A} a w.
Arguments Threw {A} e w.
Arguments Unfinished {A}.

Definition M (A : Type) : Type := World -> Outcome A.

Definition ret {A : Type} (a : A) : M A := fun w => Returned a w.

Definition bind {A B : Type} (m : M A) (k : A -> M B) : M B :=
  fun w =>
    match m w with
    | Returned a w' => k a w'
    | Threw e w' => Threw e w'
    | Unfinished => Unfinished
    end.

Definition throw {A : Type} (e : Error) : M A := fun w => Threw e w.

Notation "x <- m ;; k" := (bind m (fun x => k))
  (at level 62, m at next level, right associativity).
Notation "m ;; k" := (bind m (fun _ => k))
  (at level 62, right associativity).

Definition getThis : M Starfield.t := fun w => Returned (this w) w.
Definition getBrowser : M Browser.t := fun w => Returned (browser w) w.

Definition modifyThis (f : Starfield.t -> Starfield.t) : M unit :=
  fun w => Returned tt (mkWorld (f (this w)) (browser w)).

Definition modifyBrowser (f : Browser.t -> Browser.t) : M unit :=
  fun w => Returned tt (mkWorld (this w) (f (browser w))).

Definition modifyStats (f : Stats.t -> Stats.t) : M unit :=
  modifyThis (setStats f).

Definition when (c : bool) (m : M unit) : M unit :=
  if c then m else ret tt.

(** [for (const a of l) body(a)], collecting the results. *)
Fixpoint forEach {A B : Type} (body : A -> M B) (l : list A) : M (list B) :=
  match l with
  | [] => ret []
  | a :: rest =>
      b <- body a ;;
      bs <- forEach body rest ;;
      ret (b :: bs)
  end.

(** [for (let i = 0; i < n; i++) body()], collecting the results. *)
Fixpoint times {B : Type} (n : nat) (body : M B) : M (list B) :=
  match n with
  | O => ret []
  | S k =>
      b <- body ;;
      bs <- times k body ;;
      ret (b :: bs)
  end.

(** Iterations of [for (let i = 0; i < bound; i++)]. *)
Definition iterations (bound : Q) : nat := Z.to_nat (Qceiling bound).

(** *** Browser services *)

Definition Math_random : M Q :=
  b <- getBrowser ;;
  modifyBrowser (setRandomCalls (S (Browser.randomCalls b))) ;;
  ret (Browser.Math_random b (Browser.randomCalls b)).

Definition performance_now : M Q :=
  b <- getBrowser ;;
  modifyBrowser (setNowCalls (S (Browser.nowCalls b))) ;;
  ret (Browser.performance_now b (Browser.nowCalls b)).

Definition requestAnimationFrame : M nat :=
  b <- getBrowser ;;
  let id := Browser.nextFrame b in
  modifyBrowser (setFrames (S id) (Browser.pendingFrames b ++ [id])) ;;
  ret id.

Definition cancelAnimationFrame (id : nat) : M unit :=
  b <- getBrowser ;;
  modifyBrowser
    (setFrames (Browser.nextFrame b)
       (filter (fun i => negb (Nat.eqb i id)) (Browser.pendingFrames b))).

(** [try { localStorage.setItem(key, text) } catch (e) {}]. *)
Definition trySetItem (item : StoredItem) : M unit :=
  b <- getBrowser ;;
  match Browser.localStorage b with
  | StorageUnavailable => ret tt
  | Storage _ => modifyBrowser (setLocalStorage (Storage (Some item)))
  end.

(** [n.toString()] as a stored item. *)
Definition toStringItem (n : jsnum) : StoredItem :=
  match n with
  | Fin q => Written q
  | PInf => Foreign "Infinity"
  | NInf => Foreign "-Infinity"
  | NaN => Foreign "NaN"
  end.

(** *** [parseInt(text, 10)] *)

Definition isWhiteSpace (c : ascii) : bool :=
  let n := nat_of_ascii c in
  Nat.eqb n 32 || (Nat.leb 9 n && Nat.leb n 13).

Fixpoint skipWhiteSpace (s : string) : string :=
  match s with
  | String c rest => if isWhiteSpace c then skipWhiteSpace rest else s
  | EmptyString => s
  end.

Definition digitOf (c : ascii) : option Z :=
  let n := nat_of_ascii c in
  if Nat.leb 48 n && Nat.leb n 57 then Some (Z.of_nat (n - 48)) else None.

(** The longest prefix of decimal digits; [None] when it is empty. *)
Fixpoint leadingDigits (s : string) (acc : option Z) : option Z :=
  match s with
  | String c rest =>
      match digitOf c with
      | Some d =>
          leadingDigits rest
            (Some (10 * match acc with Some a => a | None => 0 end + d)%Z)
      | None => acc
      end
  | EmptyString => acc
  end.

(** [None] is [NaN]. *)
Definition parseIntText (s : string) : option Z :=
  match skipWhiteSpace s with
  | String "-"%char rest => option_map Z.opp (leadingDigits rest None)
  | String "+"%char rest => leadingDigits rest None
  | rest => leadingDigits rest None
  end.

(** The integer part of a number, towards zero. *)
Definition truncate (q : Q) : Z := Z.quot (Qnum q) (Zpos (Qden q)).

(** [parseInt(cached, 10)]: the text of a written number reads back as its
    integer part (the numbers written are counts between 1 and 50000, printed
    in plain decimal notation). *)
Definition parseInt (item : StoredItem) : option Z :=
  match item with
  | Written n => Some (truncate n)
  | Foreign text => parseIntText text
  end.

(** Truthiness of the string [getItem] returned. *)
Definition nonEmpty (item : StoredItem) : bool :=
  match item with
  | Written _ => true
  | Foreign EmptyString => false
  | Foreign _ => true
  end.

(** *** The user agent test [/Android|iPhone|iPad|iPod/i] *)

Definition lowerCase (c : ascii) : ascii :=
  let n := nat_of_ascii c in
  if Nat.leb 65 n && Nat.leb n 90 then ascii_of_nat (n + 32) else c.

Fixpoint startsWithCI (word s : string) : bool :=
  match word, s with
  | EmptyString, _ => true
  | String a word', String b s' =>
      Ascii.eqb (lowerCase a) (lowerCase b) && startsWithCI word' s'
  | String _ _, EmptyString => false
  end.

Fixpoint containsCI (word s : string) : bool :=
  startsWithCI word s ||
  match s with
  | String _ rest => containsCI word rest
  | EmptyString => false
  end.

Definition isMobileAgent (agent : string) : bool :=
  containsCI "Android" agent || containsCI "iPhone" agent ||
  containsCI "iPad" agent || containsCI "iPod" agent.

(* ================================================================== *)
(** ** The methods of the class *)

(** [_detectDeviceCapability()]. *)
Definition cachedCount (b : Browser.t) (maxStarCount : Q) : option Q :=
  match Browser.localStorage b with
  | StorageUnavailable => None                    (* getItem throws: caught *)
  | Storage None => None                          (* null *)
  | Storage (Some cached) =>
      if nonEmpty cached then
        match parseInt cached with
        | Some count =>
            if Qle_bool 100 (inject_Z count) && Qle_bool (inject_Z count) maxStarCount
            then Some (inject_Z count)
            else None
        | None => None
        end
      else None
  end.

Definition lowEnd (b : Browser.t) : bool :=
  match Browser.hardwareConcurrency b with
  | Some n => negb (Z.eqb n 0) && Z.leb n 4
  | None => false
  end.

Definition _detectDeviceCapability : M Q :=
  s <- getThis ;;
  b <- getBrowser ;;
  match cachedCount b (Config.maxStarCount (Starfield.config s)) with
  | Some count => ret count
  | None =>
      let isMobile := isMobileAgent (Browser.userAgent b) in
      ret (if isMobile || lowEnd b
           then DeviceDetection.mobile (Config.deviceDetection (Starfield.config s))
           else DeviceDetection.desktop (Config.deviceDetection (Starfield.config s)))
  end.

(** [resize()].  Assigning the width of a canvas clears it. *)
Definition resize : M unit :=
  b <- getBrowser ;;
  let w := Browser.innerWidth b in
  let h := Browser.innerHeight b in
  modifyThis (setCanvas (Canvas.mk w h [])) ;;
  modifyThis (setCenter (w / 2) (h / 2)) ;;
  modifyThis (setBackgroundGradient None).

Definition _setupCanvas : M unit := resize.

(** [const [minHue, maxHue] = Array.isArray(hue) ? hue : [hue, hue]]. *)
Definition hueBounds (h : Hue) : Q * Q :=
  match h with
  | HueRange lo hi => (lo, hi)
  | HueValue v => (v, v)
  end.

(** [_createStar()]: five calls of [Math.random], in the order of the
    object literal. *)
Definition _createStar : M Star.t :=
  s <- getThis ;;
  let starSize := Config.starSize (Starfield.config s) in
  let starColors := Config.starColors (Starfield.config s) in
  let '(minHue, maxHue) := hueBounds (StarColors.hue starColors) in
  r1 <- Math_random ;;
  r2 <- Math_random ;;
  r3 <- Math_random ;;
  r4 <- Math_random ;;
  r5 <- Math_random ;;
  ret (Star.mk
         ((r1 - (5 # 10)) * 2000)
         ((r2 - (5 # 10)) * 2000)
         (r3 * 2000)
         (StarSize.min starSize + r4 * (StarSize.max starSize - StarSize.min starSize))
         (minHue + r5 * (maxHue - minHue))).

(** [_project(x, y, z)]: reads [this], writes nothing. *)
Module Projected.
Record t : Type := mk { x : jsnum; y : jsnum; scale : jsnum }.
End Projected.

Definition _project (s : Starfield.t) (x y z : Q) : Projected.t :=
  let focalLength := Config.focalLength (Starfield.config s) in
  let scale := (Fin focalLength / Fin (focalLength + z))%js in
  Projected.mk
    (Fin (Starfield.centerX s) + Fin x * scale)%js
    (Fin (Starfield.centerY s) + Fin y * scale)%js
    scale.

(** The body of the loop of [_update()] for one star. *)
Definition updateStar (speed : Q) (star : Star.t) : M Star.t :=
  let z' := Star.z star - speed in
  if Qle_bool z' (-200) then
    newStar <- _createStar ;;
    ret (Star.mk (Star.x newStar) (Star.y newStar) (Star.z newStar)
           (Star.baseSize newStar) (Star.hue newStar))
  else
    ret (Star.mk (Star.x star) (Star.y star) z' (Star.baseSize star) (Star.hue star)).

(** [_update()]. *)
Definition _update : M unit :=
  s <- getThis ;;
  let speed := Config.speed (Starfield.config s) in
  stars' <- forEach (updateStar speed) (Starfield.stars s) ;;
  modifyThis (setStars stars').

(** *** Drawing *)

Definition Qmax (a b : Q) : Q := if Qle_bool a b then b else a.

Definition draw (c : DrawCall) : M unit :=
  modifyThis (fun s =>
    let cv := Starfield.canvas s in
    setCanvas (Canvas.mk (Canvas.width cv) (Canvas.height cv) (Canvas.calls cv ++ [c])) s).

Definition clearRect : M unit :=
  modifyThis (fun s =>
    let cv := Starfield.canvas s in
    setCanvas (Canvas.mk (Canvas.width cv) (Canvas.height cv) []) s).

(** [_drawBackgroundGradient()].  [addColorStop] is taken to accept every
    stop.  A background object without [colors], or one with colour stops whose
    [type] is not ['radial'], makes the method throw a [TypeError]. *)
Definition _drawBackgroundGradient : M unit :=
  s <- getThis ;;
  match Config.background (Starfield.config s) with
  | None => ret tt
  | Some bg =>
      let cv := Starfield.canvas s in
      (match Starfield.backgroundGradient s with
       | Some _ => ret tt
       | None =>
           let created :=
             match BackgroundO.type bg with
             | Some t =>
                 if String.eqb t "radial"
                 then Some (mkGradient (Starfield.centerX s) (Starfield.centerY s)
                              (Qmax (Canvas.width cv) (Canvas.height cv)) [])
                 else None
             | None => None
             end in
           modifyThis (setBackgroundGradient created) ;;
           match BackgroundO.colors bg with
           | None => throw (TypeError "colors.forEach")
           | Some [] => ret tt
           | Some stops =>
               match created with
               | None => throw (TypeError "this.backgroundGradient.addColorStop")
               | Some g =>
                   modifyThis (setBackgroundGradient
                     (Some (mkGradient (gradX g) (gradY g) (gradRadius g) stops)))
               end
           end
       end) ;;
      s' <- getThis ;;
      draw (FillRect (Starfield.backgroundGradient s') (Canvas.width cv) (Canvas.height cv))
  end.

(** The callback of [this.stars.forEach] in [_render()]. *)
Definition renderStar (s : Starfield.t) (star : Star.t) : option Disc :=
  let p := _project s (Star.x star) (Star.y star) (Star.z star) in
  if (Projected.scale p <=? Fin 0)%js then None
  else
    let size := (Fin (Star.baseSize star) * Projected.scale p)%js in
    let brightness := Js.min (Fin 1) (Projected.scale p * Fin (7 # 10))%js in
    let starColors := Config.starColors (Starfield.config s) in
    Some (mkDisc (Star.hue star) (StarColors.saturation starColors)
            (StarColors.lightness starColors) brightness
            (Projected.x p) (Projected.y p) size).

Fixpoint renderStars (s : Starfield.t) (stars : list Star.t) : list DrawCall :=
  match stars with
  | [] => []
  | star :: rest =>
      match renderStar s star with
      | Some d => FillDisc d :: renderStars s rest
      | None => renderStars s rest
      end
  end.

Definition sameSize (a b : Q * Q) : bool :=
  Qeq_bool (fst a) (fst b) && Qeq_bool (snd a) (snd b).

(** [_render()].  A new canvas element is 300 by 150. *)
Definition _render : M unit :=
  s <- getThis ;;
  let trailEffect := Config.trailEffect (Starfield.config s) in
  let cv := Starfield.canvas s in
  let temp := match Starfield.tempCanvas s with
              | Some size => size
              | None => (300, 150)
              end in
  modifyThis (setTempCanvas
    (Some (if sameSize temp (Canvas.width cv, Canvas.height cv)
           then temp else (Canvas.width cv, Canvas.height cv)))) ;;
  clearRect ;;
  _drawBackgroundGradient ;;
  when (Js.ltb 0 trailEffect) (draw (DrawPreviousFrame trailEffect)) ;;
  s' <- getThis ;;
  let cv' := Starfield.canvas s' in
  modifyThis (setCanvas
    (Canvas.mk (Canvas.width cv') (Canvas.height cv')
       (Canvas.calls cv' ++ renderStars s' (Starfield.stars s')))).

(** *** The frame clock *)

(** [for (let i = 1; i < timestamps.length; i++)
       totalInterval += timestamps[i] - timestamps[i - 1]]. *)
Fixpoint sumIntervals (totalInterval : jsnum) (previous : Q) (rest : list Q) : jsnum :=
  match rest with
  | [] => totalInterval
  | t :: rest' => sumIntervals (totalInterval + (Fin t - Fin previous))%b64 t rest'
  end.

Definition totalInterval (timestamps : list Q) : jsnum :=
  match timestamps with
  | [] => Fin 0
  | t0 :: rest => sumIntervals (Fin 0) t0 rest
  end.

(** [totalInterval / (timestamps.length - 1)]. *)
Definition avgInterval (timestamps : list Q) : jsnum :=
  (totalInterval timestamps /
   Fin (inject_Z (Z.of_nat (List.length timestamps) - 1)))%b64.

(** [1000 / avgInterval]. *)
Definition measuredFPS (timestamps : list Q) : jsnum :=
  (Fin 1000 / avgInterval timestamps)%b64.

(** [push(now)] and the [shift()] that keeps the last 120. *)
Definition pushTimestamp (now : Q) (timestamps : list Q) : list Q :=
  let pushed := timestamps ++ [now] in
  if Nat.ltb 120 (List.length pushed) then tl pushed else pushed.

(** Truthiness of a time that is [null] until it is first set. *)
Definition truthy (t : option Q) : bool :=
  match t with
  | Some q => negb (Js.isZero q)
  | None => false
  end.

(** The first statements of [_animate()], up to the start of the calibration
    timer: record the frame, refresh [currentFPS]. *)
Definition recordFrame (now : Q) (p : Stats.t) : Stats.t :=
  let timestamps := pushTimestamp now (Stats.frameTimestamps p) in
  let p1 := setFrameTimestamps timestamps p in
  let p2 := if Nat.leb 10 (List.length timestamps)
            then setCurrentFPS (Js.round (measuredFPS timestamps)) p1
            else p1 in
  if truthy (Stats.calibrationStartTime p2) then p2
  else setCalibrationStartTime (Some now) p2.

(** [now - t] for a time that may still be [null] (which counts as 0). *)
Definition since (now : Q) (t : option Q) : jsnum :=
  (Fin now - Fin (match t with Some q => q | None => 0 end))%b64.

(** *** [stop()], [start()] *)

Definition stop : M unit :=
  modifyThis (setIsRunning false) ;;
  s <- getThis ;;
  match Starfield.animationId s with
  | Some (S _ as id) =>
      cancelAnimationFrame id ;;
      modifyThis (setAnimationId None)
  | _ => ret tt
  end.

(** [start()], given what the call [this._animate()] does. *)
Definition start_body (animate : M unit) : M unit :=
  s <- getThis ;;
  if Starfield.isRunning s then ret tt
  else
    modifyThis (setIsRunning true) ;;
    animate.

(** *** [updateConfig(newConfig)] *)

(** [this.stars.splice(start)]: what is left of the array. *)
Definition splice {A : Type} (start : Q) (l : list A) : list A :=
  let k := truncate start in
  let len := Z.of_nat (List.length l) in
  firstn (Z.to_nat (if Z.ltb k 0 then Z.max (len + k) 0 else Z.min k len)) l.

(** [if (newConfig.starCount !== undefined) { ... }]: the new count and the
    stars added at the end or removed from it. *)
Definition recalculateStarCount : M unit :=
  s <- getThis ;;
  let oldStarCount := Starfield.starCount s in
  n <- match Config.starCount (Starfield.config s) with
       | Auto => _detectDeviceCapability
       | Count n => ret n
       end ;;
  modifyThis (setStarCount n) ;;
  if Js.ltb oldStarCount n then
    let starsToAdd := n - oldStarCount in
    added <- times (iterations starsToAdd) _createStar ;;
    modifyThis (fun s' => setStars (Starfield.stars s' ++ added) s')
  else if Js.ltb n oldStarCount then
    modifyThis (fun s' => setStars (splice n (Starfield.stars s')) s')
  else ret tt.

(** [else if (newConfig.starColors || newConfig.starSize) { ... }]: the
    callback of [this.stars.forEach]. *)
Definition restyleStar (newConfig : Options.t) (config : Config.t) (star : Star.t)
  : M Star.t :=
  let starSize := Config.starSize config in
  let '(minHue, maxHue) := hueBounds (StarColors.hue (Config.starColors config)) in
  baseSize' <-
    match Options.starSize newConfig with
    | Some _ =>
        r <- Math_random ;;
        ret (StarSize.min starSize + r * (StarSize.max starSize - StarSize.min starSize))
    | None => ret (Star.baseSize star)
    end ;;
  hue' <-
    match Options.starColors newConfig with
    | Some c =>
        match StarColorsO.hue c with
        | Some _ =>
            r <- Math_random ;;
            ret (minHue + r * (maxHue - minHue))
        | None => ret (Star.hue star)
        end
    | None => ret (Star.hue star)
    end ;;
  ret (Star.mk (Star.x star) (Star.y star) (Star.z star) baseSize' hue').

(** The part of [updateConfig] between the merge and the restart:
    the count, or else the styles, then the gradient cache. *)
Definition applyStarChanges (newConfig : Options.t) : M unit :=
  (if isSome (Options.starCount newConfig) then
     recalculateStarCount
   else if isSome (Options.starColors newConfig) || isSome (Options.starSize newConfig) then
     s <- getThis ;;
     stars' <- forEach (restyleStar newConfig (Starfield.config s)) (Starfield.stars s) ;;
     modifyThis (setStars stars')
   else ret tt) ;;
  when (isSome (Options.background newConfig))
    (modifyThis (setBackgroundGradient None)).

(** [updateConfig(newConfig)], given what the call [this.start()] does. *)
Definition updateConfig_body (start : M unit) (newConfig : Options.t) : M unit :=
  s <- getThis ;;
  let wasRunning := Starfield.isRunning s in
  when wasRunning stop ;;
  (* Validate new config before merging *)
  match _validateConfig newConfig with
  | Some e => throw e
  | None =>
      (* Merge new config *)
      modifyThis (fun s' =>
        setConfig (resolve (_mergeDeep (embed (Starfield.config s')) newConfig)) s') ;;
      applyStarChanges newConfig ;;
      when wasRunning start
  end.

(** *** [_runOptimization(now)] *)

(** The count the initial calibration asks for:
    [Math.max(100, Math.min(maxStars, Math.round(starCount * (fpsRatio * aggressiveness))))]. *)
Definition aggressiveness (fpsRatio : jsnum) : jsnum :=
  (literal (75 # 100) + Js.min fpsRatio (Fin 4) / Fin 20)%b64.

Definition calibrationCount (starCount maxStars : Q) (fpsRatio : jsnum) : jsnum :=
  let newStarCount := Js.round (Fin starCount * (fpsRatio * aggressiveness fpsRatio))%b64 in
  Js.max (Fin 100) (Js.min (Fin maxStars) newStarCount).

(** [Math.round(this.starCount * 0.2)]. *)
Definition maxChangeOf (starCount : Q) : jsnum :=
  Js.round (Fin starCount * literal (2 # 10))%b64.

(** The count the continuous optimization asks for. *)
Definition continuousCount (starCount maxStars : Q) (fpsRatio : jsnum) : jsnum :=
  let conservativeMultiplier := literal (9 # 10) in
  let newStarCount := Js.round (Fin starCount * (fpsRatio * conservativeMultiplier))%b64 in
  let maxChange := maxChangeOf starCount in
  let minStars := (Fin starCount - maxChange)%b64 in
  let maxStarsThisStep := (Fin starCount + maxChange)%b64 in
  let newStarCount := Js.max minStars (Js.min maxStarsThisStep newStarCount) in
  Js.max (Fin 100) (Js.min (Fin maxStars) newStarCount).

Definition changePercent (starCount : Q) (clampedCount : jsnum) : jsnum :=
  Js.abs ((clampedCount - Fin starCount) / Fin starCount)%b64.

(** [{ starCount: clampedCount }]. *)
Definition starCountOnly (clampedCount : jsnum) : Options.t :=
  Options.mk (Some (CountO clampedCount))
    None None None None None None None None None None.

(** The end of the initial calibration: the two places that mark it complete. *)
Definition completeCalibration (now : Q) (stored : Q) : M unit :=
  modifyStats (setInitialCalibrationComplete true) ;;
  modifyStats (setLastOptimizationTime (Some now)) ;;
  trySetItem (Written stored) ;;
  modifyStats (setCalibrationStartTime (Some now)).

(** [_runOptimization(now)], given what [this.updateConfig] does.
    [console.log] under [config.debug] is not modelled. *)
Definition _runOptimization_body (updateConfig : Options.t -> M unit) (now : Q) : M unit :=
  s <- getThis ;;
  let stats := Starfield.performanceStats s in
  let isInitialPhase := negb (Stats.initialCalibrationComplete stats) in
  let measurementDuration :=
    if isInitialPhase then initialCalibrationDuration
    else continuousOptimizationDuration in
  let elapsed := since now (Stats.calibrationStartTime stats) in
  (* Wait for measurement period to complete *)
  if (elapsed <? Fin measurementDuration)%js then ret tt
  (* For continuous optimization, enforce minimum interval between adjustments *)
  else if negb isInitialPhase
          && truthy (Stats.lastOptimizationTime stats)
          && (since now (Stats.lastOptimizationTime stats) <? Fin optimizationInterval)%js
  then modifyStats (setCalibrationStartTime (Some now))
  else
    let timestamps := Stats.frameTimestamps stats in
    if Nat.ltb (List.length timestamps) 10 then ret tt
    else
      let fpsRatio := (measuredFPS timestamps / Fin targetFPS)%b64 in
      let maxStars := Config.maxStarCount (Starfield.config s) in
      let starCount := Starfield.starCount s in
      if isInitialPhase then
        (* INITIAL CALIBRATION (aggressive) *)
        let isWithinRange :=
          (fpsRatio >=? literal (9 # 10))%js && (fpsRatio <=? literal (15 # 10))%js in
        let maxAttemptsReached :=
          Z.leb maxInitialCalibrationAttempts (Stats.initialCalibrationAttempts stats) in
        if isWithinRange || maxAttemptsReached then
          completeCalibration now starCount
        else
          modifyStats (setInitialCalibrationAttempts
                         (Stats.initialCalibrationAttempts stats + 1)%Z) ;;
          let clampedCount := calibrationCount starCount maxStars fpsRatio in
          if Js.eqb clampedCount (Fin maxStars) && Qeq_bool starCount maxStars
             && (fpsRatio >? literal (15 # 10))%js
          then completeCalibration now maxStars
          else
            modifyStats (setCalibrationStartTime (Some now)) ;;
            updateConfig (starCountOnly clampedCount)
      else
        (* CONTINUOUS OPTIMIZATION (conservative) *)
        let isWithinRange :=
          (fpsRatio >=? literal (85 # 100))%js && (fpsRatio <=? literal (13 # 10))%js in
        if isWithinRange then modifyStats (setCalibrationStartTime (Some now))
        else
          let clampedCount := continuousCount starCount maxStars fpsRatio in
          if (changePercent starCount clampedCount <? literal (5 # 100))%js then
            modifyStats (setCalibrationStartTime (Some now))
          else
            modifyStats (setCalibrationStartTime (Some now)) ;;
            modifyStats (setLastOptimizationTime (Some now)) ;;
            trySetItem (toStringItem clampedCount) ;;
            updateConfig (starCountOnly clampedCount).

(** *** [_animate()] *)

(** [_animate()], given what [this._runOptimization] does. *)
Definition _animate_body (runOptimization : Q -> M unit) : M unit :=
  s <- getThis ;;
  if negb (Starfield.isRunning s) then ret tt
  else
    now <- performance_now ;;
    modifyStats (recordFrame now) ;;
    runOptimization now ;;
    _update ;;
    _render ;;
    id <- requestAnimationFrame ;;
    modifyThis (setAnimationId (Some id)).

(** The cycle [_animate -> _runOptimization -> updateConfig -> start ->
    _animate], unfolded at most [depth] times. *)
Fixpoint _animate (depth : nat) : M unit :=
  match depth with
  | O => fun _ => Unfinished
  | S d =>
      _animate_body
        (_runOptimization_body
           (updateConfig_body (start_body (_animate d))))
  end.

Definition start (depth : nat) : M unit := start_body (_animate depth).

Definition updateConfig (depth : nat) (newConfig : Options.t) : M unit :=
  updateConfig_body (start depth) newConfig.

Definition _runOptimization (depth : nat) (now : Q) : M unit :=
  _runOptimization_body (updateConfig depth) now.

(** *** The constructor, [destroy()], [getCurrentFPS()] *)

Definition initialStats : Stats.t :=
  Stats.mk [] None false (Fin 0) 0 None.

(** The object before the constructor has assigned anything. *)
Definition uninitialised : Starfield.t :=
  Starfield.mk (Canvas.mk 300 150 []) defaults [] 0 None false None 0 0 None
    initialStats.

(** [new Starfield(canvas, options)] for a canvas element that exists. *)
Definition constructor (depth : nat) (options : Options.t) : M unit :=
  let merged := _mergeDeep (embed defaults) options in
  modifyThis (setConfig (resolve merged)) ;;
  match _validateConfig merged with
  | Some e => throw e
  | None =>
      modifyThis (setStars []) ;;
      modifyThis (setAnimationId None) ;;
      modifyThis (setIsRunning false) ;;
      modifyThis (setBackgroundGradient None) ;;
      modifyStats (fun _ => initialStats) ;;
      s <- getThis ;;
      n <- match Config.starCount (Starfield.config s) with
           | Auto => _detectDeviceCapability
           | Count n => ret n
           end ;;
      modifyThis (setStarCount n) ;;
      created <- times (iterations n) _createStar ;;
      modifyThis (setStars created) ;;
      _setupCanvas ;;
      when (Config.autoStart (Starfield.config s)) (start depth)
  end.

Definition new_Starfield (depth : nat) (options : Options.t) (b : Browser.t)
  : Outcome unit :=
  constructor depth options (mkWorld uninitialised b).

Definition destroy : M unit :=
  stop ;;
  clearRect ;;
  modifyThis (setStars []).


(** *** The host *)

(** The browser runs the pending callbacks in the order in which they were
    requested; each is [() => this._animate()]. *)
Definition runCallback (depth : nat) : M unit :=
  b <- getBrowser ;;
  match Browser.pendingFrames b with
  | [] => ret tt
  | _ :: rest =>
      modifyBrowser (setFrames (Browser.nextFrame b) rest) ;;
      _animate depth
  end.

(* ================================================================== *)
(** * Vocabulary of the statements *)

(** ** Invariants and postconditions *)

(** [stable Inv m]: if [Inv] holds before the call [m], it holds after it,
    whether the call returns or throws. *)
Definition stable (Inv : World -> Prop) {A : Type} (m : M A) : Prop :=
  forall w, Inv w ->
    match m w with
    | Returned _ w' => Inv w'
    | Threw _ w' => Inv w'
    | Unfinished => True
    end.

(** An invariant of [this.performanceStats] alone. *)
Definition onStats (P : Stats.t -> Prop) (w : World) : Prop :=
  P (Starfield.performanceStats (this w)).

(** [returns Pre m Post]: from a state in [Pre], a call of [m] that returns
    ends in [Post]. *)
Definition returns (Pre : World -> Prop) {A : Type} (m : M A) (Post : World -> Prop) : Prop :=
  forall w, Pre w ->
    match m w with
    | Returned _ w' => Post w'
    | _ => True
    end.

(** ** Sampling and the advance step *)

(** The star [_createStar] builds from five values of [Math.random]. *)
Definition sampleStar (c : Config.t) (r1 r2 r3 r4 r5 : Q) : Star.t :=
  let starSize := Config.starSize c in
  let bounds := hueBounds (StarColors.hue (Config.starColors c)) in
  Star.mk
    ((r1 - (5 # 10)) * 2000)
    ((r2 - (5 # 10)) * 2000)
    (r3 * 2000)
    (StarSize.min starSize + r4 * (StarSize.max starSize - StarSize.min starSize))
    (fst bounds + r5 * (snd bounds - fst bounds)).

(** The star sampled from the calls [i], ..., [i + 4] of [Math.random]. *)
Definition sampleAt (c : Config.t) (rnd : nat -> Q) (i : nat) : Star.t :=
  sampleStar c (rnd i) (rnd (1 + i)%nat) (rnd (2 + i)%nat) (rnd (3 + i)%nat) (rnd (4 + i)%nat).

(** The world after [k] more calls of [Math.random]. *)
Definition drawn (k : nat) (w : World) : World :=
  mkWorld (this w) (setRandomCalls (k + Browser.randomCalls (browser w)) (browser w)).



(** The range of [Math.random]: at least 0, below 1. *)
Definition unitRandom (b : Browser.t) : Prop :=
  forall n, 0 <= Browser.Math_random b n /\ Browser.Math_random b n < 1.

(** ** The frame clock *)





(** [q] is a binary64 number. *)
Definition isBinary64 (q : Q) : bool :=
  match Binary64.round q with
  | Fin r => Qeq_bool r q
  | _ => false
  end.





(** Eleven intervals in 400 ms (timestamps 0, 36.36..., ..., 400 as binary64
    numbers): the mean interval comes out as 36.36363636363637, a little
    above 400/11, and 1000 divided by it is 27.499999999999996. *)
Definition elevenIn400 : list Q :=
  map (fun k => binary64 (inject_Z (Z.of_nat k) * (400 # 11))) (seq 0 12).

(** ** Rendering *)

(** The disc [_render] draws for a star, as the specification words it. *)
Definition discOf (s : Starfield.t) (star : Star.t) : Disc :=
  let p := _project s (Star.x star) (Star.y star) (Star.z star) in
  let starColors := Config.starColors (Starfield.config s) in
  mkDisc (Star.hue star) (StarColors.saturation starColors)
    (StarColors.lightness starColors)
    (Js.min (Fin 1) (Projected.scale p * Fin (7 # 10))%js)
    (Projected.x p) (Projected.y p)
    (Fin (Star.baseSize star) * Projected.scale p)%js.

Definition isDisc (c : DrawCall) : bool :=
  match c with FillDisc _ => true | _ => false end.

(** ** The cached count *)

(** The specification's words: a value clamped to [lo, hi]. *)
Definition clamp (lo hi v : Q) : Q := Qmax lo (if Qle_bool v hi then v else hi).

(** The count of the device heuristic. *)
Definition deviceCount (c : Config.t) (b : Browser.t) : Q :=
  if isMobileAgent (Browser.userAgent b) || lowEnd b
  then DeviceDetection.mobile (Config.deviceDetection c)
  else DeviceDetection.desktop (Config.deviceDetection c).

(** The cached text read as a count: [None] when storage throws, holds
    nothing, or holds a text that [parseInt] does not read as a number. *)
Definition readCache (b : Browser.t) : option Z :=
  match Browser.localStorage b with
  | Storage (Some item) => if nonEmpty item then parseInt item else None
  | _ => None
  end.

(** A desktop browser with the given storage. *)
Definition desktopBrowser (storage : LocalStorage) : Browser.t :=
  Browser.mk (fun n => binary64 (inject_Z (Z.of_nat (S n)) * (100 # 3))) 0
    (fun _ => 1 # 2) 0 storage
    "Mozilla/5.0 (X11; Linux x86_64) Firefox/130.0" (Some 8%Z) 800 600 1 [].

(** Options that leave [starCount] at ['auto'] and ask for small fallback
    counts and no automatic start. *)
Definition smallAutoOptions : Options.t :=
  Options.mk None None None None None None None None (Some false) None
    (Some (DeviceDetectionO.mk (Some (Fin 5)) (Some (Fin 7)))).

Definition startedWith (o : Outcome unit) : option (Q * nat) :=
  match o with
  | Returned _ w => Some (Starfield.starCount (this w), List.length (Starfield.stars (this w)))
  | _ => None
  end.

(** ** [updateConfig] *)

(** The stars [n] calls of [_createStar] build, the first from call [i]. *)
Fixpoint samples (c : Config.t) (rnd : nat -> Q) (i n : nat) : list Star.t :=
  match n with
  | O => []
  | S k => sampleAt c rnd i :: samples c rnd (5 + i) k
  end.

(** The state [stop()] leaves. *)
Definition stopped (w : World) : World :=
  match stop w with
  | Returned _ w' => w'
  | _ => w
  end.

(** The count [recalculateStarCount] adopts. *)
Definition targetCount (w : World) : Q :=
  match Config.starCount (Starfield.config (this w)) with
  | Count n => n
  | Auto =>
      match cachedCount (browser w) (Config.maxStarCount (Starfield.config (this w))) with
      | Some count => count
      | None => deviceCount (Starfield.config (this w)) (browser w)
      end
  end.

(** The stars after [recalculateStarCount]. *)
Definition resized (w : World) : list Star.t :=
  let n := targetCount w in
  let old := Starfield.starCount (this w) in
  let stars := Starfield.stars (this w) in
  if Js.ltb old n then
    stars ++ samples (Starfield.config (this w)) (Browser.Math_random (browser w))
               (Browser.randomCalls (browser w)) (iterations (n - old))
  else if Js.ltb n old then splice n stars
  else stars.


(** [this.config = this._mergeDeep(this.config, newConfig)]. *)
Definition merged (newConfig : Options.t) (w : World) : World :=
  mkWorld
    (setConfig (resolve (_mergeDeep (embed (Starfield.config (this w))) newConfig)) (this w))
    (browser w).

(** ** The controller *)

(** [fpsRatio = measuredFPS / targetFPS]. *)
Definition fpsRatioOf (timestamps : list Q) : jsnum :=
  (measuredFPS timestamps / Fin targetFPS)%b64.

(** A whole number or an infinity. *)
Definition whole (a : jsnum) : Prop :=
  match a with
  | Fin q => exists j : Z, q == inject_Z j
  | _ => True
  end.

(** The state [trySetItem] leaves. *)
Definition stored (item : StoredItem) (w : World) : World :=
  mkWorld (this w)
    (match Browser.localStorage (browser w) with
     | StorageUnavailable => browser w
     | Storage _ => setLocalStorage (Storage (Some item)) (browser w)
     end).

(** The parts of [this] the controller itself never writes. *)
Definition sameField (w w' : World) : Prop :=
  Starfield.starCount (this w') = Starfield.starCount (this w) /\
  Starfield.stars (this w') = Starfield.stars (this w) /\
  Starfield.config (this w') = Starfield.config (this w) /\
  Starfield.isRunning (this w') = Starfield.isRunning (this w).

(** What one evaluation of the continuous phase does. *)
Definition continuousStep (depth : nat) (now : Q) (w : World) : Prop :=
  let n := Starfield.starCount (this w) in
  let maxStars := Config.maxStarCount (Starfield.config (this w)) in
  let r := fpsRatioOf (Stats.frameTimestamps (Starfield.performanceStats (this w))) in
  let c := continuousCount n maxStars r in
  (* no adjustment: the count, the stars and the configuration stay *)
  (exists w', _runOptimization depth now w = Returned tt w' /\ sameField w w') \/
  (* an adjustment: the call updateConfig({ starCount: c }) *)
  (exists w',
     _runOptimization depth now w = updateConfig depth (starCountOnly c) w' /\
     sameField w w' /\
     (* the two tests of the program, on the numbers it computes *)
     ((r >=? literal (85 # 100))%js && (r <=? literal (13 # 10))%js = false) /\
     (changePercent n c <? literal (5 # 100))%js = false /\
     (* whole numbers of stars, the count inside [100, maxStarCount]: the
        bounds hold in exact arithmetic *)
     (forall k m : Z,
        n == inject_Z k -> maxStars == inject_Z m ->
        100 <= n -> n <= maxStars -> maxStars <= 50000 -> r <> NaN ->
        exists q maxChange,
          c = Fin q /\
          maxChangeOf n = Fin maxChange /\
          Qabs (q - n) <= maxChange /\
          maxChange <= (2 # 10) * n + (1 # 2) /\
          100 <= q /\ q <= maxStars /\
          (5 # 100) * n <= Qabs (q - n) /\
          (q <= 10000 ->
             exists w1,
               updateConfig depth (starCountOnly c) w' =
                 (if Starfield.isRunning (this w') then start depth w1
                  else Returned tt w1) /\
               Starfield.starCount (this w1) = q))).

(** ** Concrete instances *)

(** [n] timestamps [interval] ms apart, the last one [last]. *)
Definition steadyTimestamps (last interval : Q) (n : nat) : list Q :=
  map (fun k => binary64 (last - inject_Z (Z.of_nat k) * interval)) (rev (seq 0 n)).

(** A desktop browser with empty storage, whose clock advances by
    [interval] ms from one call of [performance.now()] to the next (it
    shows the binary64 number nearest to the time) and whose [Math.random()]
    is always 1/2. *)
Definition exampleBrowser (start interval : Q) : Browser.t :=
  Browser.mk (fun n => binary64 (start + inject_Z (Z.of_nat (S n)) * interval)) 0
    (fun _ => 1 # 2) 0 (Storage None)
    "Mozilla/5.0 (X11; Linux x86_64) Firefox/130.0" (Some 8%Z) 800 600 2 [].

(** A running instance with [count] stars at time [now], whose last 120
    frames were [interval] ms apart. *)
Definition exampleWorld (count maxStars : Q) (complete : bool) (attempts : Z)
  (now interval : Q) (windowStart lastOptimization : option Q) : World :=
  let config :=
    Config.mk (Count count) maxStars (6 # 10) 300
      (StarColors.mk (HueRange 180 260) 70 90) (StarSize.mk (5 # 10) 2)
      None (3 # 10) true false (DeviceDetection.mk 200 500) in
  mkWorld
    (Starfield.mk (Canvas.mk 800 600 []) config
       (repeat (sampleStar config (1 # 2) (1 # 2) (1 # 2) (1 # 2) (1 # 2))
          (iterations count))
       count (Some 1%nat) true None 400 300 None
       (Stats.mk (steadyTimestamps now interval 120) windowStart complete
          (Js.round (Fin 1000 / Fin interval)%b64) attempts lastOptimization))
    (exampleBrowser now interval).

(** The continuous phase at 30 frames per second, an adjustment due. *)
Definition continuousWorld (count : Q) : World :=
  exampleWorld count 10000 true 3 24000 (100 # 3) (Some 20900) (Some 10000).

(** The count a call leaves, when it returns. *)
Definition countAfter (o : Outcome unit) : option Q :=
  match o with
  | Returned _ w => Some (Starfield.starCount (this w))
  | _ => None
  end.

(** The world in which the calibration calls [updateConfig]: one more
    attempt counted, the window restarted. *)
Definition nextAttempt (now : Q) (w : World) : World :=
  mkWorld
    (setStats (setCalibrationStartTime (Some now))
       (setStats (setInitialCalibrationAttempts
                    (Stats.initialCalibrationAttempts
                       (Starfield.performanceStats (this w)) + 1)%Z)
          (this w)))
    (browser w).

(** The condition under which an evaluation of the initial phase goes on to
    resize: the window is over, 10 samples exist, the ratio is outside
    [0.9, 1.5], attempts remain, and the cap is not what stops growth. *)
Definition resizeDue (now : Q) (w : World) : bool :=
  let stats := Starfield.performanceStats (this w) in
  let n := Starfield.starCount (this w) in
  let maxStars := Config.maxStarCount (Starfield.config (this w)) in
  let r := fpsRatioOf (Stats.frameTimestamps stats) in
  negb (since now (Stats.calibrationStartTime stats) <? Fin initialCalibrationDuration)%js
  && negb (Nat.ltb (List.length (Stats.frameTimestamps stats)) 10)
  && negb ((r >=? literal (9 # 10))%js && (r <=? literal (15 # 10))%js)
  && Z.ltb (Stats.initialCalibrationAttempts stats) maxInitialCalibrationAttempts
  && negb (Js.eqb (calibrationCount n maxStars r) (Fin maxStars)
           && Qeq_bool n maxStars && (r >? literal (15 # 10))%js).

(** 52 timestamps in whole milliseconds over one second: 51 frames per
    second. *)
Definition wholeMilliseconds51 : list Q :=
  map (fun k => inject_Z (Js.roundQ (inject_Z (Z.of_nat k) * (1000 # 51)))) (seq 0 52).

(** The initial phase at 40 frames per second with 225 stars. *)
Definition calibratingWorld40 : World :=
  exampleWorld 225 10000 false 0 30000 25 (Some 29000) None.

(** The failing input: 6000 stars, [maxStarCount] 50000, frames 25/3 ms
    apart (120 frames per second, ratio 2), first evaluation. *)
Definition fastWorld : World :=
  exampleWorld 6000 50000 false 0 30000 (25 # 3) (Some 29000) None.

(** ** The two phases *)

(** The statistics of the initial phase before any attempt. *)
Definition calibrating (p : Stats.t) : Prop :=
  Stats.initialCalibrationComplete p = false /\ Stats.initialCalibrationAttempts p = 0%Z.

(** The continuous phase. *)
Definition complete (p : Stats.t) : Prop := Stats.initialCalibrationComplete p = true.

(** At most the maximum of attempts was made. *)
Definition attemptsBounded (p : Stats.t) : Prop :=
  (Stats.initialCalibrationAttempts p <= maxInitialCalibrationAttempts)%Z.

(** [performance.now()] advances by 100/3 ms from one call to the next (it
    shows the nearest binary64 number), so every interval between frames is
    100/3 ms up to the last bit: 30 frames per second. *)
Definition browser30 : Browser.t := exampleBrowser 0 (100 # 3).

(** The default options (count 'auto': 500 on a desktop) with a speed of 1;
    the speed plays no part in the controller. *)
Definition scenarioOptions : Options.t :=
  Options.mk None None (Some (Fin 1)) None None None None None None None None.

(** What is observed after a callback: count, attempts, phase, estimate. *)
Definition snapshot (w : World) : Q * Z * bool * jsnum :=
  (Starfield.starCount (this w),
   Stats.initialCalibrationAttempts (Starfield.performanceStats (this w)),
   Stats.initialCalibrationComplete (Starfield.performanceStats (this w)),
   Stats.currentFPS (Starfield.performanceStats (this w))).

(** The snapshots after each of the next [n] callbacks. *)
Fixpoint trace (depth n : nat) (w : World) : list (Q * Z * bool * jsnum) :=
  match n with
  | O => []
  | S k =>
      match runCallback depth w with
      | Returned _ w' => snapshot w' :: trace depth k w'
      | _ => []
      end
  end.

Definition sameSnapshot (a b : Q * Z * bool * jsnum) : bool :=
  let '(c1, n1, p1, f1) := a in
  let '(c2, n2, p2, f2) := b in
  Qeq_bool c1 c2 && Z.eqb n1 n2 && Bool.eqb p1 p2 && Js.eqb f1 f2.

(** The snapshots at which something changed. *)
Fixpoint changes (previous : Q * Z * bool * jsnum) (l : list (Q * Z * bool * jsnum))
  : list (Q * Z * bool * jsnum) :=
  match l with
  | [] => []
  | a :: rest =>
      if sameSnapshot previous a then changes a rest else a :: changes a rest
  end.

(** No count is above the one before it. *)
Fixpoint nonIncreasing (previous : Q) (l : list Q) : bool :=
  match l with
  | [] => true
  | a :: rest => Qle_bool a previous && nonIncreasing a rest
  end.

(** The scenario: the instance after construction, then 320 callbacks. *)
Definition scenario : option (Q * Z * bool * jsnum * (nat * list (Q * Z * bool * jsnum) * bool)) :=
  match new_Starfield 2 scenarioOptions browser30 with
  | Returned _ w =>
      let t := trace 2 320 w in
      Some (snapshot w,
            (List.length t, changes (snapshot w) t,
             nonIncreasing (Starfield.starCount (this w)) (map (fun s => fst (fst (fst s))) t)))
  | _ => None
  end.

(** A running instance of three stars; the second is 0.3 short of -200. *)
Definition threeStars : World :=
  let w := exampleWorld 3 10000 true 8 24000 (50 # 3) (Some 23000) (Some 20000) in
  mkWorld
    (setStars [Star.mk 10 20 1000 1 200; Star.mk (-5) 7 (-1997 # 10) (3 # 2) 190;
               Star.mk 0 0 (-100) 2 250] (this w))
    (browser w).

(** An instance of 200 stars that is not running. *)
Definition field200 : World :=
  let w := exampleWorld 200 10000 true 8 24000 (50 # 3) (Some 23000) (Some 20000) in
  mkWorld (setAnimationId None (setIsRunning false (this w))) (browser w).

(** [{ starCount: 5, starSize: { min: 3, max: 4 }, starColors: { hue: 0 } }]. *)
Definition countAndStyle : Options.t :=
  Options.mk (Some (CountO (Fin 5))) None None None
    (Some (StarColorsO.mk (Some (HueNumber (Fin 0))) None None))
    (Some (StarSizeO.mk (Some (Fin 3)) (Some (Fin 4))))
    None None None None None.

(** [{ speed: 100 }]: outside [0.01, 10]. *)
Definition badSpeed : Options.t :=
  Options.mk None None (Some (Fin 100)) None None None None None None None None.

(* ================================================================== *)
(** * Vocabulary of the further properties *)

(** ** Options of the examples and of the statements *)

(** [{ background: bg }]. *)
Definition backgroundOnly (bg : BackgroundO.t) : Options.t :=
  Options.mk None None None None None None (Some (Some bg)) None None None None.

(** ** The validated ranges of the configuration *)

(** [this.config] after [this.config = this._mergeDeep(this.config, newConfig)]. *)
Definition configAfter (c : Config.t) (newConfig : Options.t) : Config.t :=
  resolve (_mergeDeep (embed c) newConfig).

Definition inRange (lo hi v : Q) : Prop := lo <= v /\ v <= hi.

Definition hueInRange (h : Hue) : Prop :=
  match h with
  | HueValue v => inRange 0 360 v
  | HueRange lo hi => inRange 0 360 lo /\ inRange 0 360 hi
  end.

Definition countInRange (c : StarCount) : Prop :=
  match c with
  | Auto => True
  | Count n => inRange 1 10000 n
  end.

(** Every number of the configuration is inside the range [_validateConfig]
    gives its key. *)
Definition inRanges (c : Config.t) : Prop :=
  inRange (1 # 100) 10 (Config.speed c) /\
  inRange 50 1000 (Config.focalLength c) /\
  inRange 0 1 (Config.trailEffect c) /\
  countInRange (Config.starCount c) /\
  inRange 100 50000 (Config.maxStarCount c) /\
  inRange (1 # 10) 10 (StarSize.min (Config.starSize c)) /\
  inRange (1 # 10) 10 (StarSize.max (Config.starSize c)) /\
  inRange 0 100 (StarColors.saturation (Config.starColors c)) /\
  inRange 0 100 (StarColors.lightness (Config.starColors c)) /\
  hueInRange (StarColors.hue (Config.starColors c)) /\
  inRange 1 10000 (DeviceDetection.mobile (Config.deviceDetection c)) /\
  inRange 1 10000 (DeviceDetection.desktop (Config.deviceDetection c)).

Definition onConfig (P : Config.t -> Prop) (w : World) : Prop :=
  P (Starfield.config (this w)).

(** ** Sampling the style again *)

(** [newConfig.starColors && newConfig.starColors.hue !== undefined]. *)
Definition hueGiven (newConfig : Options.t) : bool :=
  match Options.starColors newConfig with
  | Some c => isSome (StarColorsO.hue c)
  | None => false
  end.

(** One star after the style branch of [updateConfig]: the position stays;
    the size is sampled again when [starSize] is given, the hue when
    [starColors.hue] is given. *)
Definition restyled (newConfig : Options.t) (c : Config.t) (rnd : nat -> Q)
  (old new : Star.t) : Prop :=
  Star.x new = Star.x old /\ Star.y new = Star.y old /\ Star.z new = Star.z old /\
  (if isSome (Options.starSize newConfig)
   then exists i, Star.baseSize new =
                  StarSize.min (Config.starSize c) +
                  rnd i * (StarSize.max (Config.starSize c) - StarSize.min (Config.starSize c))
   else Star.baseSize new = Star.baseSize old) /\
  (if hueGiven newConfig
   then exists i, Star.hue new =
                  fst (hueBounds (StarColors.hue (Config.starColors c))) +
                  rnd i * (snd (hueBounds (StarColors.hue (Config.starColors c))) -
                           fst (hueBounds (StarColors.hue (Config.starColors c))))
   else Star.hue new = Star.hue old).

(** [object?.key]: a key of a nested object that may itself be absent. *)
Definition given {A B : Type} (object : option A) (key : A -> option B) : option B :=
  match object with
  | Some o => key o
  | None => None
  end.


(** ** The instance the constructor builds *)

(** The instance once the constructor has assigned [this.config]. *)
Definition configured (options : Options.t) (b : Browser.t) : World :=
  mkWorld (setConfig (resolve (_mergeDeep (embed defaults) options)) uninitialised) b.

(** The instance the constructor has built when it reaches
    [if (this.config.autoStart) this.start()]. *)
Definition constructed (options : Options.t) (b : Browser.t) : World :=
  let w0 := configured options b in
  let c := Starfield.config (this w0) in
  let n := targetCount w0 in
  mkWorld
    (Starfield.mk
       (Canvas.mk (Browser.innerWidth b) (Browser.innerHeight b) [])
       c
       (samples c (Browser.Math_random b) (Browser.randomCalls b) (iterations n))
       n None false None
       (Browser.innerWidth b / 2) (Browser.innerHeight b / 2)
       None initialStats)
    (setRandomCalls (5 * iterations n + Browser.randomCalls b) b).

(** ** The window of timestamps *)

(** The rolling window holds at most 120 timestamps. *)
Definition windowBounded (p : Stats.t) : Prop :=
  (List.length (Stats.frameTimestamps p) <= 120)%nat.

(** ** The layers of a frame *)

(** [type === 'radial']. *)
Definition isRadial (bg : BackgroundO.t) : bool :=
  match BackgroundO.type bg with
  | Some t => String.eqb t "radial"
  | None => false
  end.

(** The gradient [_drawBackgroundGradient] builds when none is cached. *)
Definition freshGradient (s : Starfield.t) (bg : BackgroundO.t) : option Gradient :=
  if isRadial bg then
    Some (mkGradient (Starfield.centerX s) (Starfield.centerY s)
            (Qmax (Canvas.width (Starfield.canvas s)) (Canvas.height (Starfield.canvas s)))
            (match BackgroundO.colors bg with Some stops => stops | None => [] end))
  else None.

(** The gradient in force after [_drawBackgroundGradient]. *)
Definition gradientInForce (s : Starfield.t) : option Gradient :=
  match Config.background (Starfield.config s) with
  | None => Starfield.backgroundGradient s
  | Some bg =>
      match Starfield.backgroundGradient s with
      | Some g => Some g
      | None => freshGradient s bg
      end
  end.

(** Whether [_drawBackgroundGradient] returns: with no background, with a
    cached gradient, with no colour stop to add, or with a radial gradient to
    add them to. *)
Definition renders (s : Starfield.t) : bool :=
  match Config.background (Starfield.config s) with
  | None => true
  | Some bg =>
      isSome (Starfield.backgroundGradient s) ||
      match BackgroundO.colors bg with
      | None => false
      | Some [] => true
      | Some (_ :: _) => isRadial bg
      end
  end.

(** The calls of [_render] before the stars: the background, then the
    previous frame. *)
Definition backgroundLayer (s : Starfield.t) : list DrawCall :=
  match Config.background (Starfield.config s) with
  | None => []
  | Some _ =>
      [FillRect (gradientInForce s)
         (Canvas.width (Starfield.canvas s)) (Canvas.height (Starfield.canvas s))]
  end.

Definition trailLayer (s : Starfield.t) : list DrawCall :=
  if Js.ltb 0 (Config.trailEffect (Starfield.config s))
  then [DrawPreviousFrame (Config.trailEffect (Starfield.config s))]
  else [].

(** The size of the scratch canvas after [_render]. *)
Definition scratchSize (s : Starfield.t) : Q * Q :=
  let temp := match Starfield.tempCanvas s with Some size => size | None => (300, 150) end in
  let cv := Starfield.canvas s in
  if sameSize temp (Canvas.width cv, Canvas.height cv)
  then temp else (Canvas.width cv, Canvas.height cv).

(** [this] after a call of [_render] that returns. *)
Definition renderedInstance (s : Starfield.t) : Starfield.t :=
  let cv := Starfield.canvas s in
  setCanvas
    (Canvas.mk (Canvas.width cv) (Canvas.height cv)
       (backgroundLayer s ++ trailLayer s ++ renderStars s (Starfield.stars s)))
    (setBackgroundGradient (gradientInForce s)
       (setTempCanvas (Some (scratchSize s)) s)).

(** ** One frame *)



(** [elapsed < measurementDuration]: the measurement window is still open. *)
Definition waiting (now : Q) (stats : Stats.t) : bool :=
  (since now (Stats.calibrationStartTime stats) <?
   Fin (if Stats.initialCalibrationComplete stats
        then continuousOptimizationDuration else initialCalibrationDuration))%js.



(** ** The end of the calibration *)

(** The condition under which an evaluation of the initial phase ends the
    calibration: the window is over, 10 samples exist, and the ratio is
    inside [0.9, 1.5] or no attempt is left. *)
Definition calibrationEnds (now : Q) (w : World) : bool :=
  let stats := Starfield.performanceStats (this w) in
  let r := fpsRatioOf (Stats.frameTimestamps stats) in
  negb (waiting now stats)
  && negb (Nat.ltb (List.length (Stats.frameTimestamps stats)) 10)
  && (((r >=? literal (9 # 10))%js && (r <=? literal (15 # 10))%js)
      || Z.leb maxInitialCalibrationAttempts (Stats.initialCalibrationAttempts stats)).

(** The initial phase at 30 frames per second with 500 stars, an evaluation
    due at the next frame. *)
Definition calibratingWorld : World :=
  exampleWorld 500 10000 false 0 30000 (100 # 3) (Some 29000) None.

(** The continuous phase, 4 seconds after an adjustment. *)
Definition adjustedWorld : World :=
  exampleWorld 500 10000 true 3 24000 (100 # 3) (Some 20900) (Some 20000).

(** The initial phase at 60 frames per second. *)
Definition settledWorld : World :=
  exampleWorld 500 10000 false 2 30000 (50 # 3) (Some 29000) None.

(** ** The cached gradient *)

(** The cached gradient, when there is one next to a configured background,
    is the gradient that would be built now. *)
Definition gradientCoherent (s : Starfield.t) : Prop :=
  match Starfield.backgroundGradient s, Config.background (Starfield.config s) with
  | Some g, Some bg => freshGradient s bg = Some g
  | _, _ => True
  end.

(** What the cached gradient depends on. *)
Definition backdrop (s : Starfield.t)
  : option Gradient * option BackgroundO.t * (Q * Q) * (Q * Q) :=
  (Starfield.backgroundGradient s, Config.background (Starfield.config s),
   (Starfield.centerX s, Starfield.centerY s),
   (Canvas.width (Starfield.canvas s), Canvas.height (Starfield.canvas s))).

(** An invariant of [this] alone. *)
Definition onThis (P : Starfield.t -> Prop) (w : World) : Prop := P (this w).

(** ** The device heuristic *)

(** A text with its letters A-Z in lower case. *)
Fixpoint lowerString (s : string) : string :=
  match s with
  | EmptyString => EmptyString
  | String c rest => String (lowerCase c) (lowerString rest)
  end.

(** [word] occurs in [s], letter case apart. *)
Definition occursCI (word s : string) : Prop :=
  exists pre mid post,
    s = (pre ++ mid ++ post)%string /\ lowerString mid = lowerString word.

(** A browser on a phone: 8 cores, an iPhone user agent. *)
Definition phoneBrowser : Browser.t :=
  Browser.mk (fun n => binary64 (inject_Z (Z.of_nat (S n)) * (100 # 3))) 0
    (fun _ => 1 # 2) 0 (Storage None)
    "Mozilla/5.0 (iPhone; CPU iPhone OS 17_0 like Mac OS X) Safari/604.1" (Some 8%Z)
    390 844 1 [].

(** ** [start()] *)


(** ** Further options of the examples *)

(** [{ starColors: { hue: 10 }, starSize: { min: 3, max: 4 } }]. *)
Definition styleOnly : Options.t :=
  Options.mk None None None None
    (Some (StarColorsO.mk (Some (HueNumber (Fin 10))) None None))
    (Some (StarSizeO.mk (Some (Fin 3)) (Some (Fin 4))))
    None None None None None.

(** The default background. *)
Definition radialBackground : BackgroundO.t :=
  BackgroundO.mk (Some "radial"%string)
    (Some [ColorStop.mk 0 "#000000"%string; ColorStop.mk 1 "#341b6f"%string]).

(** [{ speed: undefined }]. *)
Definition speedUndefined : Passed.t := Passed.mk Options.empty [Key.speed].

(** An options object none of whose keys is written as [undefined]. *)
Definition valuesOnly (o : Options.t) : Passed.t := Passed.mk o [].

(** [{ starCount: 3, autoStart: false }]. *)
Definition threeNoStart : Options.t :=
  Options.mk (Some (CountO (Fin 3))) None None None None None None None (Some false) None None.

(* ================================================================== *)
(** * Properties *)

(** ** Rounding to binary64 *)

Lemma two_neq_0 : ~ 2 == 0.
Proof. intro H. discriminate H. Qed.

Lemma pow2_pos (k : Z) : 0 < 2 ^ k.
Proof. apply Qpower_0_lt. reflexivity. Qed.

Lemma pow2_add (a b : Z) : 2 ^ (a + b) == 2 ^ a * 2 ^ b.
Proof. apply Qpower_plus, two_neq_0. Qed.

Lemma pow2_le (a b : Z) : (a <= b)%Z -> 2 ^ a <= 2 ^ b.
Proof. intro H. apply Qpower_le_compat_l; [exact H | discriminate]. Qed.

Lemma pow2_lt (a b : Z) : (a < b)%Z -> 2 ^ a < 2 ^ b.
Proof. intro H. apply Qpower_lt_compat_l; [exact H | reflexivity]. Qed.

Lemma pow2_lt_inv (a b : Z) : 2 ^ a < 2 ^ b -> (a < b)%Z.
Proof. intro H. apply (Qpower_lt_compat_l_inv 2); [exact H | reflexivity]. Qed.

Lemma pow2_Z (n : Z) : (0 <= n)%Z -> inject_Z (2 ^ n) == 2 ^ n.
Proof. intro H. apply (Zpower_Qpower 2 n H). Qed.

Lemma pow2_succ (a : Z) : 2 ^ (a + 1) == 2 * 2 ^ a.
Proof. rewrite pow2_add. change (2 ^ 1) with 2. ring. Qed.

(** The defining property of [Binary64.ilog2]. *)
Lemma ilog2_spec (q : Q) :
  ~ q == 0 -> 2 ^ Binary64.ilog2 q <= Qabs q /\ Qabs q < 2 ^ (Binary64.ilog2 q + 1).
Proof.
  intro NZ. destruct q as [n d].
  assert (N0 : n <> 0%Z).
  { intro E. apply NZ. subst n. reflexivity. }
  unfold Binary64.ilog2. cbn [Qnum Qden].
  set (N := Z.abs n). set (D := Zpos d).
  assert (NP : (0 < N)%Z) by (unfold N; lia).
  assert (DP : (0 < D)%Z) by reflexivity.
  destruct (Z.log2_spec N NP) as [A1 A2].
  destruct (Z.log2_spec D DP) as [B1 B2].
  set (a := Z.log2 N) in *. set (b := Z.log2 D) in *.
  assert (a0 : (0 <= a)%Z) by apply Z.log2_nonneg.
  assert (b0 : (0 <= b)%Z) by apply Z.log2_nonneg.
  assert (X : Qabs (n # d) * inject_Z D == inject_Z N).
  { change (Qabs (n # d)) with (N # d). unfold Qeq, Qmult, inject_Z. simpl. unfold D. lia. }
  rewrite Zle_Qle, pow2_Z in A1, B1 by assumption.
  rewrite Zlt_Qlt, pow2_Z in A2, B2 by lia.
  replace (Z.succ a) with (a + 1)%Z in A2 by lia.
  replace (Z.succ b) with (b + 1)%Z in B2 by lia.
  pose proof (pow2_pos a) as Pa. pose proof (pow2_pos b) as Pb.
  pose proof (pow2_succ a) as Sa. pose proof (pow2_succ b) as Sb.
  assert (K : 2 ^ a == 2 ^ (a - b) * 2 ^ b).
  { rewrite <- pow2_add. replace (a - b + b)%Z with a by lia. reflexivity. }
  pose proof (pow2_pos (a - b)) as Pk.
  assert (K1 : 2 ^ (a - b + 1) == 2 * 2 ^ (a - b)) by apply pow2_succ.
  assert (K2 : 2 ^ (a - b) == 2 * 2 ^ (a - b - 1)).
  { rewrite <- pow2_succ. replace (a - b - 1 + 1)%Z with (a - b)%Z by lia. reflexivity. }
  assert (AP : 0 <= Qabs (n # d)) by apply Qabs_nonneg.
  set (x := Qabs (n # d)) in *. set (dq := inject_Z D) in *. set (nq := inject_Z N) in *.
  set (pa := 2 ^ a) in *. set (pb := 2 ^ b) in *. set (pk := 2 ^ (a - b)) in *.
  destruct (Qle_bool pk x) eqn:E.
  - apply Qle_bool_iff in E. split; [exact E|].
    rewrite K1. apply Qnot_le_lt. intro H.
    assert (2 * pk * pb <= x * dq) by nra. nra.
  - assert (L : x < pk).
    { apply Qnot_le_lt. intro H. apply Qle_bool_iff in H. congruence. }
    replace (a - b - 1 + 1)%Z with (a - b)%Z by lia. split; [|exact L].
    apply Qnot_lt_le. intro H.
    set (pk1 := 2 ^ (a - b - 1)) in *.
    assert (x * dq < pk1 * (2 * pb)) by nra. nra.
Qed.

Lemma Qabs_zero (p : Q) : Qabs p == 0 -> p == 0.
Proof.
  intro H. destruct (Qlt_le_dec p 0) as [N|P].
  - rewrite Qabs_neg in H by lra. lra.
  - rewrite Qabs_pos in H by exact P. exact H.
Qed.

Lemma ilog2_unique (q : Q) (k : Z) :
  2 ^ k <= Qabs q -> Qabs q < 2 ^ (k + 1) -> Binary64.ilog2 q = k.
Proof.
  intros L U.
  assert (NZ : ~ q == 0).
  { intro E. rewrite E in L. change (Qabs 0) with 0 in L.
    pose proof (pow2_pos k). lra. }
  destruct (ilog2_spec q NZ) as [L' U'].
  assert (A : (Binary64.ilog2 q < k + 1)%Z) by (apply pow2_lt_inv; lra).
  assert (B : (k < Binary64.ilog2 q + 1)%Z) by (apply pow2_lt_inv; lra).
  lia.
Qed.

Lemma ilog2_comp (p q : Q) : p == q -> ~ q == 0 -> Binary64.ilog2 p = Binary64.ilog2 q.
Proof.
  intros E NZ. destruct (ilog2_spec q NZ) as [L U].
  apply ilog2_unique; rewrite E; assumption.
Qed.

Lemma ilog2_mono (p q : Q) :
  ~ p == 0 -> Qabs p <= Qabs q -> (Binary64.ilog2 p <= Binary64.ilog2 q)%Z.
Proof.
  intros NZ L.
  assert (NQ : ~ q == 0).
  { intro E. rewrite E in L. change (Qabs 0) with 0 in L.
    apply NZ, Qabs_zero. pose proof (Qabs_nonneg p). lra. }
  destruct (ilog2_spec p NZ) as [L1 _]. destruct (ilog2_spec q NQ) as [_ U2].
  assert (A : (Binary64.ilog2 p < Binary64.ilog2 q + 1)%Z) by (apply pow2_lt_inv; lra).
  lia.
Qed.

Lemma ilog2_opp (q : Q) : ~ q == 0 -> Binary64.ilog2 (- q) = Binary64.ilog2 q.
Proof.
  intro NZ. destruct (ilog2_spec q NZ) as [L U].
  apply ilog2_unique; rewrite Qabs_opp; assumption.
Qed.

(** ** Rounding to the Binary64.nearest integer *)

Lemma rne_bounds (x : Q) :
  x - (1 # 2) <= inject_Z (Binary64.rne x) /\ inject_Z (Binary64.rne x) <= x + (1 # 2).
Proof.
  unfold Binary64.rne.
  pose proof (Qfloor_le x) as F1. pose proof (Qlt_floor x) as F2.
  rewrite inject_Z_plus in F2. change (inject_Z 1) with 1 in F2.
  destruct (Qcompare_spec (x - inject_Z (Qfloor x)) (1 # 2)) as [E|E|E].
  - destruct (Z.even (Qfloor x));
      rewrite ?inject_Z_plus; change (inject_Z 1) with 1; split; lra.
  - split; lra.
  - rewrite inject_Z_plus. change (inject_Z 1) with 1. split; lra.
Qed.

Lemma rne_comp (x y : Q) : x == y -> Binary64.rne x = Binary64.rne y.
Proof.
  intro E. unfold Binary64.rne. rewrite (Qfloor_comp x y E).
  assert (C : (x - inject_Z (Qfloor y) ?= 1 # 2) = (y - inject_Z (Qfloor y) ?= 1 # 2)).
  { apply Qcompare_comp; [rewrite E|]; reflexivity. }
  rewrite C. reflexivity.
Qed.

Lemma rne_Z (z : Z) : Binary64.rne (inject_Z z) = z.
Proof.
  unfold Binary64.rne. rewrite Qfloor_Z.
  assert (C : (inject_Z z - inject_Z z ?= 1 # 2) = Lt).
  { apply (proj1 (Qlt_alt _ _)). lra. }
  rewrite C. reflexivity.
Qed.

Lemma rne_mono (x y : Q) : x <= y -> (Binary64.rne x <= Binary64.rne y)%Z.
Proof.
  intro L. pose proof (Qfloor_resp_le x y L) as F.
  destruct (Z.eq_dec (Qfloor x) (Qfloor y)) as [E|N].
  - unfold Binary64.rne. rewrite E.
    destruct (Qcompare_spec (x - inject_Z (Qfloor y)) (1 # 2)) as [A|A|A];
      destruct (Qcompare_spec (y - inject_Z (Qfloor y)) (1 # 2)) as [B|B|B];
      try destruct (Z.even (Qfloor y)); try lia; exfalso; lra.
  - assert (S : (Qfloor x + 1 <= Qfloor y)%Z) by lia.
    assert (A : (Binary64.rne x <= Qfloor x + 1)%Z).
    { unfold Binary64.rne. destruct (Qcompare _ _); try destruct (Z.even _); lia. }
    assert (B : (Qfloor y <= Binary64.rne y)%Z).
    { unfold Binary64.rne. destruct (Qcompare _ _); try destruct (Z.even _); lia. }
    lia.
Qed.

Lemma Qfloor_opp_frac (x : Q) :
  ~ x == inject_Z (Qfloor x) -> Qfloor (- x) = (- Qfloor x - 1)%Z.
Proof.
  destruct x as [n d]. intro N. cbn [Qfloor Qopp Qnum Qden] in *.
  apply Z_div_nz_opp_full; [discriminate|]. intro M. apply N.
  unfold Qeq, inject_Z. cbn [Qnum Qden].
  rewrite (Z.div_mod n (Zpos d)) at 1 by discriminate. rewrite M. lia.
Qed.

Lemma rne_opp (x : Q) : Binary64.rne (- x) = (- Binary64.rne x)%Z.
Proof.
  destruct (Qeq_dec x (inject_Z (Qfloor x))) as [E|N].
  - rewrite (rne_comp x _ E).
    assert (E' : - x == inject_Z (- Qfloor x)) by (rewrite inject_Z_opp, <- E; reflexivity).
    rewrite (rne_comp _ _ E'), !rne_Z. reflexivity.
  - unfold Binary64.rne. rewrite (Qfloor_opp_frac x N).
    pose proof (Qfloor_le x) as F1. pose proof (Qlt_floor x) as F2.
    rewrite inject_Z_plus in F2. change (inject_Z 1) with 1 in F2.
    set (f := Qfloor x) in *.
    assert (I : inject_Z (- f - 1) == - inject_Z f - 1).
    { unfold Z.sub. rewrite inject_Z_plus, inject_Z_opp. reflexivity. }
    destruct (Qcompare_spec (x - inject_Z f) (1 # 2)) as [A|A|A];
      destruct (Qcompare_spec (- x - inject_Z (- f - 1)) (1 # 2)) as [B|B|B];
      rewrite I in B; try (exfalso; lra).
    + rewrite Z.even_sub, Z.even_opp. change (Z.even 1) with false.
      destruct (Z.even f); simpl; lia.
    + lia.
    + lia.
Qed.


Lemma exponent_comp (p q : Q) :
  p == q -> ~ q == 0 -> Binary64.exponent p = Binary64.exponent q.
Proof. intros E NZ. unfold Binary64.exponent. rewrite (ilog2_comp p q E NZ). reflexivity. Qed.

Lemma nearest_comp (p q : Q) :
  p == q -> ~ q == 0 -> Binary64.nearest p == Binary64.nearest q.
Proof.
  intros E NZ. unfold Binary64.nearest. rewrite (exponent_comp p q E NZ).
  rewrite (rne_comp (p / 2 ^ Binary64.exponent q) (q / 2 ^ Binary64.exponent q));
    [reflexivity|]. rewrite E. reflexivity.
Qed.

Lemma Qeq_bool_comp (p q : Q) : p == q -> Qeq_bool p 0 = Qeq_bool q 0.
Proof.
  intro E. destruct (Qeq_bool p 0) eqn:A, (Qeq_bool q 0) eqn:B; try reflexivity.
  - apply Qeq_bool_iff in A. rewrite E in A. apply Qeq_bool_iff in A. congruence.
  - apply Qeq_bool_iff in B. rewrite <- E in B. apply Qeq_bool_iff in B. congruence.
Qed.

Lemma Qle_bool_comp (a b c d : Q) : a == c -> b == d -> Qle_bool a b = Qle_bool c d.
Proof.
  intros E F. destruct (Qle_bool a b) eqn:A, (Qle_bool c d) eqn:B; try reflexivity.
  - apply Qle_bool_iff in A. rewrite E, F in A. apply Qle_bool_iff in A. congruence.
  - apply Qle_bool_iff in B. rewrite <- E, <- F in B. apply Qle_bool_iff in B. congruence.
Qed.

(** Rounding depends on the value of the rational, not on the fraction that
    stands for it, and gives the reduced fraction. *)
Lemma round_comp (p q : Q) : p == q -> Binary64.round p = Binary64.round q.
Proof.
  intro E. unfold Binary64.round. rewrite (Qeq_bool_comp p q E).
  destruct (Qeq_bool q 0) eqn:Z; [reflexivity|].
  assert (NZ : ~ q == 0).
  { intro H. apply Qeq_bool_iff in H. congruence. }
  pose proof (nearest_comp p q E NZ) as N.
  rewrite (Qle_bool_comp (2 ^ 1024) (Qabs (Binary64.nearest p))
             (2 ^ 1024) (Qabs (Binary64.nearest q))); [|reflexivity|rewrite N; reflexivity].
  rewrite (Qle_bool_comp 0 p 0 q); [|reflexivity|exact E].
  rewrite (Qred_complete _ _ N). reflexivity.
Qed.

Lemma exponent_opp (q : Q) : ~ q == 0 -> Binary64.exponent (- q) = Binary64.exponent q.
Proof. intro NZ. unfold Binary64.exponent. rewrite ilog2_opp by exact NZ. reflexivity. Qed.

Lemma nearest_opp (q : Q) : ~ q == 0 -> Binary64.nearest (- q) == - Binary64.nearest q.
Proof.
  intro NZ. unfold Binary64.nearest. rewrite exponent_opp by exact NZ.
  set (e := Binary64.exponent q).
  assert (E : - q / 2 ^ e == - (q / 2 ^ e)).
  { unfold Qdiv. ring. }
  rewrite (rne_comp _ _ E), rne_opp, inject_Z_opp. ring.
Qed.

Lemma round_opp (q : Q) : Binary64.round (- q) = Js.neg (Binary64.round q).
Proof.
  unfold Binary64.round.
  destruct (Qeq_bool q 0) eqn:Z.
  - apply Qeq_bool_iff in Z.
    assert (Z' : Qeq_bool (- q) 0 = true) by (apply Qeq_bool_iff; rewrite Z; reflexivity).
    rewrite Z'. reflexivity.
  - assert (NZ : ~ q == 0).
    { intro H. apply Qeq_bool_iff in H. congruence. }
    assert (Z' : Qeq_bool (- q) 0 = false).
    { destruct (Qeq_bool (- q) 0) eqn:A; [|reflexivity].
      apply Qeq_bool_iff in A. exfalso. apply NZ. lra. }
    rewrite Z'. pose proof (nearest_opp q NZ) as N.
    rewrite (Qle_bool_comp (2 ^ 1024) (Qabs (Binary64.nearest (- q)))
               (2 ^ 1024) (Qabs (Binary64.nearest q)));
      [|reflexivity|rewrite N; apply Qabs_opp].
    destruct (Qle_bool (2 ^ 1024) (Qabs (Binary64.nearest q))).
    + destruct (Qle_bool 0 q) eqn:A, (Qle_bool 0 (- q)) eqn:B; try reflexivity.
      * apply Qle_bool_iff in A, B. exfalso. apply NZ. lra.
      * exfalso. destruct (Qlt_le_dec q 0) as [L|L].
        -- assert (H : Qle_bool 0 (- q) = true) by (apply Qle_bool_iff; lra). congruence.
        -- apply Qle_bool_iff in L. congruence.
    + cbn [Js.neg]. rewrite <- Qred_opp. f_equal. apply Qred_complete. exact N.
Qed.

Lemma exponent_spec (q : Q) :
  ~ q == 0 ->
  (-1074 <= Binary64.exponent q)%Z /\
  Qabs q < 2 ^ (Binary64.exponent q + 53) /\
  (Binary64.exponent q = (-1074)%Z \/ 2 ^ (Binary64.exponent q + 52) <= Qabs q).
Proof.
  intro NZ. destruct (ilog2_spec q NZ) as [L U]. unfold Binary64.exponent.
  set (l := Binary64.ilog2 q) in *.
  split; [lia|]. split.
  - apply (Qlt_le_trans _ _ _ U). apply pow2_le. lia.
  - destruct (Z.max_spec (l - 52) (-1074)) as [[_ ->] | [_ ->]]; [left; reflexivity|].
    right. replace (l - 52 + 52)%Z with l by lia. exact L.
Qed.

Lemma exponent_mono (p q : Q) :
  ~ p == 0 -> Qabs p <= Qabs q -> (Binary64.exponent p <= Binary64.exponent q)%Z.
Proof.
  intros NZ L. pose proof (ilog2_mono p q NZ L). unfold Binary64.exponent. lia.
Qed.

Lemma scaled_back (q : Q) (e : Z) : q / 2 ^ e * 2 ^ e == q.
Proof. field. pose proof (pow2_pos e). lra. Qed.

Lemma scaled_le (p q : Q) (e : Z) : p <= q -> p / 2 ^ e <= q / 2 ^ e.
Proof.
  intro L. unfold Qdiv. apply Qmult_le_compat_r; [exact L|].
  apply Qlt_le_weak, Qinv_lt_0_compat, pow2_pos.
Qed.

(** The significand of a positive number has at most 53 bits, and exactly 53
    above the subnormal range. *)
Lemma significand_upper (q : Q) :
  0 < q -> (Binary64.rne (q / 2 ^ Binary64.exponent q) <= 2 ^ 53)%Z.
Proof.
  intro P. assert (NZ : ~ q == 0) by lra.
  destruct (exponent_spec q NZ) as (_ & U & _).
  rewrite Qabs_pos in U by lra. set (e := Binary64.exponent q) in *.
  rewrite <- (rne_Z (2 ^ 53)). apply rne_mono.
  rewrite pow2_Z by lia. rewrite pow2_add in U.
  apply Qle_shift_div_r; [apply pow2_pos|]. lra.
Qed.

Lemma significand_lower (q : Q) :
  0 < q -> Binary64.exponent q <> (-1074)%Z ->
  (2 ^ 52 <= Binary64.rne (q / 2 ^ Binary64.exponent q))%Z.
Proof.
  intros P N. assert (NZ : ~ q == 0) by lra.
  destruct (exponent_spec q NZ) as (_ & _ & [E|L]); [contradiction|].
  rewrite Qabs_pos in L by lra. set (e := Binary64.exponent q) in *.
  rewrite <- (rne_Z (2 ^ 52)). apply rne_mono.
  rewrite pow2_Z by lia. rewrite pow2_add in L.
  apply Qle_shift_div_l; [apply pow2_pos|]. lra.
Qed.

Lemma significand_nonneg (q : Q) :
  0 < q -> (0 <= Binary64.rne (q / 2 ^ Binary64.exponent q))%Z.
Proof.
  intro P. rewrite <- (rne_Z 0). apply rne_mono.
  apply Qle_shift_div_l; [apply pow2_pos|]. change (inject_Z 0) with 0. lra.
Qed.

Lemma nearest_nonneg (q : Q) : 0 < q -> 0 <= Binary64.nearest q.
Proof.
  intro P. unfold Binary64.nearest.
  pose proof (significand_nonneg q P) as S. rewrite Zle_Qle in S.
  change (inject_Z 0) with 0 in S.
  pose proof (pow2_pos (Binary64.exponent q)). nra.
Qed.

Lemma nearest_mono_pos (p q : Q) :
  0 < p -> p <= q -> Binary64.nearest p <= Binary64.nearest q.
Proof.
  intros P L. assert (Pq : 0 < q) by lra.
  assert (NP : ~ p == 0) by lra.
  assert (E : (Binary64.exponent p <= Binary64.exponent q)%Z).
  { apply exponent_mono; [exact NP|]. rewrite !Qabs_pos by lra. exact L. }
  unfold Binary64.nearest.
  destruct (Z.eq_dec (Binary64.exponent p) (Binary64.exponent q)) as [Eq|Ne].
  - rewrite Eq. set (e := Binary64.exponent q).
    pose proof (rne_mono _ _ (scaled_le p q e L)) as M. rewrite Zle_Qle in M.
    pose proof (pow2_pos e). nra.
  - pose proof (significand_upper p P) as U.
    assert (Nq : Binary64.exponent q <> (-1074)%Z).
    { destruct (exponent_spec p NP) as (A & _). lia. }
    pose proof (significand_lower q Pq Nq) as Lo.
    pose proof (significand_nonneg p P) as S0.
    rewrite Zle_Qle in U, Lo, S0. rewrite pow2_Z in U, Lo by lia.
    change (inject_Z 0) with 0 in S0.
    set (ep := Binary64.exponent p) in *. set (eq := Binary64.exponent q) in *.
    set (mp := inject_Z (Binary64.rne (p / 2 ^ ep))) in *.
    set (mq := inject_Z (Binary64.rne (q / 2 ^ eq))) in *.
    assert (A : 2 ^ 53 * 2 ^ ep <= 2 ^ 52 * 2 ^ eq).
    { rewrite <- !pow2_add. apply pow2_le. lia. }
    pose proof (pow2_pos ep). pose proof (pow2_pos eq).
    apply (Qle_trans _ (2 ^ 53 * 2 ^ ep)).
    + apply Qmult_le_compat_r; [exact U | lra].
    + apply (Qle_trans _ _ _ A). apply Qmult_le_compat_r; [exact Lo | lra].
Qed.

(** A number with at most 53 significant bits, at or above the subnormal
    Binary64.exponent, is its own rounding. *)
Lemma nearest_dyadic (q : Q) (z e0 : Z) :
  q == inject_Z z * 2 ^ e0 -> z <> 0%Z -> (Z.abs z < 2 ^ 53)%Z -> (-1074 <= e0)%Z ->
  Binary64.nearest q == q.
Proof.
  intros E Z0 B Lo.
  assert (P0 : 0 < 2 ^ e0) by apply pow2_pos.
  assert (A : Qabs q == inject_Z (Z.abs z) * 2 ^ e0).
  { rewrite E, Qabs_Qmult, (Qabs_pos (2 ^ e0)) by lra.
    apply Qmult_comp; [|reflexivity].
    destruct z as [|z|z]; reflexivity. }
  assert (I : (0 < Z.abs z)%Z) by lia. rewrite Zlt_Qlt in I.
  change (inject_Z 0) with 0 in I.
  assert (NZ : ~ q == 0).
  { intro H. rewrite H in A. change (Qabs 0) with 0 in A. nra. }
  destruct (ilog2_spec q NZ) as [L _].
  assert (U : Qabs q < 2 ^ (e0 + 53)).
  { rewrite A, pow2_add. rewrite Zlt_Qlt, pow2_Z in B by lia. nra. }
  assert (Le : (Binary64.exponent q <= e0)%Z).
  { assert (H : (Binary64.ilog2 q < e0 + 53)%Z) by (apply pow2_lt_inv; lra).
    unfold Binary64.exponent. lia. }
  unfold Binary64.nearest. set (e := Binary64.exponent q) in *.
  assert (S : q / 2 ^ e == inject_Z (z * 2 ^ (e0 - e))).
  { rewrite inject_Z_mult, pow2_Z by lia. rewrite E.
    rewrite Qpower_minus by apply two_neq_0. field.
    pose proof (pow2_pos e). lra. }
  rewrite (rne_comp _ _ S), rne_Z, <- S. apply scaled_back.
Qed.

Lemma round_nonzero (q : Q) :
  ~ q == 0 ->
  Binary64.round q =
  if Qle_bool (2 ^ 1024) (Qabs (Binary64.nearest q))
  then (if Qle_bool 0 q then PInf else NInf)
  else Fin (Qred (Binary64.nearest q)).
Proof.
  intro NZ. unfold Binary64.round.
  destruct (Qeq_bool q 0) eqn:Z; [|reflexivity].
  apply Qeq_bool_iff in Z. contradiction.
Qed.

Lemma round_dyadic (q : Q) (z e0 : Z) :
  q == inject_Z z * 2 ^ e0 -> (Z.abs z < 2 ^ 53)%Z -> (-1074 <= e0)%Z ->
  Qabs q < 2 ^ 1024 ->
  Binary64.round q = Fin (Qred q).
Proof.
  intros E B Lo U.
  destruct (Qeq_dec q 0) as [H|NZ].
  - rewrite (round_comp q 0 H), (Qred_complete q 0 H). reflexivity.
  - assert (Z0 : z <> 0%Z).
    { intro Z0. apply NZ. rewrite E, Z0. ring. }
    pose proof (nearest_dyadic q z e0 E Z0 B Lo) as N.
    rewrite (round_nonzero q NZ).
    assert (O : Qle_bool (2 ^ 1024) (Qabs (Binary64.nearest q)) = false).
    { destruct (Qle_bool _ _) eqn:O; [|reflexivity].
      apply Qle_bool_iff in O. rewrite N in O. lra. }
    rewrite O. f_equal. apply Qred_complete. exact N.
Qed.

(** Whole numbers of magnitude below [2^53] are binary64 numbers. *)
Lemma round_Z (q : Q) (z : Z) :
  q == inject_Z z -> (Z.abs z < 2 ^ 53)%Z -> Binary64.round q = Fin (inject_Z z).
Proof.
  intros E B.
  assert (E' : q == inject_Z z * 2 ^ 0) by (rewrite E; change (2 ^ 0) with 1; ring).
  rewrite (round_dyadic q z 0 E' B); [|lia|].
  - f_equal. rewrite (Qred_complete q (inject_Z z) E).
    apply Qcanon.Qred_identity. unfold inject_Z. cbn. apply Z.gcd_1_r.
  - rewrite E.
    assert (A : Qabs (inject_Z z) == inject_Z (Z.abs z)) by (destruct z; reflexivity).
    rewrite A. rewrite Zlt_Qlt, pow2_Z in B by lia.
    apply (Qlt_trans _ _ _ B). apply pow2_lt. lia.
Qed.

(** The rounding of a positive number. *)
Lemma round_pos (q : Q) :
  0 < q ->
  (2 ^ 1024 <= Binary64.nearest q /\ Binary64.round q = PInf) \/
  (Binary64.nearest q < 2 ^ 1024 /\ Binary64.round q = Fin (Qred (Binary64.nearest q))).
Proof.
  intro P. assert (NZ : ~ q == 0) by lra.
  rewrite (round_nonzero q NZ). pose proof (nearest_nonneg q P) as N.
  rewrite (Qle_bool_comp _ (Qabs (Binary64.nearest q)) (2 ^ 1024) (Binary64.nearest q));
    [|reflexivity|apply Qabs_pos, N].
  destruct (Qle_bool (2 ^ 1024) (Binary64.nearest q)) eqn:O.
  - left. apply Qle_bool_iff in O. split; [exact O|].
    assert (H : Qle_bool 0 q = true) by (apply Qle_bool_iff; lra). rewrite H. reflexivity.
  - right. split; [|reflexivity].
    apply Qnot_le_lt. intro H. apply Qle_bool_iff in H. congruence.
Qed.

Lemma leb_neg (a b : jsnum) : Js.leb (Js.neg a) (Js.neg b) = Js.leb b a.
Proof.
  destruct a as [p| | |], b as [q| | |]; try reflexivity.
  cbn. destruct (Qle_bool (- p) (- q)) eqn:A, (Qle_bool q p) eqn:B; try reflexivity.
  - apply Qle_bool_iff in A.
    assert (H : Qle_bool q p = true) by (apply Qle_bool_iff; lra). congruence.
  - apply Qle_bool_iff in B.
    assert (H : Qle_bool (- p) (- q) = true) by (apply Qle_bool_iff; lra). congruence.
Qed.

Lemma round_mono_pos (p q : Q) :
  0 < p -> p <= q -> Js.leb (Binary64.round p) (Binary64.round q) = true.
Proof.
  intros P L. assert (Pq : 0 < q) by lra.
  pose proof (nearest_mono_pos p q P L) as M.
  destruct (round_pos p P) as [[Op ->] | [Op ->]];
    destruct (round_pos q Pq) as [[Oq ->] | [Oq ->]]; try reflexivity.
  - exfalso. lra.
  - cbn [Js.leb]. apply Qle_bool_iff. apply Qred_le. exact M.
Qed.

(** The sign of a rounding is the sign of the number. *)
Lemma round_nonneg (q : Q) :
  0 <= q -> Js.leb (Fin 0) (Binary64.round q) = true.
Proof.
  intro P. destruct (Qeq_dec q 0) as [Z|NZ].
  - rewrite (round_comp q 0 Z). reflexivity.
  - assert (Pq : 0 < q) by lra.
    destruct (round_pos q Pq) as [[_ ->] | [_ ->]]; [reflexivity|].
    cbn [Js.leb]. apply Qle_bool_iff. rewrite Qred_correct. apply nearest_nonneg, Pq.
Qed.

Lemma round_nonpos (q : Q) :
  q <= 0 -> Js.leb (Binary64.round q) (Fin 0) = true.
Proof.
  intro P. assert (E : q == - - q) by ring.
  rewrite (round_comp q _ E), round_opp.
  change (Fin 0) with (Js.neg (Fin 0)). rewrite leb_neg.
  apply round_nonneg. lra.
Qed.

Lemma leb_trans (a b c : jsnum) : Js.leb a b = true -> Js.leb b c = true -> Js.leb a c = true.
Proof.
  destruct a as [p| | |], b as [q| | |], c as [r| | |]; cbn; try congruence.
  intros A B. apply Qle_bool_iff in A, B. apply Qle_bool_iff. lra.
Qed.

(** Rounding is monotone. *)
Lemma round_mono (p q : Q) :
  p <= q -> Js.leb (Binary64.round p) (Binary64.round q) = true.
Proof.
  intro L. destruct (Qlt_le_dec 0 p) as [P|P].
  - apply round_mono_pos; assumption.
  - destruct (Qlt_le_dec q 0) as [N|N].
    + assert (Ep : p == - - p) by ring. assert (Eq : q == - - q) by ring.
      rewrite (round_comp p _ Ep), (round_comp q _ Eq).
      rewrite (round_opp (- p)), (round_opp (- q)), leb_neg.
      apply round_mono_pos; lra.
    + apply (leb_trans _ (Fin 0)); [apply round_nonpos | apply round_nonneg]; assumption.
Qed.

(** ** Arithmetic of the embedding *)

Lemma ltb_true (a b : Q) : Js.ltb a b = true <-> a < b.
Proof.
  unfold Js.ltb. rewrite negb_true_iff. split; intro H.
  - apply Qnot_le_lt. intro L. apply Qle_bool_iff in L. congruence.
  - destruct (Qle_bool b a) eqn:E; [|reflexivity].
    apply Qle_bool_iff in E. exfalso. apply (Qlt_not_le _ _ H E).
Qed.

Lemma ltb_false (a b : Q) : Js.ltb a b = false <-> b <= a.
Proof.
  unfold Js.ltb. rewrite negb_false_iff. apply Qle_bool_iff.
Qed.

Lemma leb_false (a b : Q) : Qle_bool a b = false <-> b < a.
Proof.
  rewrite <- ltb_true. unfold Js.ltb. rewrite negb_true_iff. reflexivity.
Qed.

Lemma isZero_true (q : Q) : Js.isZero q = true <-> q == 0.
Proof. apply Qeq_bool_iff. Qed.

Lemma isZero_false (q : Q) : Js.isZero q = false <-> ~ q == 0.
Proof.
  unfold Js.isZero. split; intro H.
  - intro E. apply Qeq_bool_iff in E. congruence.
  - destruct (Qeq_bool q 0) eqn:E; [|reflexivity].
    apply Qeq_bool_iff in E. contradiction.
Qed.

(** [Math.round] stays within one half of its argument. *)
Lemma roundQ_upper (q : Q) : inject_Z (Js.roundQ q) <= q + (1 # 2).
Proof. apply Qfloor_le. Qed.

Lemma roundQ_lower (q : Q) : q - (1 # 2) < inject_Z (Js.roundQ q).
Proof.
  pose proof (Qlt_floor (q + (1 # 2))) as H.
  rewrite inject_Z_plus in H. change (inject_Z 1) with 1 in H.
  fold (Js.roundQ q) in H. lra.
Qed.

Lemma roundQ_comp (p q : Q) : p == q -> Js.roundQ p = Js.roundQ q.
Proof. intro E. unfold Js.roundQ. apply Qfloor_comp. rewrite E. reflexivity. Qed.

(* ================================================================== *)

(** ** Invariants kept by every method *)

Section Stable.

Variable Inv : World -> Prop.

Lemma stable_ret {A : Type} (a : A) : stable Inv (ret a).
Proof. intros w H. exact H. Qed.

Lemma stable_throw {A : Type} (e : Error) : stable Inv (@throw A e).
Proof. intros w H. exact H. Qed.

Lemma stable_bind {A B : Type} (m : M A) (k : A -> M B) :
  stable Inv m -> (forall a, stable Inv (k a)) -> stable Inv (bind m k).
Proof.
  intros Hm Hk w H. unfold bind. specialize (Hm w H).
  destruct (m w) as [a w'| e w' |]; auto. apply Hk. exact Hm.
Qed.

Lemma stable_when (c : bool) (m : M unit) : stable Inv m -> stable Inv (when c m).
Proof. intro H. destruct c; [exact H | apply stable_ret]. Qed.

Lemma stable_forEach {A B : Type} (body : A -> M B) (l : list A) :
  (forall a, stable Inv (body a)) -> stable Inv (forEach body l).
Proof.
  intro H. induction l as [|a l IH]; simpl.
  - apply stable_ret.
  - apply stable_bind; [apply H|]. intro b.
    apply stable_bind; [exact IH|]. intro bs. apply stable_ret.
Qed.

Lemma stable_times {B : Type} (n : nat) (body : M B) :
  stable Inv body -> stable Inv (times n body).
Proof.
  intro H. induction n as [|n IH]; simpl.
  - apply stable_ret.
  - apply stable_bind; [exact H|]. intro b.
    apply stable_bind; [exact IH|]. intro bs. apply stable_ret.
Qed.

Lemma stable_getThis : stable Inv getThis.
Proof. intros w H. exact H. Qed.

Lemma stable_getBrowser : stable Inv getBrowser.
Proof. intros w H. exact H. Qed.

End Stable.

Section StatsInvariant.

Variable P : Stats.t -> Prop.

(** What the methods do to the statistics once the constructor is over. *)
Hypothesis P_recordFrame : forall now p, P p -> P (recordFrame now p).

Hypothesis P_calibrationStartTime :
  forall t p, P p -> P (setCalibrationStartTime t p).

Hypothesis P_lastOptimizationTime :
  forall t p, P p -> P (setLastOptimizationTime t p).

Hypothesis P_complete : forall p, P p -> P (setInitialCalibrationComplete true p).

Hypothesis P_attempt :
  forall n p, (n < maxInitialCalibrationAttempts)%Z -> P p ->
    P (setInitialCalibrationAttempts (n + 1) p).

Let Inv := onStats P.

Lemma stable_modifyBrowser (f : Browser.t -> Browser.t) : stable Inv (modifyBrowser f).
Proof. intros w H. exact H. Qed.

(** A write to [this] that leaves [performanceStats] alone. *)
Lemma stable_modifyThis (f : Starfield.t -> Starfield.t) :
  (forall s, Starfield.performanceStats (f s) = Starfield.performanceStats s) ->
  stable Inv (modifyThis f).
Proof. intros Hf w H. unfold Inv, onStats in *. simpl. rewrite Hf. exact H. Qed.

Lemma stable_modifyStats (f : Stats.t -> Stats.t) :
  (forall p, P p -> P (f p)) -> stable Inv (modifyStats f).
Proof. intros Hf w H. unfold Inv, onStats in *. simpl. apply Hf. exact H. Qed.

Ltac stable_step :=
  match goal with
  | |- stable _ (bind _ _) => apply stable_bind; [|intro]
  | |- stable _ (ret _) => apply stable_ret
  | |- stable _ (throw _) => apply stable_throw
  | |- stable _ (when _ _) => apply stable_when
  | |- stable _ getThis => apply stable_getThis
  | |- stable _ getBrowser => apply stable_getBrowser
  | |- stable _ (modifyBrowser _) => apply stable_modifyBrowser
  | |- stable _ (modifyThis _) => apply stable_modifyThis; intro; reflexivity
  | |- stable _ (modifyStats _) => apply stable_modifyStats; auto
  | |- stable _ (forEach _ _) => apply stable_forEach; intro
  | |- stable _ (times _ _) => apply stable_times
  | |- stable _ (if ?c then _ else _) => destruct c eqn:?
  | |- stable _ (match ?x with _ => _ end) => destruct x eqn:?
  | |- stable _ (let '(_, _) := ?x in _) => destruct x eqn:?
  end.

Ltac stable_auto := repeat stable_step.

Lemma stable_Math_random : stable Inv Math_random.
Proof. unfold Math_random. stable_auto. Qed.

Lemma stable_createStar : stable Inv _createStar.
Proof. unfold _createStar. stable_auto; apply stable_Math_random. Qed.

Lemma stable_detectDeviceCapability : stable Inv _detectDeviceCapability.
Proof. unfold _detectDeviceCapability. stable_auto. Qed.

Lemma stable_resize : stable Inv resize.
Proof. unfold resize. stable_auto. Qed.

Lemma stable_update : stable Inv _update.
Proof.
  unfold _update. stable_auto. unfold updateStar.
  stable_auto. apply stable_createStar.
Qed.

Lemma stable_draw (c : DrawCall) : stable Inv (draw c).
Proof. unfold draw. stable_auto. Qed.

Lemma stable_render : stable Inv _render.
Proof.
  unfold _render, clearRect, _drawBackgroundGradient.
  stable_auto; apply stable_draw.
Qed.

Lemma stable_stop : stable Inv stop.
Proof. unfold stop, cancelAnimationFrame. stable_auto. Qed.

Lemma stable_trySetItem (item : StoredItem) : stable Inv (trySetItem item).
Proof. unfold trySetItem. stable_auto. Qed.

Lemma stable_start_body (animate : M unit) :
  stable Inv animate -> stable Inv (start_body animate).
Proof. intro H. unfold start_body. stable_auto. exact H. Qed.

Lemma stable_recalculateStarCount : stable Inv recalculateStarCount.
Proof.
  unfold recalculateStarCount. stable_auto;
    first [apply stable_detectDeviceCapability | apply stable_createStar].
Qed.

Lemma stable_applyStarChanges (newConfig : Options.t) :
  stable Inv (applyStarChanges newConfig).
Proof.
  unfold applyStarChanges. stable_auto;
    try apply stable_recalculateStarCount.
  all: unfold restyleStar; stable_auto; apply stable_Math_random.
Qed.

Lemma stable_updateConfig_body (start : M unit) (newConfig : Options.t) :
  stable Inv start -> stable Inv (updateConfig_body start newConfig).
Proof.
  intro H. unfold updateConfig_body. stable_auto;
    first [apply stable_stop | apply stable_applyStarChanges | exact H].
Qed.

Lemma stable_completeCalibration (now stored : Q) :
  stable Inv (completeCalibration now stored).
Proof. unfold completeCalibration. stable_auto. apply stable_trySetItem. Qed.

Lemma stable_runOptimization_body (updateConfig : Options.t -> M unit) (now : Q) :
  (forall c, stable Inv (updateConfig c)) ->
  stable Inv (_runOptimization_body updateConfig now).
Proof.
  intro H. unfold _runOptimization_body. stable_auto;
    try apply stable_completeCalibration; try apply stable_trySetItem; try apply H.
  intros p Hp. apply P_attempt; [|exact Hp].
  match goal with
  | E : (_ || Z.leb _ _) = false |- _ =>
      apply orb_false_iff in E; destruct E as [_ E]; apply Z.leb_gt in E; exact E
  end.
Qed.

Lemma stable_animate_body (runOptimization : Q -> M unit) :
  (forall now, stable Inv (runOptimization now)) ->
  stable Inv (_animate_body runOptimization).
Proof.
  intro H. unfold _animate_body, performance_now, requestAnimationFrame.
  stable_auto; first [apply H | apply stable_update | apply stable_render].
Qed.

Lemma stable_animate (depth : nat) : stable Inv (_animate depth).
Proof.
  induction depth as [|d IH].
  - intros w H. exact I.
  - simpl. apply stable_animate_body. intro now.
    apply stable_runOptimization_body. intro c.
    apply stable_updateConfig_body. apply stable_start_body. exact IH.
Qed.

Lemma stable_start (depth : nat) : stable Inv (start depth).
Proof. apply stable_start_body, stable_animate. Qed.

Lemma stable_updateConfig (depth : nat) (newConfig : Options.t) :
  stable Inv (updateConfig depth newConfig).
Proof. apply stable_updateConfig_body, stable_start. Qed.

Lemma stable_runOptimization (depth : nat) (now : Q) :
  stable Inv (_runOptimization depth now).
Proof. apply stable_runOptimization_body. intro c. apply stable_updateConfig. Qed.

Lemma stable_destroy : stable Inv destroy.
Proof. unfold destroy, clearRect. stable_auto. apply stable_stop. Qed.

Lemma stable_runCallback (depth : nat) : stable Inv (runCallback depth).
Proof. unfold runCallback. stable_auto. apply stable_animate. Qed.

End StatsInvariant.

(* ================================================================== *)

(** ** Sampling and the advance step *)

Lemma drawn_0 (w : World) : drawn 0 w = w.
Proof. destruct w as [s b]. destruct b. reflexivity. Qed.

Lemma drawn_drawn (j k : nat) (w : World) : drawn j (drawn k w) = drawn (j + k) w.
Proof.
  unfold drawn. simpl. unfold setRandomCalls. simpl.
  rewrite Nat.add_assoc. reflexivity.
Qed.

Lemma createStar_run (w : World) :
  _createStar w =
  Returned
    (sampleAt (Starfield.config (this w)) (Browser.Math_random (browser w))
       (Browser.randomCalls (browser w)))
    (drawn 5 w).
Proof.
  unfold _createStar, sampleAt, sampleStar, bind, getThis.
  destruct (hueBounds _) as [lo hi]. reflexivity.
Qed.

Lemma sampleStar_range (c : Config.t) (r1 r2 r3 r4 r5 : Q) :
  0 <= r1 < 1 -> 0 <= r2 < 1 -> 0 <= r3 < 1 ->
  let st := sampleStar c r1 r2 r3 r4 r5 in
  (-1000 <= Star.x st /\ Star.x st < 1000) /\
  (-1000 <= Star.y st /\ Star.y st < 1000) /\
  (0 <= Star.z st /\ Star.z st < 2000).
Proof. intros H1 H2 H3. simpl. repeat split; lra. Qed.






(* ================================================================== *)

(** ** The frame clock *)





Lemma isBinary64_round (q : Q) :
  isBinary64 q = true -> exists r, Binary64.round q = Fin r /\ r == q.
Proof.
  unfold isBinary64. destruct (Binary64.round q) as [r| | |]; try discriminate.
  intro H. exists r. split; [reflexivity|]. apply Qeq_bool_iff. exact H.
Qed.





Lemma recordFrame_timestamps (now : Q) (p : Stats.t) :
  Stats.frameTimestamps (recordFrame now p) = pushTimestamp now (Stats.frameTimestamps p).
Proof.
  unfold recordFrame.
  repeat match goal with
         | |- context [if ?c then _ else _] => destruct c
         end; reflexivity.
Qed.





(** Eleven intervals in 400 ms: the program computes 27, where the rounding
    of the exact quotient 1000 / (400/11) = 27.5 would be 28. *)
Lemma eleven_frames_in_400ms :
  Js.round (measuredFPS elevenIn400) = Fin 27 /\
  Js.round (Fin 1000 / Fin (400 # 11))%js = Fin 28.
Proof. split; vm_compute; reflexivity. Qed.

(* ================================================================== *)

(** ** Projection and rendering *)

(** The scale is a number as soon as the focal length is not 0. *)
Lemma scale_not_NaN (s : Starfield.t) (x y z : Q) :
  ~ Config.focalLength (Starfield.config s) == 0 ->
  Projected.scale (_project s x y z) <> NaN.
Proof.
  intro F. simpl. unfold Js.div.
  destruct (Js.isZero (Config.focalLength (Starfield.config s) + z)).
  - apply isZero_false in F. rewrite F.
    destruct (Js.isNeg _); discriminate.
  - discriminate.
Qed.

Lemma leb_gt_zero (a : jsnum) : a <> NaN -> (a <=? Fin 0)%js = negb (a >? Fin 0)%js.
Proof.
  intro H. destruct a as [q| | |]; simpl; try reflexivity; [|contradiction].
  unfold Js.ltb. rewrite negb_involutive. reflexivity.
Qed.

Lemma renderStars_flat_map (s : Starfield.t) (stars : list Star.t) :
  renderStars s stars =
  flat_map (fun star => match renderStar s star with
                        | Some d => [FillDisc d]
                        | None => []
                        end) stars.
Proof.
  induction stars as [|star rest IH]; [reflexivity|].
  simpl. destruct (renderStar s star); rewrite IH; reflexivity.
Qed.

(** [renderStar] reads the configuration and the centre only. *)
Lemma renderStars_ext (s s' : Starfield.t) (stars : list Star.t) :
  Starfield.config s' = Starfield.config s ->
  Starfield.centerX s' = Starfield.centerX s ->
  Starfield.centerY s' = Starfield.centerY s ->
  renderStars s' stars = renderStars s stars.
Proof.
  intros C X Y. induction stars as [|star rest IH]; [reflexivity|].
  simpl. unfold renderStar, _project. rewrite C, X, Y, IH. reflexivity.
Qed.

(** Stepping through a sequence of statements. *)
Lemma bind_run {A B : Type} (m : M A) (k : A -> M B) (w w' : World) (a : A) :
  m w = Returned a w' -> bind m k w = k a w'.
Proof. intro E. unfold bind. rewrite E. reflexivity. Qed.

Lemma bind_getThis {B : Type} (k : Starfield.t -> M B) (w : World) :
  bind getThis k w = k (this w) w.
Proof. reflexivity. Qed.

Lemma bind_getBrowser {B : Type} (k : Browser.t -> M B) (w : World) :
  bind getBrowser k w = k (browser w) w.
Proof. reflexivity. Qed.

Lemma bind_modifyThis {B : Type} (f : Starfield.t -> Starfield.t) (k : unit -> M B)
  (w : World) :
  bind (modifyThis f) k w = k tt (mkWorld (f (this w)) (browser w)).
Proof. reflexivity. Qed.

Lemma renders_ext (s s' : Starfield.t) :
  Config.background (Starfield.config s') = Config.background (Starfield.config s) ->
  Starfield.backgroundGradient s' = Starfield.backgroundGradient s ->
  renders s' = renders s.
Proof. intros A B. unfold renders. rewrite A, B. reflexivity. Qed.

Lemma bind_ret {B : Type} (k : unit -> M B) (w : World) : bind (ret tt) k w = k tt w.
Proof. reflexivity. Qed.

(** [_drawBackgroundGradient] when it returns. *)
Lemma drawBackgroundGradient_explicit (w : World) :
  renders (this w) = true ->
  _drawBackgroundGradient w =
  Returned tt
    (mkWorld
       (setCanvas
          (Canvas.mk (Canvas.width (Starfield.canvas (this w)))
             (Canvas.height (Starfield.canvas (this w)))
             (Canvas.calls (Starfield.canvas (this w)) ++ backgroundLayer (this w)))
          (setBackgroundGradient (gradientInForce (this w)) (this w)))
       (browser w)).
Proof.
  destruct w as [s b]. cbn [this browser].
  destruct s as [cv c stars n id run g cx cy temp stats].
  unfold renders, backgroundLayer, gradientInForce, freshGradient, isRadial.
  unfold _drawBackgroundGradient. rewrite bind_getThis.
  cbn [this Starfield.config Starfield.backgroundGradient Starfield.canvas
       Starfield.centerX Starfield.centerY].
  destruct (Config.background c) as [bg|] eqn:B.
  - destruct g as [g|].
    + intros _. rewrite bind_ret, bind_getThis. reflexivity.
    + cbn [isSome orb].
      destruct (BackgroundO.colors bg) as [[|stop stops]|] eqn:C; [| |discriminate].
      * intros _.
        destruct (BackgroundO.type bg) as [t|]; [destruct (String.eqb t "radial")|];
          reflexivity.
      * destruct (BackgroundO.type bg) as [t|]; [|discriminate].
        intro R. rewrite R. reflexivity.
  - intros _. destruct cv. cbn. rewrite app_nil_r. reflexivity.
Qed.

Ltac fields :=
  cbn [this browser
       Starfield.canvas Starfield.config Starfield.stars Starfield.starCount
       Starfield.animationId Starfield.isRunning Starfield.backgroundGradient
       Starfield.centerX Starfield.centerY Starfield.tempCanvas Starfield.performanceStats
       Canvas.width Canvas.height Canvas.calls].

Lemma render_explicit (w : World) :
  renders (this w) = true ->
  _render w = Returned tt (mkWorld (renderedInstance (this w)) (browser w)).
Proof.
  intro R. destruct w as [s b]. cbn [this browser] in *.
  unfold _render. rewrite bind_getThis. cbv zeta. cbn [this].
  rewrite bind_modifyThis. unfold clearRect. rewrite bind_modifyThis.
  cbn [this browser].
  match goal with |- bind _ _ ?w0 = _ => set (w1 := w0) end.
  assert (R1 : renders (this w1) = true).
  { rewrite <- R. apply renders_ext; reflexivity. }
  rewrite (bind_run _ _ _ _ _ (drawBackgroundGradient_explicit w1 R1)).
  assert (BL : backgroundLayer (this w1) = backgroundLayer s) by reflexivity.
  assert (GF : gradientInForce (this w1) = gradientInForce s) by reflexivity.
  rewrite BL, GF. unfold w1. clear w1 R1 BL GF.
  fold (scratchSize s).
  unfold setCanvas at 2 3. unfold setTempCanvas, setBackgroundGradient. fields.
  unfold setCanvas at 1. fields. cbn [app].
  unfold renderedInstance, trailLayer.
  unfold setCanvas, setTempCanvas, setBackgroundGradient. fields.
  destruct (Js.ltb 0 (Config.trailEffect (Starfield.config s))); unfold when.
  - unfold draw at 1. rewrite bind_modifyThis. unfold setCanvas. fields.
    rewrite bind_getThis. unfold modifyThis, setCanvas. fields.
    match goal with |- context [renderStars ?a ?l] =>
      rewrite (renderStars_ext s a l eq_refl eq_refl eq_refl) end.
    rewrite <- app_assoc. reflexivity.
  - rewrite bind_ret, bind_getThis. unfold modifyThis, setCanvas. fields.
    match goal with |- context [renderStars ?a ?l] =>
      rewrite (renderStars_ext s a l eq_refl eq_refl eq_refl) end.
    reflexivity.
Qed.

Lemma drawBackgroundGradient_throws (w : World) :
  renders (this w) = false ->
  exists what w',
    _drawBackgroundGradient w = Threw (TypeError what) w' /\
    Canvas.calls (Starfield.canvas (this w')) = Canvas.calls (Starfield.canvas (this w)).
Proof.
  destruct w as [s b]. cbn [this browser].
  destruct s as [cv c stars n id run g cx cy temp stats].
  unfold renders, isRadial.
  unfold _drawBackgroundGradient. rewrite bind_getThis.
  cbn [this Starfield.config Starfield.backgroundGradient Starfield.canvas
       Starfield.centerX Starfield.centerY].
  destruct (Config.background c) as [bg|] eqn:B; [|discriminate].
  destruct g as [g|]; [discriminate|]. cbn [isSome orb].
  destruct (BackgroundO.colors bg) as [[|stop stops]|] eqn:C; [discriminate| |].
  - destruct (BackgroundO.type bg) as [t|].
    + intro R. rewrite R. do 2 eexists. split; reflexivity.
    + intros _. do 2 eexists. split; reflexivity.
  - intros _. do 2 eexists. split; reflexivity.
Qed.

Lemma render_throws (w : World) :
  renders (this w) = false ->
  exists what w', _render w = Threw (TypeError what) w' /\
                  Canvas.calls (Starfield.canvas (this w')) = [].
Proof.
  intro R. destruct w as [s b]. cbn [this browser] in *.
  unfold _render. rewrite bind_getThis. cbv zeta. cbn [this].
  rewrite bind_modifyThis. unfold clearRect. rewrite bind_modifyThis.
  cbn [this browser].
  match goal with |- exists _ _, bind _ _ ?w0 = _ /\ _ => set (w1 := w0) end.
  assert (R1 : renders (this w1) = false).
  { rewrite <- R. apply renders_ext; reflexivity. }
  destruct (drawBackgroundGradient_throws w1 R1) as (what & w' & E & K).
  exists what, w'. split.
  - unfold bind. rewrite E. reflexivity.
  - rewrite K. reflexivity.
Qed.

(** The background and the trail hold no disc. *)
Lemma layers_without_disc (s : Starfield.t) :
  forallb (fun c => negb (isDisc c)) (backgroundLayer s ++ trailLayer s) = true.
Proof.
  unfold backgroundLayer, trailLayer.
  destruct (Config.background (Starfield.config s));
    destruct (Js.ltb 0 (Config.trailEffect (Starfield.config s))); reflexivity.
Qed.

(** C8.  [_project] is a function of [this.config.focalLength], the centre
    and the coordinates: [scale = focalLength / (focalLength + z)], the
    projected point is the centre plus the coordinate times the scale.  For
    a focal length inside the validated range [50, 1000], the callback of
    [_render] draws a star exactly when its scale is above 0, as the disc of
    radius [baseSize * scale] at the projected point in the star's hue with
    alpha [min(1, scale * 0.7)].  Whenever the background can be drawn (there
    is none, its gradient is cached, or it is a radial one) [_render]
    returns: it leaves on the canvas the background and the trail, which
    hold no disc, followed by exactly these discs in the order of the stars,
    and changes neither the stars, nor the configuration, nor the browser.
    Otherwise, and only then, it throws the [TypeError] of the malformed
    background, no disc drawn. *)
Theorem projection_and_rendering (s : Starfield.t) (star : Star.t) :
  50 <= Config.focalLength (Starfield.config s) <= 1000 ->
  let f := Config.focalLength (Starfield.config s) in
  let p := _project s (Star.x star) (Star.y star) (Star.z star) in
  (Projected.scale p = (Fin f / Fin (f + Star.z star))%js /\
   Projected.x p = (Fin (Starfield.centerX s) + Fin (Star.x star) * Projected.scale p)%js /\
   Projected.y p = (Fin (Starfield.centerY s) + Fin (Star.y star) * Projected.scale p)%js) /\
  (~ f + Star.z star == 0 ->
   Projected.scale p = Fin (f / (f + Star.z star)) /\
   Projected.x p = Fin (Starfield.centerX s + Star.x star * (f / (f + Star.z star))) /\
   Projected.y p = Fin (Starfield.centerY s + Star.y star * (f / (f + Star.z star)))) /\
  renderStar s star =
    (if (Projected.scale p >? Fin 0)%js then Some (discOf s star) else None) /\
  (forall b,
     (renders s = true ->
      exists w',
        _render (mkWorld s b) = Returned tt w' /\
        Canvas.calls (Starfield.canvas (this w')) =
          (backgroundLayer s ++ trailLayer s) ++
          flat_map (fun st =>
                      if (Projected.scale
                            (_project s (Star.x st) (Star.y st) (Star.z st)) >? Fin 0)%js
                      then [FillDisc (discOf s st)] else [])
            (Starfield.stars s) /\
        forallb (fun c => negb (isDisc c)) (backgroundLayer s ++ trailLayer s) = true /\
        Starfield.stars (this w') = Starfield.stars s /\
        Starfield.config (this w') = Starfield.config s /\
        browser w' = b) /\
     (renders s = false ->
      exists what w',
        _render (mkWorld s b) = Threw (TypeError what) w' /\
        Canvas.calls (Starfield.canvas (this w')) = [])).
Proof.
  intros F f p.
  assert (NZ : ~ f == 0) by (unfold f; lra).
  assert (RS : forall st,
             renderStar s st =
             if (Projected.scale (_project s (Star.x st) (Star.y st) (Star.z st)) >? Fin 0)%js
             then Some (discOf s st) else None).
  { intro st. unfold renderStar.
    rewrite (leb_gt_zero _ (scale_not_NaN s _ _ _ NZ)).
    destruct (_ >? _)%js; reflexivity. }
  split; [|split; [|split]].
  - repeat split; reflexivity.
  - intro D. apply isZero_false in D. unfold p, _project. fold f.
    cbn [Projected.scale Projected.x Projected.y].
    unfold Js.div. rewrite D. cbn. repeat split; reflexivity.
  - apply RS.
  - intro b. split; intro R.
    + exists (mkWorld (renderedInstance s) b).
      split; [apply (render_explicit (mkWorld s b) R)|].
      cbn [this browser]. split.
      * unfold renderedInstance. cbn [setCanvas Starfield.canvas Canvas.calls].
        rewrite app_assoc, renderStars_flat_map. f_equal.
        apply flat_map_ext. intro st. rewrite RS.
        destruct (_ >? _)%js; reflexivity.
      * split; [apply layers_without_disc|]. repeat split.
    + apply (render_throws (mkWorld s b) R).
Qed.

(* ================================================================== *)

(** ** The cached count at cold start *)

Lemma cachedCount_spec (b : Browser.t) (maxStarCount : Q) :
  cachedCount b maxStarCount =
  match readCache b with
  | Some count =>
      if Qle_bool 100 (inject_Z count) && Qle_bool (inject_Z count) maxStarCount
      then Some (inject_Z count) else None
  | None => None
  end.
Proof.
  unfold cachedCount, readCache.
  destruct (Browser.localStorage b) as [|[item|]]; try reflexivity.
  destruct (nonEmpty item); reflexivity.
Qed.

(** C9, as the code has it.  [_detectDeviceCapability] always returns and
    changes nothing.  It returns the cached count exactly when the cache can
    be read as an integer between 100 and [maxStarCount]; in every other case
    (storage that throws, no item, a text that is not a number, a count
    outside the range) it returns the configured mobile or desktop count.  A
    cached count outside the range is ignored, not clamped. *)
Theorem cold_start_count (w : World) :
  let c := Starfield.config (this w) in
  let b := browser w in
  exists n,
    _detectDeviceCapability w = Returned n w /\
    (forall count,
       readCache b = Some count ->
       100 <= inject_Z count <= Config.maxStarCount c ->
       n = inject_Z count) /\
    (forall count,
       readCache b = Some count ->
       ~ (100 <= inject_Z count <= Config.maxStarCount c) ->
       n = deviceCount c b) /\
    (readCache b = None -> n = deviceCount c b).
Proof.
  intros c b. unfold _detectDeviceCapability, bind, getThis, getBrowser.
  fold c b. rewrite cachedCount_spec.
  destruct (readCache b) as [count|].
  - destruct (Qle_bool 100 (inject_Z count)) eqn:L;
      destruct (Qle_bool (inject_Z count) (Config.maxStarCount c)) eqn:U; simpl.
    + apply Qle_bool_iff in L, U.
      eexists. split; [reflexivity|]. split; [|split].
      * intros k E _. injection E as <-. reflexivity.
      * intros k E N. injection E as <-. exfalso. apply N. split; assumption.
      * discriminate.
    + apply leb_false in U.
      eexists. split; [reflexivity|]. split; [|split].
      * intros k E [_ H]. injection E as <-. exfalso. apply (Qlt_not_le _ _ U H).
      * intros. reflexivity.
      * discriminate.
    + apply leb_false in L.
      eexists. split; [reflexivity|]. split; [|split].
      * intros k E [H _]. injection E as <-. exfalso. apply (Qlt_not_le _ _ L H).
      * intros. reflexivity.
      * discriminate.
    + apply leb_false in L.
      eexists. split; [reflexivity|]. split; [|split].
      * intros k E [H _]. injection E as <-. exfalso. apply (Qlt_not_le _ _ L H).
      * intros. reflexivity.
      * discriminate.
  - eexists. split; [reflexivity|]. split; [|split].
    + discriminate.
    + discriminate.
    + reflexivity.
Qed.

(** The claim fails on the code: with the count 50 in the cache
    ([maxStarCount] is 10000) the instance starts with the desktop count, 7
    here, and not with 50 clamped to [100, 10000], which is 100. *)
Lemma cold_start_count_counterexample :
  startedWith (new_Starfield 0 smallAutoOptions (desktopBrowser (Storage (Some (Written 50)))))
    = Some (7, 7%nat) /\
  clamp 100 10000 50 = 100 /\
  ~ 7 == clamp 100 10000 50.
Proof.
  split; [vm_compute; reflexivity|]. split; [vm_compute; reflexivity|].
  vm_compute. discriminate.
Qed.

(* ================================================================== *)

(** ** [updateConfig]: resizing and restyling *)

Lemma length_samples (c : Config.t) (rnd : nat -> Q) (i n : nat) :
  List.length (samples c rnd i n) = n.
Proof. revert i. induction n as [|n IH]; intro i; simpl; [|rewrite IH]; reflexivity. Qed.

Lemma times_createStar_run (n : nat) (w : World) :
  times n _createStar w =
  Returned
    (samples (Starfield.config (this w)) (Browser.Math_random (browser w))
       (Browser.randomCalls (browser w)) n)
    (drawn (5 * n) w).
Proof.
  revert w. induction n as [|n IH]; intro w.
  - simpl. rewrite drawn_0. reflexivity.
  - simpl times. unfold bind at 1. rewrite createStar_run.
    unfold bind at 1. rewrite IH. rewrite drawn_drawn.
    replace (5 * n + 5)%nat with (5 * S n)%nat by lia. reflexivity.
Qed.

Lemma stop_run (w : World) : stop w = Returned tt (stopped w).
Proof.
  unfold stopped, stop, cancelAnimationFrame.
  cbv [bind modifyThis getThis getBrowser modifyBrowser ret]. cbn [this browser].
  destruct (Starfield.animationId _) as [[|id]|]; reflexivity.
Qed.

Lemma stopped_spec (w : World) :
  Starfield.isRunning (this (stopped w)) = false /\
  Starfield.config (this (stopped w)) = Starfield.config (this w) /\
  Starfield.stars (this (stopped w)) = Starfield.stars (this w) /\
  Starfield.starCount (this (stopped w)) = Starfield.starCount (this w) /\
  Starfield.performanceStats (this (stopped w)) = Starfield.performanceStats (this w) /\
  Browser.Math_random (browser (stopped w)) = Browser.Math_random (browser w) /\
  Browser.randomCalls (browser (stopped w)) = Browser.randomCalls (browser w) /\
  Browser.localStorage (browser (stopped w)) = Browser.localStorage (browser w) /\
  (Starfield.isRunning (this w) = false -> Starfield.animationId (this w) = None ->
   stopped w = w).
Proof.
  unfold stopped, stop, cancelAnimationFrame.
  cbv [bind modifyThis getThis getBrowser modifyBrowser ret]. cbn [this browser].
  destruct w as [s b]. destruct s. cbn.
  destruct animationId as [[|id]|]; cbn; repeat split; try congruence;
    intros -> E; try discriminate; reflexivity.
Qed.

Lemma detectDeviceCapability_run (w : World) :
  _detectDeviceCapability w =
  Returned
    (match cachedCount (browser w) (Config.maxStarCount (Starfield.config (this w))) with
     | Some count => count
     | None => deviceCount (Starfield.config (this w)) (browser w)
     end) w.
Proof.
  unfold _detectDeviceCapability. rewrite bind_getThis, bind_getBrowser.
  destruct (cachedCount _ _); reflexivity.
Qed.

Lemma targetCount_run (w : World) :
  (match Config.starCount (Starfield.config (this w)) with
   | Auto => _detectDeviceCapability
   | Count n => ret n
   end) w = Returned (targetCount w) w.
Proof.
  unfold targetCount. destruct (Config.starCount _).
  - apply detectDeviceCapability_run.
  - reflexivity.
Qed.

Lemma recalculateStarCount_run (w : World) :
  exists k,
    recalculateStarCount w =
    Returned tt
      (mkWorld (setStars (resized w) (setStarCount (targetCount w) (this w)))
         (browser (drawn k w))).
Proof.
  unfold recalculateStarCount, resized. rewrite bind_getThis.
  rewrite (bind_run _ _ _ _ _ (targetCount_run w)). rewrite bind_modifyThis.
  destruct (Js.ltb (Starfield.starCount (this w)) (targetCount w)).
  - rewrite (bind_run _ _ _ _ _ (times_createStar_run _ _)).
    eexists. reflexivity.
  - exists 0%nat. rewrite drawn_0.
    destruct (Js.ltb (targetCount w) (Starfield.starCount (this w))); [reflexivity|].
    destruct w as [s b]. destruct s. reflexivity.
Qed.

(** [updateConfig] step by step: stop if running, validate, merge, apply
    the changes to the stars, start again if it was running. *)
Lemma updateConfig_body_run (start : M unit) (newConfig : Options.t) (w : World) :
  updateConfig_body start newConfig w =
  let w0 := if Starfield.isRunning (this w) then stopped w else w in
  match _validateConfig newConfig with
  | Some e => Threw e w0
  | None =>
      bind (applyStarChanges newConfig)
        (fun _ => when (Starfield.isRunning (this w)) start) (merged newConfig w0)
  end.
Proof.
  unfold updateConfig_body. rewrite bind_getThis.
  destruct (Starfield.isRunning (this w)); unfold when at 1.
  - rewrite (bind_run _ _ _ _ _ (stop_run w)).
    destruct (_validateConfig newConfig); reflexivity.
  - destruct (_validateConfig newConfig); reflexivity.
Qed.

Lemma applyStarChanges_count_run (newConfig : Options.t) (w : World) :
  Options.starCount newConfig <> None ->
  exists w',
    applyStarChanges newConfig w = Returned tt w' /\
    Starfield.stars (this w') = resized w /\
    Starfield.starCount (this w') = targetCount w /\
    Starfield.config (this w') = Starfield.config (this w) /\
    Starfield.isRunning (this w') = Starfield.isRunning (this w) /\
    Starfield.performanceStats (this w') = Starfield.performanceStats (this w) /\
    Browser.Math_random (browser w') = Browser.Math_random (browser w).
Proof.
  intro H. unfold applyStarChanges.
  destruct (Options.starCount newConfig) as [c|]; [|contradiction]. cbn [isSome].
  destruct (recalculateStarCount_run w) as [k E].
  rewrite (bind_run _ _ _ _ _ E).
  destruct (isSome (Options.background newConfig)); eexists;
    (split; [reflexivity|]); repeat split; reflexivity.
Qed.

Lemma splice_prefix {A : Type} (n : Q) (l : list A) :
  exists removed, l = splice n l ++ removed.
Proof. unfold splice. eexists. symmetry. apply firstn_skipn. Qed.

(** A star present at index [i] before and after a change of count is the
    same star. *)
Lemma resized_keeps (w : World) (i : nat) (old new : Star.t) :
  nth_error (Starfield.stars (this w)) i = Some old ->
  nth_error (resized w) i = Some new ->
  new = old.
Proof.
  unfold resized. intros O N.
  destruct (Js.ltb _ _).
  - rewrite nth_error_app1 in N; [congruence|].
    apply nth_error_Some. congruence.
  - destruct (Js.ltb _ _); [|congruence].
    destruct (splice_prefix (targetCount w) (Starfield.stars (this w))) as [removed E].
    rewrite E in O. rewrite nth_error_app1 in O; [congruence|].
    apply nth_error_Some. congruence.
Qed.

Lemma merged_starCountOnly (n : Q) (w : World) :
  Config.starCount (Starfield.config (this (merged (starCountOnly (Fin n)) w))) = Count n.
Proof. reflexivity. Qed.



(** C10.  For every [updateConfig] call whose [newConfig] carries
    [starCount] (and passes validation), with or without [starColors] and
    [starSize]: the update stops the loop if it ran, merges, and changes the
    count; the branch that re-samples sizes and hues is not taken.  In the
    state [w1] this leaves, a star found at an index before and after is the
    very same star, so it has the [baseSize] and [hue] it had, and every
    other star is one appended by the call, sampled under the merged
    configuration.  [updateConfig] then returns [w1], or, if the instance was
    running, goes on with [start()], the next ordinary frame. *)
Theorem restyle_skipped_with_count (depth : nat) (newConfig : Options.t) (w : World) :
  Options.starCount newConfig <> None ->
  _validateConfig newConfig = None ->
  exists w1,
    updateConfig depth newConfig w =
      (if Starfield.isRunning (this w) then start depth w1 else Returned tt w1) /\
    Starfield.isRunning (this w1) = false /\
    Starfield.config (this w1) =
      resolve (_mergeDeep (embed (Starfield.config (this w))) newConfig) /\
    (forall i old new,
       nth_error (Starfield.stars (this w)) i = Some old ->
       nth_error (Starfield.stars (this w1)) i = Some new ->
       new = old /\
       Star.baseSize new = Star.baseSize old /\ Star.hue new = Star.hue old) /\
    (forall i new,
       nth_error (Starfield.stars (this w)) i = None ->
       nth_error (Starfield.stars (this w1)) i = Some new ->
       exists j, new = sampleAt (Starfield.config (this w1))
                         (Browser.Math_random (browser w)) j).
Proof.
  intros HC HV. unfold updateConfig. rewrite updateConfig_body_run, HV. cbv zeta.
  set (w0 := if Starfield.isRunning (this w) then stopped w else w).
  assert (W0 : Starfield.isRunning (this w0) = false /\
               Starfield.config (this w0) = Starfield.config (this w) /\
               Starfield.stars (this w0) = Starfield.stars (this w) /\
               Browser.Math_random (browser w0) = Browser.Math_random (browser w)).
  { unfold w0. destruct (Starfield.isRunning (this w)) eqn:R.
    - pose proof (stopped_spec w). tauto.
    - repeat split; auto. }
  destruct W0 as (R0 & C0 & S0 & M0).
  destruct (applyStarChanges_count_run newConfig (merged newConfig w0) HC)
    as (w1 & E1 & S1 & _ & C1 & R1 & _ & M1).
  rewrite (bind_run _ _ _ _ _ E1).
  exists w1. split; [unfold when; destruct (Starfield.isRunning (this w)); reflexivity|].
  split; [rewrite R1; exact R0|].
  split; [rewrite C1; cbn [merged this Starfield.config setConfig]; rewrite C0; reflexivity|].
  split.
  - intros i old new O N. rewrite S1 in N.
    assert (E : new = old).
    { apply (resized_keeps (merged newConfig w0) i); [|exact N].
      cbn [merged this Starfield.stars setConfig]. rewrite S0. exact O. }
    subst new. repeat split; reflexivity.
  - intros i new O N. rewrite S1 in N. unfold resized in N.
    cbn [merged this browser Starfield.stars Starfield.starCount setConfig] in N.
    rewrite S0 in N.
    assert (Short : forall l, nth_error l i = Some new ->
                              (List.length l <= List.length (Starfield.stars (this w)))%nat ->
                              False).
    { intros l Hl Hlen. apply nth_error_None in O.
      assert (i < List.length l)%nat by (apply nth_error_Some; congruence). lia. }
    destruct (Js.ltb _ _).
    + apply nth_error_None in O. rewrite nth_error_app2 in N by exact O.
      rewrite C1. cbn [merged this Starfield.config setConfig]. rewrite <- M0.
      revert N. generalize (i - List.length (Starfield.stars (this w)))%nat.
      generalize (Browser.randomCalls (browser w0)).
      induction (iterations _) as [|m IH]; intros j k N.
      * destruct k; discriminate.
      * destruct k as [|k]; simpl in N.
        -- injection N as <-. exists j. reflexivity.
        -- apply (IH _ _ N).
    + destruct (Js.ltb _ _).
      * exfalso. apply (Short _ N). unfold splice. rewrite length_firstn. lia.
      * exfalso. apply (Short _ N). lia.
Qed.

(** C7, the code at an update that validation rejects.  [updateConfig]
    throws the validation error before it merges: the configuration, the
    stars and the count are the ones before the call.  The call to [stop()]
    is made before validation, though, so an instance that was running is
    left stopped: [isRunning] is false and the pending frame is cancelled. *)
Theorem rejected_update_stops_instance
  (depth : nat) (newConfig : Options.t) (e : Error) (w : World) :
  _validateConfig newConfig = Some e ->
  Starfield.isRunning (this w) = true ->
  exists w',
    updateConfig depth newConfig w = Threw e w' /\
    Starfield.config (this w') = Starfield.config (this w) /\
    Starfield.stars (this w') = Starfield.stars (this w) /\
    Starfield.starCount (this w') = Starfield.starCount (this w) /\
    Starfield.isRunning (this w') = false /\
    Starfield.isRunning (this w') <> Starfield.isRunning (this w).
Proof.
  intros HV R. unfold updateConfig. rewrite updateConfig_body_run, HV, R. cbv zeta.
  exists (stopped w). pose proof (stopped_spec w) as (A & B & C & D & _).
  repeat split; try assumption. rewrite A. discriminate.
Qed.

(** An instance that is not running is left exactly as it was. *)
Lemma rejected_update_when_stopped
  (depth : nat) (newConfig : Options.t) (e : Error) (w : World) :
  _validateConfig newConfig = Some e ->
  Starfield.isRunning (this w) = false ->
  updateConfig depth newConfig w = Threw e w.
Proof.
  intros HV R. unfold updateConfig. rewrite updateConfig_body_run, HV, R. reflexivity.
Qed.

(* ================================================================== *)

(** ** The controller *)

(** *** Numbers of the controller *)

Lemma round_number (q : Q) : Binary64.round q <> NaN.
Proof.
  unfold Binary64.round. destruct (Qeq_bool q 0); [discriminate|]. cbv zeta.
  destruct (Qle_bool _ _); [destruct (Qle_bool 0 q)|]; discriminate.
Qed.

Lemma b64_number (a : jsnum) : a <> NaN -> Js.b64 a <> NaN.
Proof. destruct a; cbn [Js.b64]; auto. intros _. apply round_number. Qed.

(** The product of a positive number and a number is a number. *)
Lemma fmul_number (n : Q) (a : jsnum) :
  0 < n -> a <> NaN -> (Fin n * a)%b64 <> NaN /\ (a * Fin n)%b64 <> NaN.
Proof.
  intros P N.
  assert (Z : Js.isZero n = false) by (apply isZero_false; lra).
  assert (G : Js.isNeg n = false).
  { unfold Js.isNeg. apply negb_false_iff, Qle_bool_iff. lra. }
  unfold Js.fmul.
  destruct a as [q| | |]; [| | |contradiction N; reflexivity];
    cbn [Js.mul Js.b64]; unfold Js.scaleInf; rewrite ?Z, ?G; cbn [Bool.eqb Js.b64];
    split; try discriminate; apply round_number.
Qed.

Lemma literal_02 : literal (2 # 10) = Fin (3602879701896397 # 18014398509481984).
Proof. vm_compute. reflexivity. Qed.

Lemma literal_005 : literal (5 # 100) = Fin (3602879701896397 # 72057594037927936).
Proof. vm_compute. reflexivity. Qed.

Lemma literal_09 : literal (9 # 10) = Fin (8106479329266893 # 9007199254740992).
Proof. vm_compute. reflexivity. Qed.

(** Multiples of a power of two with at most 53 bits are binary64
    numbers. *)
Lemma dyadic_isBinary64 (z e0 : Z) :
  (Z.abs z < 2 ^ 53)%Z -> (-1074 <= e0 <= 0)%Z ->
  isBinary64 (inject_Z z * 2 ^ e0) = true.
Proof.
  intros Hz He. unfold isBinary64.
  rewrite (round_dyadic (inject_Z z * 2 ^ e0) z e0);
    [apply Qeq_bool_iff, Qred_correct | reflexivity | exact Hz | lia |].
  rewrite Qabs_Qmult.
  assert (A : Qabs (inject_Z z) == inject_Z (Z.abs z)) by (destruct z; reflexivity).
  rewrite A. rewrite (Qabs_pos (2 ^ e0)) by (apply Qlt_le_weak, pow2_pos).
  rewrite Zlt_Qlt, pow2_Z in Hz by lia.
  assert (P1 : 2 ^ e0 <= 2 ^ 0) by (apply pow2_le; lia).
  change (2 ^ 0) with 1 in P1.
  pose proof (pow2_pos e0) as P0.
  assert (B : 2 ^ 53 < 2 ^ 1024) by (apply pow2_lt; lia).
  assert (A0 : 0 <= inject_Z (Z.abs z)).
  { change 0 with (inject_Z 0). rewrite <- Zle_Qle. apply Z.abs_nonneg. }
  revert Hz P1 P0 B A0.
  generalize (2 ^ 1024) (2 ^ 53) (2 ^ e0) (inject_Z (Z.abs z)).
  intros u v p a Hz P1 P0 B A0. nra.
Qed.

(** A number between two binary64 numbers is rounded to a number between
    them. *)
Lemma round_between (q a b : Q) :
  isBinary64 a = true -> isBinary64 b = true -> a <= q -> q <= b ->
  exists x, Binary64.round q = Fin x /\ a <= x /\ x <= b.
Proof.
  intros Ia Ib La Lb.
  destruct (isBinary64_round a Ia) as (a' & Ra & Ea).
  destruct (isBinary64_round b Ib) as (b' & Rb & Eb).
  pose proof (round_mono a q La) as Ma. pose proof (round_mono q b Lb) as Mb.
  rewrite Ra in Ma. rewrite Rb in Mb.
  destruct (Binary64.round q) as [x| | |]; try discriminate.
  exists x. split; [reflexivity|].
  cbn [Js.leb] in Ma, Mb. apply Qle_bool_iff in Ma, Mb. split; lra.
Qed.

Lemma roundQ_unique (x : Q) (z : Z) :
  inject_Z z - (1 # 2) <= x -> x < inject_Z z + (1 # 2) -> Js.roundQ x = z.
Proof.
  intros L U.
  pose proof (roundQ_upper x) as F1. pose proof (roundQ_lower x) as F2.
  assert (A : inject_Z (Js.roundQ x) < inject_Z (z + 1)).
  { rewrite inject_Z_plus. change (inject_Z 1) with 1. lra. }
  assert (B : inject_Z z < inject_Z (Js.roundQ x + 1)).
  { rewrite inject_Z_plus. change (inject_Z 1) with 1. lra. }
  rewrite <- Zlt_Qlt in A, B. lia.
Qed.

(** [inject_Z] pushed to the variables. *)
Ltac push_inject :=
  unfold Z.sub;
  repeat (rewrite inject_Z_plus || rewrite inject_Z_mult || rewrite inject_Z_opp).

Ltac push_inject_in H :=
  unfold Z.sub in H;
  repeat (rewrite inject_Z_plus in H || rewrite inject_Z_mult in H
          || rewrite inject_Z_opp in H).

(** Sums and differences of whole numbers are exact. *)
Lemma fadd_whole (p q : Q) (j k : Z) :
  p == inject_Z j -> q == inject_Z k -> (Z.abs (j + k) < 2 ^ 53)%Z ->
  (Fin p + Fin q)%b64 = Fin (inject_Z (j + k)).
Proof.
  intros Ep Eq B. unfold Js.fadd. cbn [Js.add Js.b64].
  apply round_Z; [|exact B]. rewrite Ep, Eq, inject_Z_plus. reflexivity.
Qed.

Lemma fsub_whole (p q : Q) (j k : Z) :
  p == inject_Z j -> q == inject_Z k -> (Z.abs (j - k) < 2 ^ 53)%Z ->
  (Fin p - Fin q)%b64 = Fin (inject_Z (j - k)).
Proof.
  intros Ep Eq B. unfold Js.fsub, Js.sub. cbn [Js.neg Js.add Js.b64].
  apply round_Z; [|exact B]. rewrite Ep, Eq. unfold Z.sub.
  rewrite inject_Z_plus, inject_Z_opp. reflexivity.
Qed.

(** *** The ratio *)

(** The ratio is [NaN] only if the sum of the intervals is. *)
Lemma fpsRatioOf_number (timestamps : list Q) :
  totalInterval timestamps <> NaN -> (1 < List.length timestamps)%nat ->
  fpsRatioOf timestamps <> NaN.
Proof.
  intros T L. unfold fpsRatioOf, measuredFPS, avgInterval.
  set (n := inject_Z (Z.of_nat (List.length timestamps) - 1)).
  assert (N : Js.isZero n = false).
  { apply isZero_false. intro E.
    assert (H : (0 < Z.of_nat (List.length timestamps) - 1)%Z) by lia.
    rewrite Zlt_Qlt in H. fold n in H. rewrite E in H. apply (Qlt_irrefl _ H). }
  assert (A : (totalInterval timestamps / Fin n)%b64 <> NaN).
  { unfold Js.fdiv. apply b64_number.
    destruct (totalInterval timestamps) as [t| | |]; [| | |contradiction T; reflexivity];
      cbn [Js.div]; rewrite ?N; try discriminate; destruct (Js.isNeg n); discriminate. }
  assert (B : (Fin 1000 / (totalInterval timestamps / Fin n))%b64 <> NaN).
  { unfold Js.fdiv at 1. apply b64_number.
    destruct (totalInterval timestamps / Fin n)%b64 as [a| | |];
      [| | |contradiction A; reflexivity]; cbn [Js.div]; try discriminate.
    destruct (Js.isZero a); [|discriminate].
    change (Js.isZero 1000) with false. change (Js.isNeg 1000) with false.
    discriminate. }
  unfold Js.fdiv at 1. apply b64_number.
  destruct (Fin 1000 / (totalInterval timestamps / Fin n))%b64 as [a| | |];
    [| | |contradiction B; reflexivity]; cbn [Js.div]; unfold targetFPS.
  - change (Js.isZero 60) with false. discriminate.
  - change (Js.isNeg 60) with false. discriminate.
  - change (Js.isNeg 60) with false. discriminate.
Qed.

(** *** Clamping *)

Lemma min_fin (a b : Q) :
  exists v, Js.min (Fin a) (Fin b) = Fin v /\ v <= a /\ v <= b /\ (v = a \/ v = b).
Proof.
  unfold Js.min, Js.leb. destruct (Qle_bool a b) eqn:E.
  - apply Qle_bool_iff in E. exists a. repeat split; auto; lra.
  - apply leb_false in E. exists b. repeat split; auto; lra.
Qed.

Lemma max_fin (a b : Q) :
  exists v, Js.max (Fin a) (Fin b) = Fin v /\ a <= v /\ b <= v /\ (v = a \/ v = b).
Proof.
  unfold Js.max, Js.leb. destruct (Qle_bool a b) eqn:E.
  - apply Qle_bool_iff in E. exists b. repeat split; auto; lra.
  - apply leb_false in E. exists a. repeat split; auto; lra.
Qed.

(** [Math.max(lo, Math.min(hi, v))] for [lo <= hi] and a number [v] lies in
    [lo, hi]; it is [lo], [hi] or [v]. *)
Lemma clamp_fin (lo hi : Q) (v : jsnum) :
  lo <= hi -> v <> NaN ->
  exists c, Js.max (Fin lo) (Js.min (Fin hi) v) = Fin c /\ lo <= c /\ c <= hi /\
            (c = lo \/ c = hi \/ v = Fin c).
Proof.
  intros L N. destruct v as [q| | |]; [| | |contradiction N; reflexivity].
  - destruct (min_fin hi q) as (m & -> & M1 & M2 & [M|M]).
    + destruct (max_fin lo m) as (c & -> & C1 & C2 & [E|E]);
        exists c; repeat split; auto; subst; try lra; auto.
    + destruct (max_fin lo m) as (c & -> & C1 & C2 & [E|E]);
        exists c; repeat split; auto; subst; try lra; auto.
  - exists hi. simpl. unfold Js.max, Js.leb.
    destruct (Qle_bool lo hi) eqn:E; [|apply leb_false in E; lra].
    repeat split; auto; lra.
  - exists lo. simpl. repeat split; auto; lra.
Qed.

(** Clamping to an interval that contains [t] moves a value towards [t]. *)
Lemma clamp_towards (lo hi t q : Q) :
  lo <= t -> t <= hi ->
  exists c, Js.max (Fin lo) (Js.min (Fin hi) (Fin q)) = Fin c /\
            lo <= c /\ c <= hi /\
            ((q <= c /\ c <= t) \/ (t <= c /\ c <= q)) /\
            (c = lo \/ c = hi \/ c = q).
Proof.
  intros L H.
  destruct (min_fin hi q) as (m & -> & M1 & M2 & [E|E]);
    destruct (max_fin lo m) as (c & -> & C1 & C2 & [F|F]);
    exists c; subst; repeat split; try lra; auto.
  all: destruct (Qlt_le_dec q t); [left|right]; split; lra.
Qed.

(** *** The step of a whole number of stars *)

(** [Math.round(0.2 * k)] is computed exactly for [k] from 100 to 50000:
    the binary64 product lies within 7/16 of the nearest integer to [k / 5]. *)
Lemma maxChangeOf_whole (n : Q) (k : Z) :
  n == inject_Z k -> (100 <= k <= 50000)%Z ->
  maxChangeOf n = Fin (inject_Z (Js.roundQ (n * (2 # 10)))) /\
  (0 <= Js.roundQ (n * (2 # 10)) <= k)%Z.
Proof.
  intros E [Lo Hi].
  rewrite (roundQ_comp (n * (2 # 10)) (inject_Z k * (2 # 10))) by (rewrite E; reflexivity).
  set (K := Js.roundQ (inject_Z k * (2 # 10))).
  pose proof (roundQ_upper (inject_Z k * (2 # 10))) as U.
  pose proof (roundQ_lower (inject_Z k * (2 # 10))) as L. fold K in U, L.
  assert (U1 : (10 * K <= 2 * k + 5)%Z).
  { rewrite Zle_Qle, inject_Z_plus, !inject_Z_mult.
    change (inject_Z 10) with 10. change (inject_Z 2) with 2. change (inject_Z 5) with 5.
    lra. }
  assert (L1 : (2 * k + 5 < 10 * K + 10)%Z).
  { rewrite Zlt_Qlt, !inject_Z_plus, !inject_Z_mult.
    change (inject_Z 10) with 10. change (inject_Z 2) with 2. change (inject_Z 5) with 5.
    lra. }
  assert (U2 : (10 * K + 1 <= 2 * k + 5)%Z) by lia.
  assert (L2 : (2 * k + 5 <= 10 * K + 9)%Z) by lia.
  split; [|lia].
  assert (Lo' : 100 <= inject_Z k) by (change 100 with (inject_Z 100); rewrite <- Zle_Qle; exact Lo).
  assert (Hi' : inject_Z k <= 50000)
    by (change 50000 with (inject_Z 50000); rewrite <- Zle_Qle; exact Hi).
  rewrite Zle_Qle, !inject_Z_plus, !inject_Z_mult in U2, L2.
  change (inject_Z 10) with 10 in U2, L2. change (inject_Z 2) with 2 in U2, L2.
  change (inject_Z 5) with 5 in U2, L2. change (inject_Z 1) with 1 in U2.
  change (inject_Z 9) with 9 in L2.
  unfold maxChangeOf. rewrite literal_02. unfold Js.fmul. cbn [Js.mul Js.b64].
  set (d := 3602879701896397 # 18014398509481984).
  rewrite (round_comp (n * d) (inject_Z k * d)) by (rewrite E; reflexivity).
  destruct (round_between (inject_Z k * d)
              (inject_Z (16 * K - 7) * 2 ^ (-4)) (inject_Z (16 * K + 7) * 2 ^ (-4)))
    as (x & -> & X1 & X2).
  - apply dyadic_isBinary64; lia.
  - apply dyadic_isBinary64; lia.
  - unfold Z.sub. rewrite inject_Z_plus, inject_Z_mult.
    change (2 ^ (-4)) with (1 # 16). change (inject_Z 16) with 16.
    change (inject_Z (- (7))) with (- (7)). unfold d. lra.
  - rewrite inject_Z_plus, inject_Z_mult.
    change (2 ^ (-4)) with (1 # 16). change (inject_Z 16) with 16.
    change (inject_Z 7) with 7. unfold d. lra.
  - cbn [Js.round]. f_equal. f_equal. apply roundQ_unique.
    + unfold Z.sub in X1. rewrite inject_Z_plus, inject_Z_mult in X1.
      change (2 ^ (-4)) with (1 # 16) in X1. change (inject_Z 16) with 16 in X1.
      change (inject_Z (- (7))) with (- (7)) in X1. lra.
    + rewrite inject_Z_plus, inject_Z_mult in X2.
      change (2 ^ (-4)) with (1 # 16) in X2. change (inject_Z 16) with 16 in X2.
      change (inject_Z 7) with 7 in X2. lra.
Qed.

Lemma whole_round (a : jsnum) : whole (Js.round a).
Proof. destruct a; cbn; auto. eexists. reflexivity. Qed.

Lemma whole_min (a b : jsnum) : whole a -> whole b -> whole (Js.min a b).
Proof.
  intros A B. unfold Js.min.
  destruct a, b; try exact I; destruct (Js.leb _ _); assumption.
Qed.

Lemma whole_max (a b : jsnum) : whole a -> whole b -> whole (Js.max a b).
Proof.
  intros A B. unfold Js.max.
  destruct a, b; try exact I; destruct (Js.leb _ _); assumption.
Qed.

(** The continuous step from a whole count inside [100, maxStars]: the new
    count is a whole number at most [Math.round(0.2 * count)] away, inside
    the range too. *)
Lemma continuousCount_bound (n maxStars : Q) (r : jsnum) (k m : Z) :
  n == inject_Z k -> maxStars == inject_Z m ->
  100 <= n -> n <= maxStars -> maxStars <= 50000 -> r <> NaN ->
  exists c,
    continuousCount n maxStars r = Fin c /\
    Qabs (c - n) <= inject_Z (Js.roundQ (n * (2 # 10))) /\
    100 <= c /\ c <= maxStars /\ exists j, c == inject_Z j.
Proof.
  intros En Em L U M R.
  assert (Lk : (100 <= k <= 50000)%Z).
  { split.
    - rewrite Zle_Qle. change (inject_Z 100) with 100. rewrite <- En. exact L.
    - rewrite Zle_Qle. change (inject_Z 50000) with 50000. rewrite <- En. lra. }
  destruct (maxChangeOf_whole n k En Lk) as (MC & K0 & K1).
  unfold continuousCount. cbv zeta. rewrite MC.
  set (K := Js.roundQ (n * (2 # 10))) in *.
  rewrite (fsub_whole n (inject_Z K) k K En) by (reflexivity || lia).
  rewrite (fadd_whole n (inject_Z K) k K En) by (reflexivity || lia).
  set (v0 := Js.round (Fin n * (r * literal (9 # 10)))%b64).
  assert (V0 : v0 <> NaN).
  { unfold v0. rewrite literal_09.
    assert (P : (r * Fin (8106479329266893 # 9007199254740992))%b64 <> NaN).
    { apply fmul_number; [reflexivity | exact R]. }
    assert (P' := proj1 (fmul_number n _ ltac:(lra) P)).
    destruct (Fin n * _)%b64; cbn [Js.round]; try discriminate. exact P'. }
  assert (W0 : whole v0) by apply whole_round.
  assert (K0' : 0 <= inject_Z K) by (change 0 with (inject_Z 0); rewrite <- Zle_Qle; exact K0).
  destruct (clamp_fin (inject_Z (k - K)) (inject_Z (k + K)) v0) as (v & Ev & V1 & V2 & V3).
  { rewrite <- Zle_Qle. lia. }
  { exact V0. }
  rewrite Ev.
  assert (Wv : exists j, v == inject_Z j).
  { destruct V3 as [->|[->|V3]]; [eexists; reflexivity..|].
    rewrite V3 in W0. exact W0. }
  unfold Z.sub in V1. rewrite inject_Z_plus, inject_Z_opp in V1. rewrite inject_Z_plus in V2.
  destruct (clamp_towards 100 maxStars n v L U) as (c & -> & C1 & C2 & C3 & C4).
  exists c. split; [reflexivity|]. split; [|split; [exact C1|split; [exact C2|]]].
  - apply Qabs_Qle_condition. split; destruct C3; lra.
  - destruct C4 as [-> | [-> | ->]]; [exists 100%Z; reflexivity | exists m; exact Em | exact Wv].
Qed.

(** A change that is applied to a whole count up to 50000 is at least 5% of
    it: a smaller relative change is below 0.05 by more than the rounding
    of the quotient. *)
Lemma changePercent_applied (n q : Q) (k j : Z) :
  n == inject_Z k -> q == inject_Z j ->
  100 <= n -> n <= 50000 -> 0 <= q -> q <= 50000 ->
  (changePercent n (Fin q) <? literal (5 # 100))%js = false ->
  (5 # 100) * n <= Qabs (q - n).
Proof.
  intros En Eq L U Lq Uq H.
  assert (Bk : (100 <= k <= 50000)%Z).
  { split; rewrite Zle_Qle; [change (inject_Z 100) with 100|change (inject_Z 50000) with 50000];
      rewrite <- En; assumption. }
  assert (Bj : (0 <= j <= 50000)%Z).
  { split; rewrite Zle_Qle; [change (inject_Z 0) with 0|change (inject_Z 50000) with 50000];
      rewrite <- Eq; assumption. }
  destruct (Qlt_le_dec (Qabs (q - n)) ((5 # 100) * n)) as [Small|]; [exfalso|assumption].
  unfold changePercent in H. rewrite literal_005 in H.
  rewrite (fsub_whole q n j k Eq En) in H by lia.
  unfold Js.fdiv in H. cbn [Js.div] in H.
  assert (Z : Js.isZero n = false) by (apply isZero_false; lra).
  rewrite Z in H. cbn [Js.b64] in H.
  (* the exact quotient is at most 0.05 - 1/(20 k) in magnitude *)
  assert (S1 : (20 * Z.abs (j - k) < k)%Z).
  { rewrite Zlt_Qlt, inject_Z_mult. change (inject_Z 20) with 20.
    assert (A : inject_Z (Z.abs (j - k)) == Qabs (q - n)).
    { rewrite Eq, En. unfold Qminus, Z.sub. rewrite <- inject_Z_opp, <- inject_Z_plus.
      destruct (j + - k)%Z; reflexivity. }
    rewrite A, <- En. lra. }
  assert (S2 : (20 * Z.abs (j - k) <= k - 1)%Z) by lia.
  assert (S3 : (20 * (j - k) <= k - 1 /\ - (k - 1) <= 20 * (j - k))%Z) by lia.
  destruct S3 as [S3 S4].
  rewrite Zle_Qle in S3, S4. push_inject_in S3. push_inject_in S4.
  change (inject_Z 20) with 20 in S3, S4. change (inject_Z 1) with 1 in S3, S4.
  assert (P : 0 < n) by lra.
  destruct (round_between (inject_Z (j - k) / n)
              (inject_Z (- (13107)) * 2 ^ (-18)) (inject_Z 13107 * 2 ^ (-18)))
    as (x & Ex & X1 & X2).
  - apply dyadic_isBinary64; lia.
  - apply dyadic_isBinary64; lia.
  - apply Qle_shift_div_l; [exact P|].
    change (inject_Z (- (13107)) * 2 ^ (-18)) with (-13107 # 262144).
    push_inject. lra.
  - apply Qle_shift_div_r; [exact P|].
    change (inject_Z 13107 * 2 ^ (-18)) with (13107 # 262144).
    push_inject. lra.
  - rewrite Ex in H. cbn [Js.abs Js.lt] in H. apply ltb_false in H.
    change (inject_Z (- (13107)) * 2 ^ (-18)) with (-13107 # 262144) in X1.
    change (inject_Z 13107 * 2 ^ (-18)) with (13107 # 262144) in X2.
    assert (A : Qabs x <= 13107 # 262144) by (apply Qabs_Qle_condition; split; lra).
    assert (B : (13107 # 262144) < (3602879701896397 # 72057594037927936)) by reflexivity.
    lra.
Qed.

Lemma trySetItem_run (item : StoredItem) (w : World) :
  trySetItem item w = Returned tt (stored item w).
Proof.
  unfold trySetItem, stored. rewrite bind_getBrowser.
  destruct (Browser.localStorage (browser w)); [|reflexivity].
  destruct w. reflexivity.
Qed.

Lemma bind_modifyStats {B : Type} (f : Stats.t -> Stats.t) (k : unit -> M B) (w : World) :
  bind (modifyStats f) k w = k tt (mkWorld (setStats f (this w)) (browser w)).
Proof. reflexivity. Qed.

Lemma sameField_refl (w : World) : sameField w w.
Proof. repeat split. Qed.

(** One evaluation in the continuous phase: no adjustment, or the call
    [updateConfig({ starCount: clampedCount })] for a change of at least 5%. *)
Lemma continuous_evaluation (upd : Options.t -> M unit) (now : Q) (w : World) :
  Stats.initialCalibrationComplete (Starfield.performanceStats (this w)) = true ->
  let n := Starfield.starCount (this w) in
  let r := fpsRatioOf (Stats.frameTimestamps (Starfield.performanceStats (this w))) in
  let c := continuousCount n (Config.maxStarCount (Starfield.config (this w))) r in
  (exists w', _runOptimization_body upd now w = Returned tt w' /\ sameField w w') \/
  (exists w',
     _runOptimization_body upd now w = upd (starCountOnly c) w' /\ sameField w w' /\
     ((r >=? literal (85 # 100))%js && (r <=? literal (13 # 10))%js = false) /\
     (changePercent n c <? literal (5 # 100))%js = false).
Proof.
  intros C n r c. unfold _runOptimization_body. rewrite bind_getThis. rewrite C.
  cbn [negb andb].
  destruct (_ <? Fin continuousOptimizationDuration)%js.
  { left. eexists. split; [reflexivity | apply sameField_refl]. }
  destruct (truthy _ && (_ <? Fin optimizationInterval)%js).
  { left. eexists. split; [reflexivity | repeat split]. }
  destruct (Nat.ltb _ 10).
  { left. eexists. split; [reflexivity | apply sameField_refl]. }
  fold (fpsRatioOf (Stats.frameTimestamps (Starfield.performanceStats (this w)))).
  fold r. fold n. fold c.
  destruct ((r >=? literal (85 # 100))%js && (r <=? literal (13 # 10))%js) eqn:W.
  { left. eexists. split; [reflexivity | repeat split]. }
  destruct (changePercent n c <? literal (5 # 100))%js eqn:P.
  { left. eexists. split; [reflexivity | repeat split]. }
  right. rewrite !bind_modifyStats.
  rewrite (bind_run _ _ _ _ _ (trySetItem_run _ _)).
  eexists. split; [reflexivity|]. repeat split.
Qed.

Lemma validate_starCountOnly (q : Q) :
  1 <= q -> q <= 10000 -> _validateConfig (starCountOnly (Fin q)) = None.
Proof.
  intros L U. unfold _validateConfig, starCountOnly, validate. simpl.
  assert (A : Js.ltb q 1 = false) by (apply ltb_false; exact L).
  assert (B : Js.ltb 10000 q = false) by (apply ltb_false; exact U).
  rewrite A, B. reflexivity.
Qed.

(** [updateConfig({ starCount: q })] for a count validation accepts: the
    count becomes [q]; then the loop is started again if it ran. *)
Lemma updateConfig_starCountOnly (depth : nat) (q : Q) (w : World) :
  1 <= q -> q <= 10000 ->
  exists w1,
    updateConfig depth (starCountOnly (Fin q)) w =
      (if Starfield.isRunning (this w) then start depth w1 else Returned tt w1) /\
    Starfield.starCount (this w1) = q.
Proof.
  intros L U. unfold updateConfig.
  rewrite updateConfig_body_run, (validate_starCountOnly q L U). cbv zeta.
  set (w0 := if Starfield.isRunning (this w) then stopped w else w).
  destruct (applyStarChanges_count_run (starCountOnly (Fin q))
              (merged (starCountOnly (Fin q)) w0)) as (w1 & E1 & _ & C1 & _);
    [discriminate|].
  rewrite (bind_run _ _ _ _ _ E1). exists w1. split.
  - unfold when. destruct (Starfield.isRunning (this w)); reflexivity.
  - rewrite C1. reflexivity.
Qed.

(** C1, as the code has it.  In the continuous phase an evaluation either
    leaves the count alone or calls [updateConfig({ starCount: c })].  The
    call is made only for a ratio outside [0.85, 1.3] and only when the
    relative change is not below 0.05, both as the program computes them in
    binary64 (smaller changes are dropped and only the window start moves).
    For whole numbers of stars, the count [n] inside [100, maxStarCount] and
    [maxStarCount] at most 50000, the bounds hold exactly: [c] is a number
    that differs from [n] by at most [Math.round(0.2 * n)], which is at most
    [0.2 * n + 1/2], and by at least 5% of [n], it lies inside
    [100, maxStarCount], and the update makes [c] the count.  (For a count
    outside [100, maxStarCount] the final clamp to that range decides, not
    the 20% step.  The ratio is [NaN] only if the timestamps on record
    overflow binary64.) *)
Theorem continuous_step_bounded (depth : nat) (now : Q) (w : World) :
  Stats.initialCalibrationComplete (Starfield.performanceStats (this w)) = true ->
  continuousStep depth now w.
Proof.
  intro C. unfold continuousStep.
  destruct (continuous_evaluation (updateConfig depth) now w C)
    as [(w' & E & S) | (w' & E & S & W & P)].
  - left. exists w'. split; assumption.
  - right. exists w'. split; [exact E|]. split; [exact S|]. split; [exact W|].
    split; [exact P|].
    intros k m En Em L U M R.
    destruct (continuousCount_bound _ _ _ k m En Em L U M R)
      as (q & Q & B & Q1 & Q2 & j & Ej).
    assert (Lk : (100 <= k <= 50000)%Z).
    { split.
      - rewrite Zle_Qle. change (inject_Z 100) with 100. rewrite <- En. exact L.
      - rewrite Zle_Qle. change (inject_Z 50000) with 50000. rewrite <- En. lra. }
    destruct (maxChangeOf_whole _ k En Lk) as (MC & _).
    exists q, (inject_Z (Js.roundQ (Starfield.starCount (this w) * (2 # 10)))).
    split; [exact Q|]. split; [exact MC|]. split; [exact B|].
    split; [pose proof (roundQ_upper (Starfield.starCount (this w) * (2 # 10))); lra|].
    split; [exact Q1|]. split; [exact Q2|]. split.
    + rewrite Q in P. apply (changePercent_applied _ _ k j En Ej); try assumption; lra.
    + intro T. rewrite Q. apply updateConfig_starCountOnly; lra.
Qed.

(** *** Concrete instances *)

(** The claim fails on the code.  At 30 frames per second (ratio 0.5) 50
    stars become 100, a change of 100%, because the result is clamped to at
    least 100 after the step is limited; and 128 stars become 102, a change of
    26 where 20% of 128 is 25.6, because the limit of the step is rounded. *)
Lemma continuous_step_counterexample :
  (countAfter (_runOptimization 1 24000 (continuousWorld 50)) = Some 100 /\
   ~ Qabs (100 - 50) <= (2 # 10) * 50) /\
  (countAfter (_runOptimization 1 24000 (continuousWorld 128)) = Some 102 /\
   ~ Qabs (102 - 128) <= (2 # 10) * 128).
Proof.
  split; (split; [vm_compute; reflexivity|]);
    intro H; vm_compute in H; apply H; reflexivity.
Qed.

(** The last bit of the ratio decides.  With 52 timestamps in whole
    milliseconds over one second the ratio (1000 / (1000 / 51)) / 60 is
    17/20 in exact arithmetic, inside the band; the program computes
    0.8499999999999999, outside it, and asks for 400 stars in place of
    500. *)
Lemma ratio_at_51_frames_per_second :
  let r := fpsRatioOf wholeMilliseconds51 in
  (r >=? literal (85 # 100))%js = false /\
  continuousCount 500 10000 r = Fin 400 /\
  (((Fin 1000 / (Fin 1000 / Fin 51)) / Fin 60) >=? Fin (85 # 100))%js = true.
Proof. repeat split; vm_compute; reflexivity. Qed.

Lemma continuous_step_bounded_witness :
  Stats.initialCalibrationComplete
    (Starfield.performanceStats (this (continuousWorld 128))) = true /\
  continuousStep 1 24000 (continuousWorld 128).
Proof.
  split; [reflexivity|].
  apply (continuous_step_bounded 1 24000 (continuousWorld 128)). reflexivity.
Defined.

(* ------------------------------------------------------------------ *)

(** *** The initial calibration *)

(** [aggressiveness] on a finite ratio. *)
Lemma aggressiveness_fin (q : Q) :
  aggressiveness (Fin q) =
  (literal (75 # 100) + Fin (if Qle_bool q 4 then q else 4) / Fin 20)%b64.
Proof.
  unfold aggressiveness, Js.min, Js.leb.
  destruct (Qle_bool q 4); reflexivity.
Qed.

(** The factor is 0.95 from the ratio 4 on (and at plus infinity). *)
Lemma aggressiveness_saturates (q : Q) :
  4 <= q -> aggressiveness (Fin q) = literal (95 # 100).
Proof.
  intro L. rewrite aggressiveness_fin.
  destruct (Qle_bool q 4) eqn:P; [|vm_compute; reflexivity].
  apply Qle_bool_iff in P. assert (E : q == 4) by lra.
  unfold Js.fdiv at 1. cbn [Js.div]. change (Js.isZero 20) with false. cbn [Js.b64].
  rewrite (round_comp (q / 20) (4 / 20)) by (rewrite E; reflexivity).
  vm_compute. reflexivity.
Qed.

Lemma aggressiveness_infinite : aggressiveness PInf = literal (95 # 100).
Proof. vm_compute. reflexivity. Qed.

Lemma calibration_resize (upd : Options.t -> M unit) (now : Q) (w : World) :
  Stats.initialCalibrationComplete (Starfield.performanceStats (this w)) = false ->
  resizeDue now w = true ->
  _runOptimization_body upd now w =
  upd (starCountOnly
         (calibrationCount (Starfield.starCount (this w))
            (Config.maxStarCount (Starfield.config (this w)))
            (fpsRatioOf (Stats.frameTimestamps (Starfield.performanceStats (this w))))))
    (nextAttempt now w).
Proof.
  intros C D. unfold resizeDue in D. cbv zeta in D.
  repeat (apply andb_true_iff in D; destruct D as [D ?]).
  repeat match goal with
         | H : negb _ = true |- _ => apply negb_true_iff in H
         end.
  unfold _runOptimization_body. rewrite bind_getThis. rewrite C. cbn [negb andb].
  rewrite D.
  match goal with H : Nat.ltb _ 10 = false |- _ => rewrite H end.
  fold (fpsRatioOf (Stats.frameTimestamps (Starfield.performanceStats (this w)))).
  repeat match goal with
         | H : (_ && _)%bool = false |- _ => rewrite H; clear H
         end.
  match goal with
  | H : Z.ltb _ _ = true |- _ =>
      apply Z.ltb_lt in H; apply Z.leb_gt in H; rewrite H
  end.
  cbn [orb]. rewrite !bind_modifyStats. reflexivity.
Qed.

Lemma completeCalibration_run (now storedCount : Q) (w : World) :
  exists w',
    completeCalibration now storedCount w = Returned tt w' /\ sameField w w' /\
    Stats.initialCalibrationAttempts (Starfield.performanceStats (this w')) =
      Stats.initialCalibrationAttempts (Starfield.performanceStats (this w)).
Proof.
  unfold completeCalibration. rewrite !bind_modifyStats.
  rewrite (bind_run _ _ _ _ _ (trySetItem_run _ _)).
  eexists. split; [reflexivity|]. repeat split.
Qed.

(** One evaluation in the initial phase: no call of [updateConfig] and the
    count as it was, or one call of [updateConfig] that goes with one more
    attempt counted, made only while fewer than 8 were. *)
Lemma calibration_evaluation (upd : Options.t -> M unit) (now : Q) (w : World) :
  Stats.initialCalibrationComplete (Starfield.performanceStats (this w)) = false ->
  let attempts := Stats.initialCalibrationAttempts (Starfield.performanceStats (this w)) in
  (exists w', _runOptimization_body upd now w = Returned tt w' /\ sameField w w') \/
  (exists c w',
     _runOptimization_body upd now w = upd (starCountOnly c) w' /\ sameField w w' /\
     (attempts < maxInitialCalibrationAttempts)%Z /\
     Stats.initialCalibrationAttempts (Starfield.performanceStats (this w')) =
       (attempts + 1)%Z /\
     c = calibrationCount (Starfield.starCount (this w))
           (Config.maxStarCount (Starfield.config (this w)))
           (fpsRatioOf (Stats.frameTimestamps (Starfield.performanceStats (this w))))).
Proof.
  intros C attempts.
  destruct (resizeDue now w) eqn:D.
  - right. do 2 eexists. split; [apply (calibration_resize upd now w C D)|].
    split; [repeat split|]. split; [|split; reflexivity].
    unfold resizeDue in D. cbv zeta in D.
    repeat (apply andb_true_iff in D; destruct D as [D ?]).
    match goal with H : Z.ltb _ _ = true |- _ => apply Z.ltb_lt in H; exact H end.
  - left. unfold resizeDue in D. cbv zeta in D.
    unfold _runOptimization_body. rewrite bind_getThis. cbv beta zeta. rewrite C.
    cbn [negb andb].
    fold (fpsRatioOf (Stats.frameTimestamps (Starfield.performanceStats (this w)))).
    destruct (_ <? Fin initialCalibrationDuration)%js.
    { eexists. split; [reflexivity | apply sameField_refl]. }
    destruct (Nat.ltb _ 10).
    { eexists. split; [reflexivity | apply sameField_refl]. }
    destruct ((_ >=? _)%js && (_ <=? _)%js).
    { cbn [orb]. destruct (completeCalibration_run now (Starfield.starCount (this w)) w)
        as (w' & E & S & _). exists w'. split; assumption. }
    cbn [orb negb andb] in D |- *.
    destruct (Z.leb maxInitialCalibrationAttempts _) eqn:A.
    { destruct (completeCalibration_run now (Starfield.starCount (this w)) w)
        as (w' & E & S & _). exists w'. split; assumption. }
    apply Z.leb_gt in A. apply Z.ltb_lt in A. unfold attempts in *. rewrite A in D.
    cbn [andb] in D. apply negb_false_iff in D.
    rewrite bind_modifyStats. cbn [this browser Starfield.config Starfield.starCount setStats].
    rewrite D.
    match goal with |- context [completeCalibration ?n ?s ?w1] =>
      destruct (completeCalibration_run n s w1) as (w' & E & S & _)
    end.
    exists w'. split; [exact E|]. destruct S as (S1 & S2 & S3 & S4).
    repeat split; assumption.
Qed.

Lemma validate_starCountOnly_above (c : jsnum) :
  (c >? Fin 10000)%js = true ->
  _validateConfig (starCountOnly c) = Some (InvalidNumber "starCount" 1 10000 c).
Proof.
  intro H. unfold _validateConfig, starCountOnly. cbn -[validate Js.gt].
  unfold validate. rewrite H, orb_true_r. reflexivity.
Qed.

(** C3, the code where it departs from the claim.  On a non-terminal
    evaluation of the initial calibration of a running instance, when the
    clamped count
    [max(100, min(maxStarCount, round(count * ratio * aggressiveness)))]
    is above 10000 (possible for [maxStarCount] above 10000, which validation
    allows up to 50000), the call [updateConfig({ starCount: clamped })]
    stops the loop and then throws the validation error of [starCount]:
    the count stays what it was and the instance is left stopped. *)
Theorem calibration_count_rejected (depth : nat) (now : Q) (w : World) :
  Stats.initialCalibrationComplete (Starfield.performanceStats (this w)) = false ->
  Starfield.isRunning (this w) = true ->
  resizeDue now w = true ->
  let c := calibrationCount (Starfield.starCount (this w))
             (Config.maxStarCount (Starfield.config (this w)))
             (fpsRatioOf (Stats.frameTimestamps (Starfield.performanceStats (this w)))) in
  (c >? Fin 10000)%js = true ->
  exists w',
    _runOptimization depth now w = Threw (InvalidNumber "starCount" 1 10000 c) w' /\
    Starfield.starCount (this w') = Starfield.starCount (this w) /\
    Starfield.stars (this w') = Starfield.stars (this w) /\
    Starfield.isRunning (this w') = false.
Proof.
  intros C R D c A. unfold _runOptimization.
  rewrite (calibration_resize _ now w C D). fold c.
  unfold updateConfig. rewrite updateConfig_body_run.
  rewrite (validate_starCountOnly_above c A).
  cbn [nextAttempt this Starfield.isRunning setStats]. rewrite R. cbv zeta.
  exists (stopped (nextAttempt now w)).
  pose proof (stopped_spec (nextAttempt now w)) as (S1 & _ & S3 & S4 & _).
  repeat split; assumption.
Qed.

(** The product is rounded before [Math.round]: 225 stars at 40 frames per
    second (ratio 2/3, factor 0.75 + 1/30) give 117.49999999999999, hence
    117, where the exact product 117.5 would give 118. *)
Lemma calibration_at_40_frames_per_second :
  countAfter (_runOptimization 1 30000 calibratingWorld40) = Some 117 /\
  Js.round (Fin 225 * (Fin (2 # 3) * (Fin (75 # 100) + Fin (2 # 3) / Fin 20)))%js = Fin 118.
Proof. split; vm_compute; reflexivity. Qed.

Lemma calibration_count_rejected_witness :
  calibrationCount 6000 50000 (Fin 2) = Fin 10200 /\
  exists w',
    _runOptimization 1 30000 fastWorld =
      Threw (InvalidNumber "starCount" 1 10000 (Fin 10200)) w' /\
    Starfield.starCount (this w') = 6000 /\
    Starfield.stars (this w') = Starfield.stars (this fastWorld) /\
    Starfield.isRunning (this w') = false.
Proof.
  split; [vm_compute; reflexivity|].
  apply (calibration_count_rejected 1 30000 fastWorld);
    vm_compute; reflexivity.
Defined.

(* ================================================================== *)

(** ** The two phases *)

Lemma returns_bind {A B : Type} (Pre Mid Post : World -> Prop) (m : M A) (k : A -> M B) :
  returns Pre m Mid -> (forall a, returns Mid (k a) Post) -> returns Pre (bind m k) Post.
Proof.
  intros Hm Hk w H. unfold bind. specialize (Hm w H).
  destruct (m w) as [a w'| |]; auto. apply Hk. exact Hm.
Qed.

Lemma returns_stable {A : Type} (Inv : World -> Prop) (m : M A) :
  stable Inv m -> returns Inv m Inv.
Proof. intros S w H. specialize (S w H). destruct (m w); auto. Qed.

Lemma returns_weaken {A : Type} (Pre Pre' Post Post' : World -> Prop) (m : M A) :
  (forall w, Pre' w -> Pre w) -> (forall w, Post w -> Post' w) ->
  returns Pre m Post -> returns Pre' m Post'.
Proof.
  intros HP HQ H w W. specialize (H w (HP w W)). destruct (m w); auto.
Qed.

Lemma since_now (now : Q) : since now (Some now) = Fin 0.
Proof.
  unfold since, Js.fsub, Js.sub. cbn [Js.neg Js.add Js.b64].
  rewrite (round_comp (now + - now) 0) by ring. reflexivity.
Qed.

Lemma elapsed_zero (now : Q) :
  (since now (Some now) <? Fin initialCalibrationDuration)%js = true.
Proof. rewrite since_now. reflexivity. Qed.

(** The first frame: the window has just begun, the controller waits. *)
Lemma first_evaluation (upd : Options.t -> M unit) (now : Q) :
  returns (fun w => Starfield.performanceStats (this w) = recordFrame now initialStats)
    (_runOptimization_body upd now) (onStats calibrating).
Proof.
  intros w H. unfold _runOptimization_body. rewrite bind_getThis. cbv beta zeta.
  rewrite H.
  cbn [recordFrame initialStats pushTimestamp Stats.frameTimestamps app List.length
       Nat.ltb Nat.leb setFrameTimestamps truthy Stats.calibrationStartTime
       setCalibrationStartTime Stats.initialCalibrationComplete negb tl].
  rewrite elapsed_zero. cbv beta iota delta [ret]. unfold onStats. rewrite H.
  split; reflexivity.
Qed.

Lemma stable_calibrating_tail :
  stable (onStats calibrating) _update /\
  stable (onStats calibrating) _render /\
  stable (onStats calibrating) requestAnimationFrame.
Proof.
  split; [apply stable_update|]. split; [apply stable_render|].
  unfold requestAnimationFrame.
  apply stable_bind; [apply stable_getBrowser|]. intro b.
  apply stable_bind; [apply stable_modifyBrowser|]. intro u. apply stable_ret.
Qed.

Lemma performance_now_run (w : World) :
  performance_now w =
  Returned (Browser.performance_now (browser w) (Browser.nowCalls (browser w)))
    (mkWorld (this w) (setNowCalls (S (Browser.nowCalls (browser w))) (browser w))).
Proof. reflexivity. Qed.

Lemma first_frame (depth : nat) :
  returns (fun w => Starfield.performanceStats (this w) = initialStats)
    (start depth) (onStats calibrating).
Proof.
  unfold start, start_body.
  intros w H. rewrite bind_getThis.
  destruct (Starfield.isRunning (this w)).
  { unfold onStats. simpl. rewrite H. split; reflexivity. }
  rewrite bind_modifyThis.
  destruct depth as [|d]; [exact I|].
  cbn [_animate]. unfold _animate_body. rewrite bind_getThis.
  cbn [this Starfield.isRunning setIsRunning negb].
  rewrite (bind_run _ _ _ _ _ (performance_now_run _)).
  rewrite bind_modifyStats.
  set (now := Browser.performance_now _ _).
  match goal with |- match bind ?m ?k ?w1 with _ => _ end =>
    pose proof (returns_bind
                  (fun w => Starfield.performanceStats (this w) = recordFrame now initialStats)
                  (onStats calibrating) (onStats calibrating) m k) as HB;
    apply (HB (first_evaluation _ now))
  end.
  - intro u. destruct stable_calibrating_tail as (U & R & F).
    apply returns_stable.
    apply stable_bind; [exact U|]. intro.
    apply stable_bind; [exact R|]. intro.
    apply stable_bind; [exact F|]. intro.
    apply stable_modifyThis. intro. reflexivity.
  - cbn [this setStats Starfield.performanceStats setIsRunning]. rewrite H. reflexivity.
Qed.

(** A new instance is in the initial calibration, no attempt made. *)
Lemma constructor_calibrating (depth : nat) (options : Options.t) (b : Browser.t) :
  match new_Starfield depth options b with
  | Returned _ w => onStats calibrating w
  | _ => True
  end.
Proof.
  unfold new_Starfield, constructor. rewrite bind_modifyThis.
  destruct (_validateConfig _); [exact I|].
  rewrite !bind_modifyThis. rewrite bind_modifyStats.
  match goal with |- match ?m ?w1 with _ => _ end =>
    assert (H : returns (fun w => Starfield.performanceStats (this w) = initialStats)
                  m (onStats calibrating))
  end.
  { set (Inv := fun w : World => Starfield.performanceStats (this w) = initialStats).
    assert (SI : forall (A : Type) (m : M A),
               stable (onStats (fun p => p = initialStats)) m -> returns Inv m Inv).
    { intros A m S. apply returns_stable. exact S. }
    apply (returns_bind Inv Inv); [apply SI, stable_getThis|]. intro s.
    apply (returns_bind Inv Inv).
    { apply SI. destruct (Config.starCount _);
        [apply stable_detectDeviceCapability | apply stable_ret]. }
    intro n.
    apply (returns_bind Inv Inv);
      [apply SI, stable_modifyThis; intro; reflexivity|]. intro.
    apply (returns_bind Inv Inv); [apply SI, stable_times, stable_createStar|]. intro.
    apply (returns_bind Inv Inv);
      [apply SI, stable_modifyThis; intro; reflexivity|]. intro.
    apply (returns_bind Inv Inv); [apply SI, stable_resize|]. intro.
    unfold when. destruct (Config.autoStart _).
    - apply first_frame.
    - intros w H. unfold Inv in H. unfold onStats. simpl. rewrite H. split; reflexivity. }
  apply H. reflexivity.
Qed.

Lemma recordFrame_keeps (now : Q) (p : Stats.t) :
  Stats.initialCalibrationComplete (recordFrame now p) = Stats.initialCalibrationComplete p /\
  Stats.initialCalibrationAttempts (recordFrame now p) = Stats.initialCalibrationAttempts p.
Proof.
  unfold recordFrame.
  repeat match goal with
         | |- context [if ?c then _ else _] => destruct c
         end; split; reflexivity.
Qed.

(** *** The scenario of the specification: 500 stars at a steady 30 frames
    per second *)

(** C2.  A new instance is in the initial calibration with no attempt made.
    Once [initialCalibrationComplete] is true no method makes it false
    again, and no method takes the attempt counter above 8.  An evaluation
    of the initial phase calls [updateConfig] at most once, only while the
    counter is below 8, and counts one more attempt when it does; so at most
    8 resizes precede the transition, whatever the frame rate.  In the
    scenario of the specification (500 stars, a frame every 100/3 ms on the
    clock, so that the estimate is 30 and the ratio 0.5 up to its last
    bits) each of the next 320
    callbacks returns; the count goes 500, 194, 100 and stays 100, never up;
    the attempts go from 0 to 8, one per call of [updateConfig]; and the
    phase turns to continuous optimization at the evaluation that finds the
    counter at 8, the ratio still being 0.5. *)
Theorem calibration_is_bounded_and_one_way :
  (forall depth options b,
     match new_Starfield depth options b with
     | Returned _ w => onStats calibrating w
     | _ => True
     end) /\
  (forall depth,
     stable (onStats complete) (_animate depth) /\
     stable (onStats complete) (runCallback depth) /\
     (forall newConfig, stable (onStats complete) (updateConfig depth newConfig)) /\
     stable (onStats complete) (start depth) /\
     stable (onStats complete) stop /\
     stable (onStats complete) resize /\
     stable (onStats complete) destroy) /\
  (forall depth,
     stable (onStats attemptsBounded) (_animate depth) /\
     stable (onStats attemptsBounded) (runCallback depth) /\
     (forall newConfig, stable (onStats attemptsBounded) (updateConfig depth newConfig))) /\
  (forall depth now w,
     Stats.initialCalibrationComplete (Starfield.performanceStats (this w)) = false ->
     let attempts :=
       Stats.initialCalibrationAttempts (Starfield.performanceStats (this w)) in
     (exists w', _runOptimization depth now w = Returned tt w' /\ sameField w w') \/
     (exists c w',
        _runOptimization depth now w = updateConfig depth (starCountOnly c) w' /\
        sameField w w' /\
        (attempts < maxInitialCalibrationAttempts)%Z /\
        Stats.initialCalibrationAttempts (Starfield.performanceStats (this w')) =
          (attempts + 1)%Z)) /\
  scenario =
    Some ((500, 0%Z, false, Fin 0),
          (320%nat,
           [(500, 0%Z, false, Fin 30);
            (194, 1%Z, false, Fin 30);
            (100, 2%Z, false, Fin 30);
            (100, 3%Z, false, Fin 30);
            (100, 4%Z, false, Fin 30);
            (100, 5%Z, false, Fin 30);
            (100, 6%Z, false, Fin 30);
            (100, 7%Z, false, Fin 30);
            (100, 8%Z, false, Fin 30);
            (100, 8%Z, true, Fin 30)],
           true)).
Proof.
  assert (KC : forall now p, complete p -> complete (recordFrame now p)).
  { intros now p. unfold complete. destruct (recordFrame_keeps now p) as [-> _]. auto. }
  assert (KB : forall now p, attemptsBounded p -> attemptsBounded (recordFrame now p)).
  { intros now p. unfold attemptsBounded. destruct (recordFrame_keeps now p) as [_ ->]. auto. }
  assert (AB : forall n p, (n < maxInitialCalibrationAttempts)%Z -> attemptsBounded p ->
                           attemptsBounded (setInitialCalibrationAttempts (n + 1) p)).
  { intros n p L _. unfold attemptsBounded. simpl. lia. }
  split; [exact constructor_calibrating|]. split; [|split; [|split]].
  - intro depth. repeat split.
    + apply (stable_animate complete KC (fun _ _ H => H) (fun _ _ H => H)
               (fun _ _ => eq_refl) (fun _ _ _ H => H)).
    + apply (stable_runCallback complete KC (fun _ _ H => H) (fun _ _ H => H)
               (fun _ _ => eq_refl) (fun _ _ _ H => H)).
    + intro newConfig. apply (stable_updateConfig complete KC (fun _ _ H => H) (fun _ _ H => H)
               (fun _ _ => eq_refl) (fun _ _ _ H => H)).
    + apply (stable_start complete KC (fun _ _ H => H) (fun _ _ H => H)
               (fun _ _ => eq_refl) (fun _ _ _ H => H)).
    + apply stable_stop.
    + apply stable_resize.
    + apply stable_destroy.
  - intro depth. repeat split.
    + apply (stable_animate attemptsBounded KB (fun _ _ H => H) (fun _ _ H => H)
               (fun _ H => H) AB).
    + apply (stable_runCallback attemptsBounded KB (fun _ _ H => H) (fun _ _ H => H)
               (fun _ H => H) AB).
    + intro newConfig. apply (stable_updateConfig attemptsBounded KB (fun _ _ H => H) (fun _ _ H => H)
               (fun _ H => H) AB).
  - intros depth now w C attempts.
    destruct (calibration_evaluation (updateConfig depth) now w C)
      as [(w' & E & S) | (c & w' & E & S & A1 & A2 & _)].
    + left. exists w'. split; assumption.
    + right. exists c, w'. repeat split; try assumption; apply S.
  - vm_compute. reflexivity.
Qed.

(* ================================================================== *)

(** ** The theorems at concrete instances *)


Lemma projection_and_rendering_witness :
  50 <= Config.focalLength (Starfield.config (this threeStars)) <= 1000 /\
  renderStar (this threeStars) (Star.mk 10 20 1000 1 200) =
    Some (discOf (this threeStars) (Star.mk 10 20 1000 1 200)) /\
  renderStar (this threeStars) (Star.mk 10 20 (-400) 1 200) = None /\
  exists w',
    _render threeStars = Returned tt w' /\
    Starfield.stars (this w') = Starfield.stars (this threeStars).
Proof.
  assert (F : 50 <= Config.focalLength (Starfield.config (this threeStars)) <= 1000).
  { simpl. split; lra. }
  split; [exact F|]. split; [|split].
  - destruct (projection_and_rendering (this threeStars) (Star.mk 10 20 1000 1 200) F)
      as (_ & _ & R & _).
    rewrite R. reflexivity.
  - destruct (projection_and_rendering (this threeStars) (Star.mk 10 20 (-400) 1 200) F)
      as (_ & _ & R & _).
    rewrite R. reflexivity.
  - destruct (projection_and_rendering (this threeStars) (Star.mk 10 20 1000 1 200) F)
      as (_ & _ & _ & R).
    destruct (R (browser threeStars)) as [R1 _].
    destruct (R1 eq_refl) as (w' & E & _ & _ & S & _).
    exists w'. split; [exact E | exact S].
Defined.


Lemma restyle_skipped_with_count_witness :
  exists w1,
    updateConfig 1 countAndStyle threeStars = start 1 w1 /\
    (forall i old new,
       nth_error (Starfield.stars (this threeStars)) i = Some old ->
       nth_error (Starfield.stars (this w1)) i = Some new ->
       new = old /\
       Star.baseSize new = Star.baseSize old /\ Star.hue new = Star.hue old).
Proof.
  destruct (restyle_skipped_with_count 1 countAndStyle threeStars)
    as (w1 & E & _ & _ & K & _).
  - discriminate.
  - vm_compute. reflexivity.
  - exists w1. split; [exact E | exact K].
Defined.

Lemma rejected_update_stops_instance_witness :
  Starfield.isRunning (this threeStars) = true /\
  exists w',
    updateConfig 1 badSpeed threeStars =
      Threw (InvalidNumber "speed" (1 # 100) 10 (Fin 100)) w' /\
    Starfield.config (this w') = Starfield.config (this threeStars) /\
    Starfield.stars (this w') = Starfield.stars (this threeStars) /\
    Starfield.starCount (this w') = Starfield.starCount (this threeStars) /\
    Starfield.isRunning (this w') = false /\
    Starfield.isRunning (this w') <> Starfield.isRunning (this threeStars).
Proof.
  split; [reflexivity|].
  apply (rejected_update_stops_instance 1 badSpeed); [vm_compute|]; reflexivity.
Defined.

(* ================================================================== *)
(** * Further properties of the class *)

(** ** The empty update *)

Lemma resolve_embed (c : Config.t) : resolve (_mergeDeep (embed c) Options.empty) = c.
Proof.
  destruct c as [count maxStars speed focal [hue sat light] [smin smax] bg trail auto dbg [mob desk]].
  destruct count, hue; reflexivity.
Qed.

Lemma setConfig_same (s : Starfield.t) : setConfig (Starfield.config s) s = s.
Proof. destruct s; reflexivity. Qed.

Lemma merged_empty (w : World) : merged Options.empty w = w.
Proof.
  unfold merged. rewrite resolve_embed, setConfig_same. destruct w; reflexivity.
Qed.

(** X2. [updateConfig({})] changes nothing.  On an instance that is not
    running it returns with the instance and the browser as they were; on a
    running one it is [stop()] followed by [start()]. *)
Theorem empty_update (depth : nat) (w : World) :
  updateConfig depth Options.empty w =
  if Starfield.isRunning (this w) then start depth (stopped w) else Returned tt w.
Proof.
  unfold updateConfig. rewrite updateConfig_body_run.
  change (_validateConfig Options.empty) with (@None Error). cbv zeta.
  rewrite merged_empty.
  destruct (Starfield.isRunning (this w)); reflexivity.
Qed.

(** ** The configuration stays in its ranges *)

Lemma andThen_None (a b : option Error) : a ;;; b = None <-> a = None /\ b = None.
Proof.
  destruct a; simpl; split.
  - discriminate.
  - intros [H _]. discriminate.
  - intro H. split; [reflexivity | exact H].
  - intros [_ H]. exact H.
Qed.

Lemma validate_None (v : jsnum) (lo hi : Q) (name : string) :
  validate v lo hi name = None <-> exists q, v = Fin q /\ inRange lo hi q.
Proof.
  unfold validate, inRange. split.
  - destruct v as [q | | |]; simpl; try discriminate.
    destruct (Js.ltb q lo) eqn:A; [discriminate|].
    destruct (Js.ltb hi q) eqn:B; [discriminate|].
    intros _. exists q. apply ltb_false in A, B. auto.
  - intros (q & -> & A & B). simpl.
    apply ltb_false in A, B. rewrite A, B. reflexivity.
Qed.

Lemma validateIfDefined_None (v : option jsnum) (lo hi : Q) (name : string) (d : Q) :
  validateIfDefined v lo hi name = None -> inRange lo hi d -> inRange lo hi (optQ v d).
Proof.
  destruct v as [v|]; simpl; [|auto].
  intros H _. apply validate_None in H. destruct H as (q & -> & H). exact H.
Qed.

Lemma merged_scalar (v : option jsnum) (lo hi : Q) (name : string) (d d0 : Q) :
  validateIfDefined v lo hi name = None -> inRange lo hi d ->
  inRange lo hi (optQ (assign (Some (Fin d)) v) d0).
Proof.
  destruct v as [v|]; simpl; [|auto].
  intros H _. apply validate_None in H. destruct H as (q & -> & H). exact H.
Qed.

(** ** Keys passed with the value [undefined] *)

Lemma reads_setUndefined (k : Key.t) (o : Options.t) : reads k (setUndefined k o) = false.
Proof.
  destruct o as [a b c d e f g h i j l]. destruct k; cbn; try reflexivity.
  all: try (destruct e; reflexivity); try (destruct f; reflexivity);
    try (destruct l; reflexivity); destruct g as [[bg|]|]; reflexivity.
Qed.

(** Writing [undefined] under a key gives no other key a value. *)
Lemma reads_setUndefined_other (k k' : Key.t) (o : Options.t) :
  reads k o = false -> reads k (setUndefined k' o) = false.
Proof.
  destruct o as [a b c d e f g h i j l].
  destruct e as [[x1 x2 x3]|], f as [[y1 y2]|], g as [[[z1 z2]|]|], l as [[u1 u2]|];
    destruct k, k'; cbn; intro H; first [exact H | reflexivity].
Qed.

(** Writing [undefined] under a key that reads [undefined] changes no
    read. *)
Lemma setUndefined_unread (k : Key.t) (o : Options.t) :
  reads k o = false -> setUndefined k o = o.
Proof.
  destruct o as [a b c d e f g h i j l]. destruct k; cbn; intro H.
  all: try (destruct a; [discriminate | reflexivity]).
  all: try (destruct b; [discriminate | reflexivity]).
  all: try (destruct c; [discriminate | reflexivity]).
  all: try (destruct d; [discriminate | reflexivity]).
  all: try (destruct h; [discriminate | reflexivity]).
  all: try (destruct i; [discriminate | reflexivity]).
  all: try (destruct j; [discriminate | reflexivity]).
  all: try (destruct e as [[x y z]|]; [|reflexivity]; cbn in H |- *;
            first [discriminate | destruct x; [discriminate | reflexivity]
                  | destruct y; [discriminate | reflexivity]
                  | destruct z; [discriminate | reflexivity]]).
  all: try (destruct f as [[x y]|]; [|reflexivity]; cbn in H |- *;
            first [discriminate | destruct x; [discriminate | reflexivity]
                  | destruct y; [discriminate | reflexivity]]).
  all: try (destruct l as [[x y]|]; [|reflexivity]; cbn in H |- *;
            first [discriminate | destruct x; [discriminate | reflexivity]
                  | destruct y; [discriminate | reflexivity]]).
  all: destruct g as [[[x y]|]|]; try reflexivity; cbn in H |- *;
    first [discriminate | destruct x; [discriminate | reflexivity]
          | destruct y; [discriminate | reflexivity]].
Qed.

(** Reading does not tell a key written as [undefined] from an absent
    one. *)
Lemma asRead_values (p : Passed.t) : wellFormed p = true -> asRead p = Passed.values p.
Proof.
  unfold wellFormed, asRead. destruct p as [v ks]. cbn [Passed.values Passed.undefinedKeys].
  induction ks as [|k ks IH]; [reflexivity|].
  cbn [forallb fold_right]. intro W.
  apply andb_true_iff in W. destruct W as [W1 W2].
  apply andb_true_iff in W1. destruct W1 as [W1 _]. apply negb_true_iff in W1.
  rewrite (IH W2). apply setUndefined_unread. exact W1.
Qed.

Lemma validateStarSize_None (x y : option jsnum) :
  validateStarSize (StarSizeO.mk x y) = None ->
  validateStarSize (StarSizeO.mk None y) = None /\
  validateStarSize (StarSizeO.mk x None) = None.
Proof.
  unfold validateStarSize. cbn [StarSizeO.min StarSizeO.max]. intro V.
  apply andThen_None in V. destruct V as [V1 V].
  apply andThen_None in V. destruct V as [V2 _].
  split; cbn [validateIfDefined andThen]; [rewrite V2 | rewrite V1];
    cbn [andThen]; destruct x, y; reflexivity.
Qed.

Lemma validateStarColors_None (x : option HueOption) (y z : option jsnum) :
  validateStarColors (StarColorsO.mk x y z) = None ->
  validateStarColors (StarColorsO.mk None y z) = None /\
  validateStarColors (StarColorsO.mk x None z) = None /\
  validateStarColors (StarColorsO.mk x y None) = None.
Proof.
  unfold validateStarColors.
  cbn [StarColorsO.hue StarColorsO.saturation StarColorsO.lightness]. intro V.
  apply andThen_None in V. destruct V as [V1 V].
  apply andThen_None in V. destruct V as [V2 V3].
  repeat split; cbn [validateIfDefined andThen]; rewrite ?V1, ?V2, ?V3; reflexivity.
Qed.

Lemma validateDeviceDetection_None (x y : option jsnum) :
  validateDeviceDetection (DeviceDetectionO.mk x y) = None ->
  validateDeviceDetection (DeviceDetectionO.mk None y) = None /\
  validateDeviceDetection (DeviceDetectionO.mk x None) = None.
Proof.
  unfold validateDeviceDetection.
  cbn [DeviceDetectionO.mobile DeviceDetectionO.desktop]. intro V.
  apply andThen_None in V. destruct V as [V1 V2].
  split; cbn [validateIfDefined andThen]; rewrite ?V1, ?V2; reflexivity.
Qed.

(** [_validateConfig] checks the keys that hold a value only: an object it
    accepts is accepted with one more key [undefined]. *)
Lemma validate_setUndefined (k : Key.t) (o : Options.t) :
  _validateConfig o = None -> _validateConfig (setUndefined k o) = None.
Proof.
  destruct o as [a b c d e f g h i j l]. unfold _validateConfig.
  cbn [Options.speed Options.focalLength Options.trailEffect Options.starCount
       Options.maxStarCount Options.starSize Options.starColors Options.deviceDetection].
  intro V.
  apply andThen_None in V. destruct V as [Vspeed V].
  apply andThen_None in V. destruct V as [Vfocal V].
  apply andThen_None in V. destruct V as [Vtrail V].
  apply andThen_None in V. destruct V as [Vcount V].
  apply andThen_None in V. destruct V as [Vmax V].
  apply andThen_None in V. destruct V as [Vsize V].
  apply andThen_None in V. destruct V as [Vcolors Vdev].
  destruct k; unfold setUndefined;
    cbn [Options.speed Options.focalLength Options.trailEffect Options.starCount
         Options.maxStarCount Options.starSize Options.starColors Options.deviceDetection
         Options.background Options.autoStart Options.debug];
    repeat (apply andThen_None; split); try assumption; try reflexivity.
  - destruct e as [[x y z]|]; [|reflexivity].
    apply (validateStarColors_None x y z Vcolors).
  - destruct e as [[x y z]|]; [|reflexivity].
    apply (validateStarColors_None x y z Vcolors).
  - destruct e as [[x y z]|]; [|reflexivity].
    apply (validateStarColors_None x y z Vcolors).
  - destruct f as [[x y]|]; [|reflexivity]. apply (validateStarSize_None x y Vsize).
  - destruct f as [[x y]|]; [|reflexivity]. apply (validateStarSize_None x y Vsize).
  - destruct l as [[x y]|]; [|reflexivity]. apply (validateDeviceDetection_None x y Vdev).
  - destruct l as [[x y]|]; [|reflexivity]. apply (validateDeviceDetection_None x y Vdev).
Qed.

(** The merged object reads [undefined] under every key that was written
    so, and validation accepts it if it accepts the merge of the values. *)
Lemma mergeDeepPassed_reads (target : Options.t) (p : Passed.t) (k : Key.t) :
  In k (Passed.undefinedKeys p) -> reads k (_mergeDeepPassed target p) = false.
Proof.
  unfold _mergeDeepPassed. generalize (_mergeDeep target (Passed.values p)). intro m.
  induction (Passed.undefinedKeys p) as [|k' ks IH]; [intros []|].
  cbn [fold_right]. intros [<- | H].
  - apply reads_setUndefined.
  - apply reads_setUndefined_other, IH, H.
Qed.

Lemma mergeDeepPassed_valid (target : Options.t) (p : Passed.t) :
  _validateConfig (_mergeDeep target (Passed.values p)) = None ->
  _validateConfig (_mergeDeepPassed target p) = None.
Proof.
  unfold _mergeDeepPassed. generalize (_mergeDeep target (Passed.values p)). intros m V.
  induction (Passed.undefinedKeys p) as [|k ks IH]; [exact V|].
  cbn [fold_right]. apply validate_setUndefined, IH.
Qed.

Lemma inRanges_merge (c : Config.t) (newConfig : Options.t) :
  _validateConfig newConfig = None -> inRanges c -> inRanges (configAfter c newConfig).
Proof.
  intros V (Hs & Hf & Ht & Hc & Hm & Hmin & Hmax & Hsat & Hl & Hh & Hmo & Hd).
  unfold _validateConfig in V.
  apply andThen_None in V. destruct V as [Vspeed V].
  apply andThen_None in V. destruct V as [Vfocal V].
  apply andThen_None in V. destruct V as [Vtrail V].
  apply andThen_None in V. destruct V as [Vcount V].
  apply andThen_None in V. destruct V as [Vmax V].
  apply andThen_None in V. destruct V as [Vsize V].
  apply andThen_None in V. destruct V as [Vcolors Vdev].
  unfold inRanges, configAfter.
  split; [apply merged_scalar with (name := "speed"%string); assumption|].
  split; [apply merged_scalar with (name := "focalLength"%string); assumption|].
  split; [apply merged_scalar with (name := "trailEffect"%string); assumption|].
  split.
  { cbn. destruct (Options.starCount newConfig) as [[|n]|]; cbn.
    - exact I.
    - apply validate_None in Vcount. destruct Vcount as (q & -> & H). exact H.
    - destruct (Config.starCount c); exact Hc. }
  split; [apply merged_scalar with (name := "maxStarCount"%string); assumption|].
  split.
  { cbn. destruct (Options.starSize newConfig) as [[nmin nmax]|]; cbn; [|exact Hmin].
    unfold validateStarSize in Vsize. cbn in Vsize.
    apply andThen_None in Vsize. destruct Vsize as [V1 _].
    apply merged_scalar with (name := "starSize.min"%string); assumption. }
  split.
  { cbn. destruct (Options.starSize newConfig) as [[nmin nmax]|]; cbn; [|exact Hmax].
    unfold validateStarSize in Vsize. cbn in Vsize.
    apply andThen_None in Vsize. destruct Vsize as [_ V2].
    apply andThen_None in V2. destruct V2 as [V2 _].
    apply merged_scalar with (name := "starSize.max"%string); assumption. }
  assert (Colors :
    inRange 0 100 (StarColors.saturation (Config.starColors (configAfter c newConfig))) /\
    inRange 0 100 (StarColors.lightness (Config.starColors (configAfter c newConfig))) /\
    hueInRange (StarColors.hue (Config.starColors (configAfter c newConfig)))).
  { unfold configAfter. cbn.
    destruct (Options.starColors newConfig) as [[nhue nsat nlight]|]; cbn;
      [|destruct (StarColors.hue (Config.starColors c)); auto].
    unfold validateStarColors in Vcolors. cbn in Vcolors.
    apply andThen_None in Vcolors. destruct Vcolors as [V1 V2].
    apply andThen_None in V2. destruct V2 as [V2 V3].
    split; [apply merged_scalar with (name := "starColors.saturation"%string); assumption|].
    split; [apply merged_scalar with (name := "starColors.lightness"%string); assumption|].
    destruct nhue as [[v|hs]|]; cbn in *.
    - apply validate_None in V3. destruct V3 as (q & -> & H). exact H.
    - destruct hs as [|h0 [|h1 [|]]]; try discriminate.
      apply andThen_None in V3. destruct V3 as [V3 V4].
      apply validate_None in V3, V4.
      destruct V3 as (q0 & -> & H0). destruct V4 as (q1 & -> & H1). cbn. auto.
    - destruct (StarColors.hue (Config.starColors c)); exact Hh. }
  unfold configAfter in Colors.
  destruct Colors as (C1 & C2 & C3).
  split; [exact C1|]. split; [exact C2|]. split; [exact C3|].
  cbn. destruct (Options.deviceDetection newConfig) as [[nmob ndesk]|]; cbn; [|auto].
  unfold validateDeviceDetection in Vdev. cbn in Vdev.
  apply andThen_None in Vdev. destruct Vdev as [V1 V2].
  split.
  - apply merged_scalar with (name := "deviceDetection.mobile"%string); assumption.
  - apply merged_scalar with (name := "deviceDetection.desktop"%string); assumption.
Qed.

(** ** Invariants of the configuration *)

Section ConfigInvariant.

Variable P : Config.t -> Prop.

(** The one assignment to [this.config] outside the constructor. *)
Hypothesis P_merge :
  forall c newConfig, _validateConfig newConfig = None -> P c -> P (configAfter c newConfig).

Let Inv := onConfig P.

Lemma config_modifyBrowser (f : Browser.t -> Browser.t) : stable Inv (modifyBrowser f).
Proof. intros w H. exact H. Qed.

(** A write to [this] that leaves [config] alone. *)
Lemma config_modifyThis (f : Starfield.t -> Starfield.t) :
  (forall s, Starfield.config (f s) = Starfield.config s) ->
  stable Inv (modifyThis f).
Proof. intros Hf w H. unfold Inv, onConfig in *. simpl. rewrite Hf. exact H. Qed.

Ltac config_step :=
  match goal with
  | |- stable _ (bind _ _) => apply stable_bind; [|intro]
  | |- stable _ (ret _) => apply stable_ret
  | |- stable _ (throw _) => apply stable_throw
  | |- stable _ (when _ _) => apply stable_when
  | |- stable _ getThis => apply stable_getThis
  | |- stable _ getBrowser => apply stable_getBrowser
  | |- stable _ (modifyBrowser _) => apply config_modifyBrowser
  | |- stable _ (modifyStats _) => apply config_modifyThis; intro; reflexivity
  | |- stable _ (modifyThis _) => apply config_modifyThis; intro; reflexivity
  | |- stable _ (forEach _ _) => apply stable_forEach; intro
  | |- stable _ (times _ _) => apply stable_times
  | |- stable _ (if ?c then _ else _) => destruct c eqn:?
  | |- stable _ (match ?x with _ => _ end) => destruct x eqn:?
  | |- stable _ (let '(_, _) := ?x in _) => destruct x eqn:?
  end.

Ltac config_auto := repeat config_step.

Lemma config_Math_random : stable Inv Math_random.
Proof. unfold Math_random. config_auto. Qed.

Lemma config_createStar : stable Inv _createStar.
Proof. unfold _createStar. config_auto; apply config_Math_random. Qed.

Lemma config_detectDeviceCapability : stable Inv _detectDeviceCapability.
Proof. unfold _detectDeviceCapability. config_auto. Qed.

Lemma config_resize : stable Inv resize.
Proof. unfold resize. config_auto. Qed.

Lemma config_update : stable Inv _update.
Proof.
  unfold _update. config_auto. unfold updateStar.
  config_auto. apply config_createStar.
Qed.

Lemma config_draw (c : DrawCall) : stable Inv (draw c).
Proof. unfold draw. config_auto. Qed.

Lemma config_render : stable Inv _render.
Proof.
  unfold _render, clearRect, _drawBackgroundGradient.
  config_auto; apply config_draw.
Qed.

Lemma config_stop : stable Inv stop.
Proof. unfold stop, cancelAnimationFrame. config_auto. Qed.

Lemma config_trySetItem (item : StoredItem) : stable Inv (trySetItem item).
Proof. unfold trySetItem. config_auto. Qed.

Lemma config_start_body (animate : M unit) :
  stable Inv animate -> stable Inv (start_body animate).
Proof. intro H. unfold start_body. config_auto. exact H. Qed.

Lemma config_recalculateStarCount : stable Inv recalculateStarCount.
Proof.
  unfold recalculateStarCount. config_auto;
    first [apply config_detectDeviceCapability | apply config_createStar].
Qed.

Lemma config_applyStarChanges (newConfig : Options.t) :
  stable Inv (applyStarChanges newConfig).
Proof.
  unfold applyStarChanges. config_auto;
    try apply config_recalculateStarCount.
  all: unfold restyleStar; config_auto; apply config_Math_random.
Qed.

Lemma config_updateConfig_body (start : M unit) (newConfig : Options.t) :
  stable Inv start -> stable Inv (updateConfig_body start newConfig).
Proof.
  intro H. unfold updateConfig_body.
  apply stable_bind; [apply stable_getThis|]. intro s.
  apply stable_bind; [apply stable_when, config_stop|]. intros _.
  destruct (_validateConfig newConfig) eqn:V; [apply stable_throw|].
  apply stable_bind.
  - intros w Hw. unfold Inv, onConfig in *. simpl. apply P_merge; assumption.
  - intros _. apply stable_bind; [apply config_applyStarChanges|].
    intros _. apply stable_when. exact H.
Qed.

Lemma config_completeCalibration (now stored : Q) :
  stable Inv (completeCalibration now stored).
Proof. unfold completeCalibration. config_auto. apply config_trySetItem. Qed.

Lemma config_runOptimization_body (updateConfig : Options.t -> M unit) (now : Q) :
  (forall c, stable Inv (updateConfig c)) ->
  stable Inv (_runOptimization_body updateConfig now).
Proof.
  intro H. unfold _runOptimization_body. config_auto;
    try apply config_completeCalibration; try apply config_trySetItem; try apply H.
Qed.

Lemma config_animate_body (runOptimization : Q -> M unit) :
  (forall now, stable Inv (runOptimization now)) ->
  stable Inv (_animate_body runOptimization).
Proof.
  intro H. unfold _animate_body, performance_now, requestAnimationFrame.
  config_auto; first [apply H | apply config_update | apply config_render].
Qed.

Lemma config_animate (depth : nat) : stable Inv (_animate depth).
Proof.
  induction depth as [|d IH].
  - intros w H. exact I.
  - simpl. apply config_animate_body. intro now.
    apply config_runOptimization_body. intro c.
    apply config_updateConfig_body. apply config_start_body. exact IH.
Qed.

Lemma config_start (depth : nat) : stable Inv (start depth).
Proof. apply config_start_body, config_animate. Qed.

Lemma config_updateConfig (depth : nat) (newConfig : Options.t) :
  stable Inv (updateConfig depth newConfig).
Proof. apply config_updateConfig_body, config_start. Qed.

Lemma config_destroy : stable Inv destroy.
Proof. unfold destroy, clearRect. config_auto. apply config_stop. Qed.

Lemma config_runCallback (depth : nat) : stable Inv (runCallback depth).
Proof. unfold runCallback. config_auto. apply config_animate. Qed.

End ConfigInvariant.

Lemma inRanges_defaults : inRanges defaults.
Proof. unfold inRanges, inRange, defaults; cbn. repeat split; try discriminate. Qed.

Lemma validateIfDefined_resolve (v : option jsnum) (lo hi : Q) (name : string) (d : Q) :
  validateIfDefined v lo hi name = None -> inRange lo hi d -> inRange lo hi (optQ v d).
Proof.
  destruct v as [v|]; simpl; [|auto].
  intros H _. apply validate_None in H. destruct H as (q & -> & H). exact H.
Qed.

(** An object [_validateConfig] accepts resolves to numbers in range. *)
Lemma inRanges_resolve (o : Options.t) :
  _validateConfig o = None -> inRanges (resolve o).
Proof.
  intro V. unfold _validateConfig in V.
  apply andThen_None in V. destruct V as [Vspeed V].
  apply andThen_None in V. destruct V as [Vfocal V].
  apply andThen_None in V. destruct V as [Vtrail V].
  apply andThen_None in V. destruct V as [Vcount V].
  apply andThen_None in V. destruct V as [Vmax V].
  apply andThen_None in V. destruct V as [Vsize V].
  apply andThen_None in V. destruct V as [Vcolors Vdev].
  pose proof inRanges_defaults as (Hs & Hf & Ht & Hc & Hm & Hmin & Hmax & Hsat & Hl & Hh & Hmo & Hd).
  unfold inRanges.
  split; [apply validateIfDefined_resolve with (name := "speed"%string); assumption|].
  split; [apply validateIfDefined_resolve with (name := "focalLength"%string); assumption|].
  split; [apply validateIfDefined_resolve with (name := "trailEffect"%string); assumption|].
  split.
  { cbn. destruct (Options.starCount o) as [[|n]|]; cbn; try exact I.
    apply validate_None in Vcount. destruct Vcount as (q & -> & H). exact H. }
  split; [apply validateIfDefined_resolve with (name := "maxStarCount"%string); assumption|].
  split.
  { cbn. destruct (Options.starSize o) as [[nmin nmax]|]; cbn; [|exact Hmin].
    unfold validateStarSize in Vsize. cbn in Vsize.
    apply andThen_None in Vsize. destruct Vsize as [V1 _].
    apply validateIfDefined_resolve with (name := "starSize.min"%string); assumption. }
  split.
  { cbn. destruct (Options.starSize o) as [[nmin nmax]|]; cbn; [|exact Hmax].
    unfold validateStarSize in Vsize. cbn in Vsize.
    apply andThen_None in Vsize. destruct Vsize as [_ V2].
    apply andThen_None in V2. destruct V2 as [V2 _].
    apply validateIfDefined_resolve with (name := "starSize.max"%string); assumption. }
  assert (Colors :
    inRange 0 100 (StarColors.saturation (Config.starColors (resolve o))) /\
    inRange 0 100 (StarColors.lightness (Config.starColors (resolve o))) /\
    hueInRange (StarColors.hue (Config.starColors (resolve o)))).
  { cbn.
    destruct (Options.starColors o) as [[nhue nsat nlight]|]; cbn; [|auto].
    unfold validateStarColors in Vcolors. cbn in Vcolors.
    apply andThen_None in Vcolors. destruct Vcolors as [V1 V2].
    apply andThen_None in V2. destruct V2 as [V2 V3].
    split; [apply validateIfDefined_resolve with (name := "starColors.saturation"%string); assumption|].
    split; [apply validateIfDefined_resolve with (name := "starColors.lightness"%string); assumption|].
    destruct nhue as [[v|hs]|]; cbn in *.
    - apply validate_None in V3. destruct V3 as (q & -> & H). exact H.
    - destruct hs as [|h0 [|h1 [|]]]; try discriminate.
      apply andThen_None in V3. destruct V3 as [V3 V4].
      apply validate_None in V3, V4.
      destruct V3 as (q0 & -> & H0). destruct V4 as (q1 & -> & H1). cbn. auto.
    - exact Hh. }
  destruct Colors as (C1 & C2 & C3).
  split; [exact C1|]. split; [exact C2|]. split; [exact C3|].
  cbn. destruct (Options.deviceDetection o) as [[nmob ndesk]|]; cbn; [|auto].
  unfold validateDeviceDetection in Vdev. cbn in Vdev.
  apply andThen_None in Vdev. destruct Vdev as [V1 V2].
  split.
  - apply validateIfDefined_resolve with (name := "deviceDetection.mobile"%string); assumption.
  - apply validateIfDefined_resolve with (name := "deviceDetection.desktop"%string); assumption.
Qed.

(** The constructor: the configuration it installs, or the error of
    [_validateConfig] on the merged object. *)
Lemma constructor_stable (P : Config.t -> Prop) (depth : nat) (options : Options.t) (b : Browser.t) :
  (forall c newConfig, _validateConfig newConfig = None -> P c -> P (configAfter c newConfig)) ->
  (_validateConfig (_mergeDeep (embed defaults) options) = None ->
   P (configAfter defaults options)) ->
  match new_Starfield depth options b with
  | Returned _ w => onConfig P w
  | _ => True
  end.
Proof.
  intros PM P0. unfold new_Starfield, constructor.
  rewrite bind_modifyThis.
  destruct (_validateConfig (_mergeDeep (embed defaults) options)) eqn:V; [exact I|].
  match goal with |- match ?m ?w with _ => _ end =>
    assert (S : stable (onConfig P) m); [|specialize (S w (P0 eq_refl)); destruct (m w); auto] end.
  repeat (apply stable_bind; [|intro]);
    try (apply config_modifyThis; intro; reflexivity).
  - apply stable_getThis.
  - destruct (Config.starCount _); [apply config_detectDeviceCapability | apply stable_ret].
  - apply stable_times. apply config_createStar.
  - apply config_resize.
  - apply stable_when. apply config_start. exact PM.
Qed.

(** X3. Every number of [this.config] stays inside the range that
    [_validateConfig] gives its key, as long as no key is passed with the
    value [undefined].  For options whose keys hold values the configuration
    the constructor leaves is in range, and [updateConfig] with such
    options, [_animate] (with the updates the controller makes from inside
    it), a frame callback, [start], [stop], [resize] and [destroy] keep it
    so, whether they return or throw.  A key written as [undefined] is not
    seen by [_validateConfig(newConfig)], which reads the object as if the
    key were absent, but it is copied by [_mergeDeep]: the merged object,
    which becomes [this.config], reads [undefined] under it, as [speed] does
    after [updateConfig({ speed: undefined })]. *)
Theorem config_stays_in_ranges :
  (forall depth passed b,
     Passed.undefinedKeys passed = [] ->
     match new_Starfield depth (Passed.values passed) b with
     | Returned _ w => onConfig inRanges w
     | _ => True
     end) /\
  (forall depth,
     (forall passed,
        Passed.undefinedKeys passed = [] ->
        stable (onConfig inRanges) (updateConfig depth (Passed.values passed))) /\
     stable (onConfig inRanges) (_animate depth) /\
     stable (onConfig inRanges) (runCallback depth) /\
     stable (onConfig inRanges) (start depth) /\
     stable (onConfig inRanges) stop /\
     stable (onConfig inRanges) resize /\
     stable (onConfig inRanges) destroy) /\
  (* keys written as [undefined] *)
  (forall c passed,
     wellFormed passed = true ->
     _validateConfig (asRead passed) = _validateConfig (Passed.values passed) /\
     forall k, In k (Passed.undefinedKeys passed) ->
               reads k (_mergeDeepPassed (embed c) passed) = false) /\
  (forall c,
     _validateConfig (asRead speedUndefined) = None /\
     Options.speed (_mergeDeepPassed (embed c) speedUndefined) = None).
Proof.
  split; [|split; [|split]].
  - intros depth passed b _. apply constructor_stable.
    + exact inRanges_merge.
    + intro V. apply inRanges_resolve. exact V.
  - intro depth. split; [|split; [|split; [|split; [|split; [|split]]]]].
    + intros passed _. apply config_updateConfig. exact inRanges_merge.
    + apply config_animate. exact inRanges_merge.
    + apply config_runCallback. exact inRanges_merge.
    + apply config_start. exact inRanges_merge.
    + apply config_stop.
    + apply config_resize.
    + apply config_destroy.
  - intros c passed W. split.
    + rewrite (asRead_values passed W). reflexivity.
    + intros k H. apply mergeDeepPassed_reads. exact H.
  - intro c. split; reflexivity.
Qed.

(** ** An update of the style *)

Lemma Math_random_run (w : World) :
  Math_random w =
  Returned (Browser.Math_random (browser w) (Browser.randomCalls (browser w))) (drawn 1 w).
Proof. destruct w as [s b]. destruct b; reflexivity. Qed.

Lemma drawn_random (k : nat) (w : World) :
  Browser.Math_random (browser (drawn k w)) = Browser.Math_random (browser w).
Proof. reflexivity. Qed.

Lemma restyleStar_run (newConfig : Options.t) (c : Config.t) (star : Star.t) (w : World) :
  exists k new,
    restyleStar newConfig c star w = Returned new (drawn k w) /\
    restyled newConfig c (Browser.Math_random (browser w)) star new.
Proof.
  unfold restyleStar, restyled, hueGiven.
  destruct (hueBounds (StarColors.hue (Config.starColors c))) as [minHue maxHue].
  destruct (Options.starSize newConfig) as [size|];
    destruct (Options.starColors newConfig) as [[[h|] sat light]|]; cbn [isSome StarColorsO.hue fst snd].
  all: unfold bind; rewrite ?Math_random_run; cbn [ret];
       rewrite ?Math_random_run; cbn [ret]; rewrite ?drawn_drawn.
  all: first [ do 2 eexists; split; [reflexivity|]
             | exists 0%nat; rewrite drawn_0; eexists; split; [reflexivity|] ].
  all: cbn; repeat split; eauto.
Qed.

Lemma forEach_restyleStar_run (newConfig : Options.t) (c : Config.t)
  (stars : list Star.t) (w : World) :
  exists k stars',
    forEach (restyleStar newConfig c) stars w = Returned stars' (drawn k w) /\
    Forall2 (restyled newConfig c (Browser.Math_random (browser w))) stars stars'.
Proof.
  revert w. induction stars as [|star rest IH]; intro w.
  - exists 0%nat, []. rewrite drawn_0. split; [reflexivity | constructor].
  - destruct (restyleStar_run newConfig c star w) as (k & new & E & R).
    destruct (IH (drawn k w)) as (k' & rest' & E' & R').
    exists (k' + k)%nat, (new :: rest'). split.
    + cbn [forEach]. unfold bind. rewrite E, E'. rewrite drawn_drawn. reflexivity.
    + constructor; assumption.
Qed.

Lemma restyled_refl (newConfig : Options.t) (c : Config.t) (rnd : nat -> Q) (l : list Star.t) :
  Options.starColors newConfig = None -> Options.starSize newConfig = None ->
  Forall2 (restyled newConfig c rnd) l l.
Proof.
  intros A B. induction l as [|a l IH]; constructor; [|exact IH].
  unfold restyled, hueGiven. rewrite A, B. cbn. auto.
Qed.

Lemma applyStarChanges_style_run (newConfig : Options.t) (w : World) :
  Options.starCount newConfig = None ->
  exists w',
    applyStarChanges newConfig w = Returned tt w' /\
    Forall2 (restyled newConfig (Starfield.config (this w)) (Browser.Math_random (browser w)))
      (Starfield.stars (this w)) (Starfield.stars (this w')) /\
    Starfield.config (this w') = Starfield.config (this w) /\
    Starfield.starCount (this w') = Starfield.starCount (this w) /\
    Starfield.isRunning (this w') = Starfield.isRunning (this w) /\
    Starfield.performanceStats (this w') = Starfield.performanceStats (this w) /\
    Browser.Math_random (browser w') = Browser.Math_random (browser w).
Proof.
  intro C. unfold applyStarChanges. rewrite C. cbn [isSome].
  assert (First : exists w1,
    (if isSome (Options.starColors newConfig) || isSome (Options.starSize newConfig)
     then s <- getThis ;;
          stars' <- forEach (restyleStar newConfig (Starfield.config s)) (Starfield.stars s) ;;
          modifyThis (setStars stars')
     else ret tt) w = Returned tt w1 /\
    Forall2 (restyled newConfig (Starfield.config (this w)) (Browser.Math_random (browser w)))
      (Starfield.stars (this w)) (Starfield.stars (this w1)) /\
    Starfield.config (this w1) = Starfield.config (this w) /\
    Starfield.starCount (this w1) = Starfield.starCount (this w) /\
    Starfield.isRunning (this w1) = Starfield.isRunning (this w) /\
    Starfield.performanceStats (this w1) = Starfield.performanceStats (this w) /\
    Browser.Math_random (browser w1) = Browser.Math_random (browser w)).
  { destruct (isSome (Options.starColors newConfig) || isSome (Options.starSize newConfig)) eqn:S.
    - rewrite bind_getThis.
      destruct (forEach_restyleStar_run newConfig (Starfield.config (this w))
                  (Starfield.stars (this w)) w) as (k & stars' & E & R).
      rewrite (bind_run _ _ _ _ _ E). cbn [modifyThis].
      eexists. split; [reflexivity|]. cbn. repeat split. exact R.
    - apply orb_false_iff in S. destruct S as [S1 S2].
      destruct (Options.starColors newConfig) eqn:S3; [discriminate|].
      destruct (Options.starSize newConfig) eqn:S4; [discriminate|].
      exists w. split; [reflexivity|]. repeat split.
      apply restyled_refl; assumption. }
  destruct First as (w1 & E & R & A1 & A2 & A3 & A4 & A5).
  rewrite (bind_run _ _ _ _ _ E).
  destruct (isSome (Options.background newConfig)); cbn.
  - eexists. split; [reflexivity|]. cbn. repeat split; assumption.
  - exists w1. repeat split; assumption.
Qed.

Lemma stopped_running_same (w : World) :
  Starfield.isRunning (this (if Starfield.isRunning (this w) then stopped w else w)) = false.
Proof.
  destruct (Starfield.isRunning (this w)) eqn:R; [|exact R].
  apply stopped_spec.
Qed.

(** X8. An update without [starCount] that passes validation samples the style
    of every star again.  [updateConfig] returns, or ends as [start()] on, an
    instance that is not running, has the merged configuration and the count
    it had; its stars are the old ones, one by one, at the same position,
    with a base size sampled from the new configuration when [starSize] is
    given and a hue sampled from it when [starColors.hue] is given, and with
    the old base size or hue otherwise. *)
Theorem style_update_resamples_every_star (depth : nat) (newConfig : Options.t) (w : World) :
  Options.starCount newConfig = None ->
  _validateConfig newConfig = None ->
  exists w1,
    updateConfig depth newConfig w =
      (if Starfield.isRunning (this w) then start depth w1 else Returned tt w1) /\
    Starfield.isRunning (this w1) = false /\
    Starfield.config (this w1) = configAfter (Starfield.config (this w)) newConfig /\
    Starfield.starCount (this w1) = Starfield.starCount (this w) /\
    Forall2 (restyled newConfig (Starfield.config (this w1)) (Browser.Math_random (browser w)))
      (Starfield.stars (this w)) (Starfield.stars (this w1)).
Proof.
  intros C V. unfold updateConfig. rewrite updateConfig_body_run, V. cbv zeta.
  set (w0 := if Starfield.isRunning (this w) then stopped w else w).
  assert (K : Starfield.isRunning (this w0) = false /\
              Starfield.config (this w0) = Starfield.config (this w) /\
              Starfield.stars (this w0) = Starfield.stars (this w) /\
              Starfield.starCount (this w0) = Starfield.starCount (this w) /\
              Browser.Math_random (browser w0) = Browser.Math_random (browser w)).
  { split; [apply stopped_running_same|]. unfold w0.
    destruct (Starfield.isRunning (this w)); [|repeat split].
    pose proof (stopped_spec w) as (_ & A & B & D & _ & E & _). repeat split; assumption. }
  destruct K as (K0 & K1 & K2 & K3 & K4).
  destruct (applyStarChanges_style_run newConfig (merged newConfig w0) C)
    as (w1 & E & R & A1 & A2 & A3 & _ & _).
  exists w1. rewrite (bind_run _ _ _ _ _ E).
  split; [destruct (Starfield.isRunning (this w)); reflexivity|].
  cbn in A1, A2, A3, R.
  split; [rewrite A3; exact K0|].
  split; [rewrite A1, K1; reflexivity|].
  split; [rewrite A2; exact K3|].
  rewrite A1. rewrite K2, K4 in R. exact R.
Qed.

(** ** What the merge adopts and what validation misses *)

(** X1. A partial update changes the keys it names and no other.  In
    [this.config = this._mergeDeep(this.config, newConfig)] a key that
    [newConfig] leaves out keeps its value, at the top level and inside
    [starColors], [starSize] and [deviceDetection] when only some of their
    keys are given; a key that is given takes the given value, and
    [background: false] removes the background. *)
Theorem update_touches_only_given_keys (c : Config.t) (newConfig : Options.t) :
  let c' := configAfter c newConfig in
  (* keys that are absent keep their value *)
  ((Options.starCount newConfig = None -> Config.starCount c' = Config.starCount c) /\
   (Options.maxStarCount newConfig = None -> Config.maxStarCount c' = Config.maxStarCount c) /\
   (Options.speed newConfig = None -> Config.speed c' = Config.speed c) /\
   (Options.focalLength newConfig = None -> Config.focalLength c' = Config.focalLength c) /\
   (Options.trailEffect newConfig = None -> Config.trailEffect c' = Config.trailEffect c) /\
   (Options.background newConfig = None -> Config.background c' = Config.background c) /\
   (Options.autoStart newConfig = None -> Config.autoStart c' = Config.autoStart c) /\
   (Options.debug newConfig = None -> Config.debug c' = Config.debug c)) /\
  (* so do the absent keys of a nested object that is given *)
  ((given (Options.starColors newConfig) StarColorsO.hue = None ->
      StarColors.hue (Config.starColors c') = StarColors.hue (Config.starColors c)) /\
   (given (Options.starColors newConfig) StarColorsO.saturation = None ->
      StarColors.saturation (Config.starColors c') = StarColors.saturation (Config.starColors c)) /\
   (given (Options.starColors newConfig) StarColorsO.lightness = None ->
      StarColors.lightness (Config.starColors c') = StarColors.lightness (Config.starColors c)) /\
   (given (Options.starSize newConfig) StarSizeO.min = None ->
      StarSize.min (Config.starSize c') = StarSize.min (Config.starSize c)) /\
   (given (Options.starSize newConfig) StarSizeO.max = None ->
      StarSize.max (Config.starSize c') = StarSize.max (Config.starSize c)) /\
   (given (Options.deviceDetection newConfig) DeviceDetectionO.mobile = None ->
      DeviceDetection.mobile (Config.deviceDetection c') =
      DeviceDetection.mobile (Config.deviceDetection c)) /\
   (given (Options.deviceDetection newConfig) DeviceDetectionO.desktop = None ->
      DeviceDetection.desktop (Config.deviceDetection c') =
      DeviceDetection.desktop (Config.deviceDetection c))) /\
  (* keys that are given take the new value *)
  ((forall q, Options.starCount newConfig = Some (CountO (Fin q)) ->
      Config.starCount c' = Count q) /\
   (Options.starCount newConfig = Some AutoO -> Config.starCount c' = Auto) /\
   (forall q, Options.maxStarCount newConfig = Some (Fin q) -> Config.maxStarCount c' = q) /\
   (forall q, Options.speed newConfig = Some (Fin q) -> Config.speed c' = q) /\
   (forall q, Options.focalLength newConfig = Some (Fin q) -> Config.focalLength c' = q) /\
   (forall q, Options.trailEffect newConfig = Some (Fin q) -> Config.trailEffect c' = q) /\
   (forall b, Options.autoStart newConfig = Some b -> Config.autoStart c' = b) /\
   (forall b, Options.debug newConfig = Some b -> Config.debug c' = b) /\
   (Options.background newConfig = Some None -> Config.background c' = None) /\
   (forall v, given (Options.starColors newConfig) StarColorsO.hue = Some (HueNumber (Fin v)) ->
      StarColors.hue (Config.starColors c') = HueValue v) /\
   (forall lo hi,
      given (Options.starColors newConfig) StarColorsO.hue = Some (HueArray [Fin lo; Fin hi]) ->
      StarColors.hue (Config.starColors c') = HueRange lo hi) /\
   (forall q, given (Options.starColors newConfig) StarColorsO.saturation = Some (Fin q) ->
      StarColors.saturation (Config.starColors c') = q) /\
   (forall q, given (Options.starColors newConfig) StarColorsO.lightness = Some (Fin q) ->
      StarColors.lightness (Config.starColors c') = q) /\
   (forall q, given (Options.starSize newConfig) StarSizeO.min = Some (Fin q) ->
      StarSize.min (Config.starSize c') = q) /\
   (forall q, given (Options.starSize newConfig) StarSizeO.max = Some (Fin q) ->
      StarSize.max (Config.starSize c') = q) /\
   (forall q, given (Options.deviceDetection newConfig) DeviceDetectionO.mobile = Some (Fin q) ->
      DeviceDetection.mobile (Config.deviceDetection c') = q) /\
   (forall q, given (Options.deviceDetection newConfig) DeviceDetectionO.desktop = Some (Fin q) ->
      DeviceDetection.desktop (Config.deviceDetection c') = q)).
Proof.
  destruct c as [count maxStars speed focal [hue sat light] [smin smax] bg trail auto dbg [mob desk]].
  destruct newConfig as [ncount nmax nspeed nfocal ncolors nsize nbg ntrail nauto ndbg ndev].
  unfold configAfter. cbn.
  split; [|split].
  - repeat split; intros ->; try reflexivity.
    destruct count; reflexivity.
  - destruct ncolors as [[? ? ?]|], nsize as [[? ?]|], ndev as [[? ?]|]; cbn;
      repeat split; intros; subst; try reflexivity; destruct hue; reflexivity.
  - destruct ncolors as [[? ? ?]|], nsize as [[? ?]|], ndev as [[? ?]|]; cbn;
      repeat split; intros; subst; try reflexivity; try discriminate.
Qed.

(** [_render] on a background object that has no [colors]: the loop over the
    colour stops throws. *)
Lemma render_without_colors (w : World) (bg : BackgroundO.t) :
  Config.background (Starfield.config (this w)) = Some bg ->
  BackgroundO.colors bg = None ->
  Starfield.backgroundGradient (this w) = None ->
  exists w', _render w = Threw (TypeError "colors.forEach") w' /\
             Canvas.calls (Starfield.canvas (this w')) = [].
Proof.
  intros B C G. destruct w as [s b].
  destruct s as [cv c stars n id run g cx cy temp stats]. cbn in B, C, G. subst g.
  destruct c as [count maxStars speed focal colors size bg0 trail auto dbg dev].
  cbn in B. subst bg0. destruct bg as [t cs]. cbn in C. subst cs.
  unfold _render, clearRect, _drawBackgroundGradient, bind, getThis, modifyThis, throw.
  cbn. eexists. split; reflexivity.
Qed.

Lemma mergeBackgroundObject_empty (bg : BackgroundO.t) :
  mergeBackgroundObject BackgroundO.empty bg = bg.
Proof. destruct bg as [[t|] [cs|]]; reflexivity. Qed.

(** X5. A background object given after [background: false] is not adopted.
    On an instance that is not running and has no background,
    [updateConfig({background: bg})] returns with [config.background] the
    empty object (the merge recurses into a target made from [false]) and the
    stars as they were; [_render] then throws a TypeError in every browser
    state; the same update made a second time does install [bg]. *)
Theorem background_lost_after_false (depth : nat) (bg : BackgroundO.t) (w : World) :
  Config.background (Starfield.config (this w)) = None ->
  Starfield.isRunning (this w) = false ->
  exists w1,
    updateConfig depth (backgroundOnly bg) w = Returned tt w1 /\
    Config.background (Starfield.config (this w1)) = Some BackgroundO.empty /\
    Starfield.stars (this w1) = Starfield.stars (this w) /\
    (forall b, exists w2,
       _render (mkWorld (this w1) b) = Threw (TypeError "colors.forEach") w2) /\
    (* the same update a second time does install the object *)
    Config.background (configAfter (Starfield.config (this w1)) (backgroundOnly bg)) = Some bg.
Proof.
  intros B R. unfold updateConfig. rewrite updateConfig_body_run.
  change (_validateConfig (backgroundOnly bg)) with (@None Error). cbv zeta. rewrite R.
  destruct (applyStarChanges_style_run (backgroundOnly bg) (merged (backgroundOnly bg) w) eq_refl)
    as (w1 & E & F & A1 & _).
  rewrite (bind_run _ _ _ _ _ E). cbn [when ret].
  exists w1. split; [reflexivity|].
  assert (C1 : Config.background (Starfield.config (this w1)) = Some BackgroundO.empty).
  { rewrite A1. cbn. rewrite B. reflexivity. }
  split; [exact C1|].
  assert (G : Starfield.backgroundGradient (this w1) = None).
  { revert E. unfold applyStarChanges. cbn [backgroundOnly Options.starCount Options.starColors
      Options.starSize Options.background isSome orb when].
    unfold bind. cbn. intro E. injection E as <-. reflexivity. }
  split.
  { revert E. unfold applyStarChanges. cbn [backgroundOnly Options.starCount Options.starColors
      Options.starSize Options.background isSome orb when].
    unfold bind. cbn. intro E. injection E as <-. reflexivity. }
  split.
  - intro b.
    destruct (render_without_colors (mkWorld (this w1) b) BackgroundO.empty C1 eq_refl G)
      as (w2 & E2 & _).
    exists w2. exact E2.
  - unfold configAfter. cbn. rewrite C1. cbn. rewrite mergeBackgroundObject_empty. reflexivity.
Qed.



(** ** [_createStar] and the constructor *)


Lemma constructor_run (depth : nat) (options : Options.t) (b : Browser.t) :
  new_Starfield depth options b =
  match _validateConfig (_mergeDeep (embed defaults) options) with
  | Some e => Threw e (configured options b)
  | None =>
      if Config.autoStart (Starfield.config (this (configured options b)))
      then start depth (constructed options b)
      else Returned tt (constructed options b)
  end.
Proof.
  unfold new_Starfield, constructor. rewrite bind_modifyThis.
  fold (configured options b).
  destruct (_validateConfig (_mergeDeep (embed defaults) options)); [reflexivity|].
  rewrite !bind_modifyThis. unfold modifyStats at 1. rewrite bind_modifyThis.
  rewrite bind_getThis.
  match goal with |- bind _ _ ?w = _ => set (w1 := w) end.
  assert (T : targetCount w1 = targetCount (configured options b)) by reflexivity.
  rewrite (bind_run _ _ _ _ _ (targetCount_run w1)).
  rewrite bind_modifyThis.
  match goal with |- bind _ _ ?w = _ => set (w2 := w) end.
  rewrite (bind_run _ _ _ _ _ (times_createStar_run (iterations (targetCount w1)) w2)).
  rewrite bind_modifyThis.
  unfold _setupCanvas, resize.
  unfold bind at 1. rewrite bind_getBrowser. rewrite !bind_modifyThis.
  cbn [modifyThis]. cbn [when].
  rewrite T. unfold constructed.
  destruct (Config.autoStart _); reflexivity.
Qed.

Lemma samples_Forall (P : Star.t -> Prop) (c : Config.t) (rnd : nat -> Q) (i n : nat) :
  (forall j, P (sampleAt c rnd j)) -> Forall P (samples c rnd i n).
Proof.
  intro H. revert i. induction n as [|n IH]; intro i; cbn [samples]; constructor; auto.
Qed.

(** The constructor checks the order of the two sizes on the merged object,
    which always holds both. *)
Lemma constructor_starSize_order (options : Options.t) :
  _validateConfig (_mergeDeep (embed defaults) options) = None ->
  StarSize.min (Config.starSize (configAfter defaults options)) <=
  StarSize.max (Config.starSize (configAfter defaults options)).
Proof.
  intro V. unfold _validateConfig in V.
  apply andThen_None in V. destruct V as [_ V].
  apply andThen_None in V. destruct V as [_ V].
  apply andThen_None in V. destruct V as [_ V].
  apply andThen_None in V. destruct V as [_ V].
  apply andThen_None in V. destruct V as [_ V].
  apply andThen_None in V. destruct V as [Vsize _].
  unfold configAfter. cbn in Vsize |- *.
  destruct (Options.starSize options) as [[nmin nmax]|]; cbn in Vsize |- *.
  - unfold validateStarSize in Vsize. cbn in Vsize.
    apply andThen_None in Vsize. destruct Vsize as [V1 V2].
    apply andThen_None in V2. destruct V2 as [V2 V3].
    destruct nmin as [vmin|], nmax as [vmax|]; cbn in *.
    + apply validate_None in V1, V2.
      destruct V1 as (p & -> & _). destruct V2 as (q & -> & _). cbn in *.
      destruct (Js.ltb q p) eqn:L; [discriminate|]. apply ltb_false in L. exact L.
    + apply validate_None in V1. destruct V1 as (p & -> & _). cbn in *.
      destruct (Js.ltb 2 p) eqn:L; [discriminate|]. apply ltb_false in L. exact L.
    + apply validate_None in V2. destruct V2 as (q & -> & _). cbn in *.
      destruct (Js.ltb q (5 # 10)) eqn:L; [discriminate|]. apply ltb_false in L. exact L.
    + discriminate.
  - discriminate.
Qed.

(** X7. What [new Starfield(canvas, options)] builds, given a canvas element
    and options none of whose keys is written as [undefined].
    When the defaults merged with the options fail validation the
    constructor throws that error.
    Otherwise it returns the instance built, or ends as [start()] on it when
    [autoStart] is set: that instance has the merged configuration, in range
    and with [starSize.min <= starSize.max]; it is not running, has the
    initial statistics and has requested no frame; the canvas has the size
    of the window; it holds ceil(starCount) stars, [starCount] being the
    configured count when that is a number, and for random numbers in [0, 1)
    every star is inside the sampling ranges.
    With keys written as [undefined] the merged object reads [undefined]
    under them, and the constructor's validation accepts it whenever it
    accepts the merge of the other keys: such a key of [this.config] is out of
    every range, as [speed] is after [new Starfield(canvas, { speed:
    undefined })]. *)
Theorem constructor_builds_the_field (depth : nat) (passed : Passed.t) (b : Browser.t) :
  let options := Passed.values passed in
  let o := _mergeDeep (embed defaults) options in
  let w1 := constructed options b in
  let c := Starfield.config (this w1) in
  (* keys written as [undefined] *)
  (_validateConfig o = None ->
   _validateConfig (_mergeDeepPassed (embed defaults) passed) = None /\
   forall k, In k (Passed.undefinedKeys passed) ->
             reads k (_mergeDeepPassed (embed defaults) passed) = false) /\
  (_validateConfig (_mergeDeepPassed (embed defaults) speedUndefined) = None /\
   Options.speed (_mergeDeepPassed (embed defaults) speedUndefined) = None) /\
  (* every key holds a value *)
  (Passed.undefinedKeys passed = [] ->
   forall e, _validateConfig o = Some e ->
     exists w, new_Starfield depth options b = Threw e w) /\
  (Passed.undefinedKeys passed = [] ->
   _validateConfig o = None ->
     new_Starfield depth options b =
       (if Config.autoStart c then start depth w1 else Returned tt w1) /\
     c = configAfter defaults options /\
     inRanges c /\
     StarSize.min (Config.starSize c) <= StarSize.max (Config.starSize c) /\
     Starfield.isRunning (this w1) = false /\
     Starfield.performanceStats (this w1) = initialStats /\
     Browser.pendingFrames (browser w1) = Browser.pendingFrames b /\
     Canvas.width (Starfield.canvas (this w1)) = Browser.innerWidth b /\
     Canvas.height (Starfield.canvas (this w1)) = Browser.innerHeight b /\
     List.length (Starfield.stars (this w1)) =
       Z.to_nat (Qceiling (Starfield.starCount (this w1))) /\
     (forall n, Config.starCount c = Count n -> Starfield.starCount (this w1) = n) /\
     (unitRandom b ->
      Forall (fun star =>
                (-1000 <= Star.x star /\ Star.x star < 1000) /\
                (-1000 <= Star.y star /\ Star.y star < 1000) /\
                (0 <= Star.z star /\ Star.z star < 2000) /\
                StarSize.min (Config.starSize c) <= Star.baseSize star /\
                Star.baseSize star <= StarSize.max (Config.starSize c))
        (Starfield.stars (this w1)))).
Proof.
  intros options o w1 c. rewrite constructor_run. fold o.
  split; [|split; [|split]].
  - intro V. split.
    + apply mergeDeepPassed_valid. exact V.
    + intros k H. apply mergeDeepPassed_reads. exact H.
  - split; reflexivity.
  - intros _ e V. rewrite V. eexists. reflexivity.
  - intros _ V. rewrite V.
    assert (O : StarSize.min (Config.starSize c) <= StarSize.max (Config.starSize c)).
    { apply constructor_starSize_order. exact V. }
    split; [reflexivity|]. split; [reflexivity|].
    split; [apply inRanges_resolve; exact V|].
    split; [exact O|].
    split; [reflexivity|]. split; [reflexivity|]. split; [reflexivity|].
    split; [reflexivity|]. split; [reflexivity|].
    split; [apply length_samples|].
    split.
    { intros n Hn. unfold w1, constructed. cbn [this Starfield.starCount].
      unfold targetCount. cbn [this configured Starfield.config setConfig uninitialised].
      change (Config.starCount (resolve (_mergeDeep (embed defaults) options)))
        with (Config.starCount c). rewrite Hn. reflexivity. }
    intro U. apply samples_Forall. intro j.
    pose proof (sampleStar_range c (Browser.Math_random b j) (Browser.Math_random b (1 + j))
                  (Browser.Math_random b (2 + j)) (Browser.Math_random b (3 + j))
                  (Browser.Math_random b (4 + j)) (U j) (U (1 + j)%nat) (U (2 + j)%nat))
      as (X & Y & Z).
    split; [exact X|]. split; [exact Y|]. split; [exact Z|].
    unfold sampleAt, sampleStar. cbn [Star.baseSize].
    destruct (U (3 + j)%nat) as [D0 D1].
    change (Starfield.config (this (configured options b))) with c.
    revert O D0 D1.
    generalize (Browser.Math_random b (3 + j)), (StarSize.min (Config.starSize c)),
      (StarSize.max (Config.starSize c)).
    intros r lo hi O D0 D1. split; nra.
Qed.

(** ** The window of timestamps, [stop] and [destroy] *)

Lemma pushTimestamp_window (now : Q) (l : list Q) :
  (List.length l <= 120)%nat ->
  pushTimestamp now l = skipn (List.length (l ++ [now]) - 120) (l ++ [now]) /\
  List.length (pushTimestamp now l) = Nat.min 120 (S (List.length l)).
Proof.
  intro L. unfold pushTimestamp.
  assert (E : List.length (l ++ [now]) = S (List.length l)).
  { rewrite length_app, Nat.add_comm. reflexivity. }
  destruct (Nat.ltb 120 (List.length (l ++ [now]))) eqn:C.
  - apply Nat.ltb_lt in C.
    assert (E1 : (List.length (l ++ [now]) - 120 = 1)%nat) by lia.
    rewrite E1. split.
    + destruct (l ++ [now]); reflexivity.
    + destruct (l ++ [now]) as [|a rest] eqn:K; [simpl in E; lia|].
      cbn [tl List.length] in *. lia.
  - apply Nat.ltb_ge in C.
    assert (E1 : (List.length (l ++ [now]) - 120 = 0)%nat) by lia.
    rewrite E1. split; [reflexivity | lia].
Qed.

Lemma windowBounded_recordFrame (now : Q) (p : Stats.t) :
  windowBounded p -> windowBounded (recordFrame now p).
Proof.
  unfold windowBounded. intro H. rewrite recordFrame_timestamps.
  destruct (pushTimestamp_window now (Stats.frameTimestamps p) H) as [_ E].
  rewrite E. lia.
Qed.

(** X9. The rolling window of frame timestamps keeps the last 120.  Pushing a
    timestamp on a window of at most 120 entries leaves the newest 120 of
    them, in order; the window the constructor leaves has at most 120
    entries, and [_animate], a frame callback, [updateConfig], [start],
    [stop] and [destroy] keep that bound. *)
Theorem frame_window_keeps_last_120 :
  (forall now l,
     (List.length l <= 120)%nat ->
     pushTimestamp now l = skipn (List.length (l ++ [now]) - 120) (l ++ [now]) /\
     List.length (pushTimestamp now l) = Nat.min 120 (S (List.length l))) /\
  (forall depth options b,
     match new_Starfield depth options b with
     | Returned _ w => onStats windowBounded w
     | _ => True
     end) /\
  (forall depth,
     stable (onStats windowBounded) (_animate depth) /\
     stable (onStats windowBounded) (runCallback depth) /\
     (forall newConfig, stable (onStats windowBounded) (updateConfig depth newConfig)) /\
     stable (onStats windowBounded) (start depth) /\
     stable (onStats windowBounded) stop /\
     stable (onStats windowBounded) destroy).
Proof.
  assert (K : forall t p, windowBounded p -> windowBounded (setCalibrationStartTime t p))
    by (intros t p H; exact H).
  assert (K1 : forall t p, windowBounded p -> windowBounded (setLastOptimizationTime t p))
    by (intros t p H; exact H).
  assert (K2 : forall p, windowBounded p -> windowBounded (setInitialCalibrationComplete true p))
    by (intros p H; exact H).
  assert (K3 : forall n p, (n < maxInitialCalibrationAttempts)%Z -> windowBounded p ->
                 windowBounded (setInitialCalibrationAttempts (n + 1) p))
    by (intros n p _ H; exact H).
  split; [exact pushTimestamp_window|]. split.
  - intros depth options b. rewrite constructor_run.
    destruct (_validateConfig _); [exact I|].
    assert (S0 : onStats windowBounded (constructed options b)).
    { unfold onStats, windowBounded. cbn. lia. }
    destruct (Config.autoStart _); [|exact S0].
    pose proof (stable_start windowBounded windowBounded_recordFrame K K1 K2 K3 depth
                  (constructed options b) S0) as H.
    destruct (start depth (constructed options b)); auto.
  - intro depth. split; [|split; [|split; [|split; [|split]]]].
    + apply (stable_animate windowBounded windowBounded_recordFrame K K1 K2 K3).
    + apply (stable_runCallback windowBounded windowBounded_recordFrame K K1 K2 K3).
    + intro newConfig.
      apply (stable_updateConfig windowBounded windowBounded_recordFrame K K1 K2 K3).
    + apply (stable_start windowBounded windowBounded_recordFrame K K1 K2 K3).
    + apply stable_stop.
    + apply stable_destroy.
Qed.

Lemma stop_explicit (w : World) :
  stop w =
  Returned tt
    (match Starfield.animationId (this w) with
     | Some (S n) =>
         mkWorld (setAnimationId None (setIsRunning false (this w)))
           (setFrames (Browser.nextFrame (browser w))
              (filter (fun i => negb (Nat.eqb i (S n))) (Browser.pendingFrames (browser w)))
              (browser w))
     | _ => mkWorld (setIsRunning false (this w)) (browser w)
     end).
Proof.
  unfold stop. rewrite bind_modifyThis, bind_getThis.
  cbn [this setIsRunning Starfield.animationId].
  destruct (Starfield.animationId (this w)) as [[|n]|]; reflexivity.
Qed.

(** A callback that runs on an instance that is not running. *)
Lemma stale_callback (depth : nat) (w : World) :
  Starfield.isRunning (this w) = false ->
  exists w', runCallback (S depth) w = Returned tt w' /\ this w' = this w.
Proof.
  intro R. unfold runCallback. rewrite bind_getBrowser.
  destruct (Browser.pendingFrames (browser w)) as [|id rest].
  - exists w. split; reflexivity.
  - unfold bind. cbn [modifyBrowser _animate]. unfold _animate_body.
    rewrite bind_getThis. cbn [this]. rewrite R. cbn [negb ret].
    eexists. split; reflexivity.
Qed.

(** X10. [stop()] halts the loop.  It always returns, leaves the instance not
    running and the stars, the configuration, the count, the canvas and the
    statistics as they were; the frame the instance remembers is cancelled
    and no other; a second [stop()] changes nothing, and a frame callback
    that still runs on the stopped instance leaves the instance as it is. *)
Theorem stop_halts_the_loop (w : World) :
  exists w',
    stop w = Returned tt w' /\
    Starfield.isRunning (this w') = false /\
    Starfield.stars (this w') = Starfield.stars (this w) /\
    Starfield.config (this w') = Starfield.config (this w) /\
    Starfield.starCount (this w') = Starfield.starCount (this w) /\
    Starfield.canvas (this w') = Starfield.canvas (this w) /\
    Starfield.performanceStats (this w') = Starfield.performanceStats (this w) /\
    (forall id,
       Starfield.animationId (this w) = Some (S id) ->
       Starfield.animationId (this w') = None /\
       ~ In (S id) (Browser.pendingFrames (browser w')) /\
       forall j, j <> S id ->
         (In j (Browser.pendingFrames (browser w')) <-> In j (Browser.pendingFrames (browser w)))) /\
    (* a second call changes nothing *)
    stop w' = Returned tt w' /\
    (* nor does a callback that was requested by another frame *)
    (forall depth, exists w'',
       runCallback (S depth) w' = Returned tt w'' /\ this w'' = this w').
Proof.
  rewrite stop_explicit. eexists. split; [reflexivity|].
  destruct w as [s b]. cbn [this browser].
  destruct (Starfield.animationId s) as [[|n]|] eqn:A.
  - split; [reflexivity|]. do 5 (split; [reflexivity|]).
    split; [intros id H; discriminate|]. split.
    + rewrite stop_explicit. cbn. rewrite A. destruct s; reflexivity.
    + intro depth. apply stale_callback. reflexivity.
  - split; [reflexivity|]. do 5 (split; [reflexivity|]).
    split; [|split].
    + intros id H. injection H as <-. cbn. split; [reflexivity|]. split.
      * rewrite filter_In. intros [_ H]. rewrite Nat.eqb_refl in H. discriminate.
      * intros j N. rewrite filter_In. split; [intros [H _]; exact H|].
        intro H. split; [exact H|]. apply negb_true_iff, Nat.eqb_neq. exact N.
    + rewrite stop_explicit. cbn. destruct s, b; reflexivity.
    + intro depth. apply stale_callback. reflexivity.
  - split; [reflexivity|]. do 5 (split; [reflexivity|]).
    split; [intros id H; discriminate|]. split.
    + rewrite stop_explicit. cbn. rewrite A. destruct s; reflexivity.
    + intro depth. apply stale_callback. reflexivity.
Qed.

(** X11. [destroy()] always returns: the loop is stopped and the remembered
    frame cancelled, the canvas is cleared and keeps its size, the list of
    stars is empty, the configuration and [starCount] are as they were, and a
    frame callback that still runs leaves the instance as it is. *)
Theorem destroy_empties_the_field (w : World) :
  exists w',
    destroy w = Returned tt w' /\
    Starfield.isRunning (this w') = false /\
    Starfield.stars (this w') = [] /\
    Canvas.calls (Starfield.canvas (this w')) = [] /\
    Canvas.width (Starfield.canvas (this w')) = Canvas.width (Starfield.canvas (this w)) /\
    Canvas.height (Starfield.canvas (this w')) = Canvas.height (Starfield.canvas (this w)) /\
    Starfield.config (this w') = Starfield.config (this w) /\
    Starfield.starCount (this w') = Starfield.starCount (this w) /\
    (forall id,
       Starfield.animationId (this w) = Some (S id) ->
       ~ In (S id) (Browser.pendingFrames (browser w'))) /\
    (forall depth, exists w'',
       runCallback (S depth) w' = Returned tt w'' /\ this w'' = this w').
Proof.
  unfold destroy. rewrite (bind_run _ _ _ _ _ (stop_explicit w)).
  unfold clearRect. rewrite bind_modifyThis. cbn [modifyThis].
  eexists. split; [reflexivity|].
  match goal with |- Starfield.isRunning (this ?x) = false /\ _ => set (w' := x) end.
  assert (R : Starfield.isRunning (this w') = false).
  { unfold w'. destruct (Starfield.animationId (this w)) as [[|n]|]; reflexivity. }
  split; [exact R|].
  do 6 (split; [unfold w'; destruct (Starfield.animationId (this w)) as [[|n]|]; reflexivity|]).
  split; [|intro depth; apply stale_callback; exact R].
  intros id H. unfold w'. rewrite H. cbn. rewrite filter_In.
  intros [_ K]. rewrite Nat.eqb_refl in K. discriminate.
Qed.

(** ** One frame of the loop *)





Lemma renders_rendered (s : Starfield.t) (id : option nat) :
  renders s = true -> renders (setAnimationId id (renderedInstance s)) = true.
Proof.
  unfold renders, renderedInstance, gradientInForce, freshGradient.
  unfold setAnimationId, setCanvas, setBackgroundGradient, setTempCanvas. fields.
  destruct (Config.background (Starfield.config s)) as [bg|]; [|reflexivity].
  destruct (Starfield.backgroundGradient s) as [g|]; [reflexivity|]. cbn [isSome orb].
  destruct (BackgroundO.colors bg) as [[|stop stops]|]; try discriminate.
  - intros _. apply orb_true_r.
  - intro R. rewrite R. reflexivity.
Qed.

(** What [_render] leaves of the instance. *)
Lemma renderedInstance_fields (s : Starfield.t) :
  Canvas.calls (Starfield.canvas (renderedInstance s)) =
    backgroundLayer s ++ trailLayer s ++ renderStars s (Starfield.stars s) /\
  Starfield.backgroundGradient (renderedInstance s) = gradientInForce s /\
  Starfield.stars (renderedInstance s) = Starfield.stars s /\
  Starfield.config (renderedInstance s) = Starfield.config s /\
  Starfield.starCount (renderedInstance s) = Starfield.starCount s /\
  Starfield.isRunning (renderedInstance s) = Starfield.isRunning s /\
  Starfield.performanceStats (renderedInstance s) = Starfield.performanceStats s.
Proof. repeat split. Qed.








Lemma max_fin_lower (a : Q) (x : jsnum) (q : Q) :
  Js.max (Fin a) x = Fin q -> a <= q.
Proof.
  destruct x as [v| | |]; cbn; try discriminate.
  - destruct (Qle_bool a v) eqn:L; intro H; injection H as <-.
    + apply Qle_bool_iff. exact L.
    + apply Qle_refl.
  - intro H. injection H as <-. apply Qle_refl.
Qed.

Lemma calibrationCount_lower (n m : Q) (r : jsnum) (q : Q) :
  calibrationCount n m r = Fin q -> 100 <= q.
Proof. unfold calibrationCount. apply max_fin_lower. Qed.



(** ** The controller: rate limit, persistence, one attempt *)

(** X14. The continuous phase adjusts at most once per interval.  An evaluation
    less than [optimizationInterval] (10 s) after the last adjustment, the
    time since then being the binary64 difference [now - t] the program
    computes, makes no update, whatever the measured rate: the count, the
    stars, the configuration, the running state and the browser are as they
    were, and so are the time of the last adjustment and the window of
    timestamps. *)
Theorem continuous_adjustments_are_rate_limited
  (upd : Options.t -> M unit) (now t : Q) (w : World) :
  Stats.initialCalibrationComplete (Starfield.performanceStats (this w)) = true ->
  Stats.lastOptimizationTime (Starfield.performanceStats (this w)) = Some t ->
  ~ t == 0 ->
  (since now (Some t) <? Fin optimizationInterval)%js = true ->
  exists w',
    _runOptimization_body upd now w = Returned tt w' /\
    sameField w w' /\
    browser w' = browser w /\
    Stats.lastOptimizationTime (Starfield.performanceStats (this w')) = Some t /\
    Stats.frameTimestamps (Starfield.performanceStats (this w')) =
      Stats.frameTimestamps (Starfield.performanceStats (this w)).
Proof.
  intros C L T I. unfold _runOptimization_body. rewrite bind_getThis, C, L.
  assert (T1 : truthy (Some t) = true).
  { unfold truthy. apply negb_true_iff, isZero_false. exact T. }
  rewrite T1, I. cbn [negb andb].
  destruct (_ <? Fin continuousOptimizationDuration)%js.
  - exists w. split; [reflexivity|]. split; [apply sameField_refl|]. auto.
  - eexists. split; [reflexivity|].
    cbn [modifyStats modifyThis this browser setStats Starfield.performanceStats
         setCalibrationStartTime Stats.lastOptimizationTime Stats.frameTimestamps].
    split; [repeat split|]. split; [reflexivity|]. split; [exact L | reflexivity].
Qed.

Lemma continuous_adjustments_are_rate_limited_witness :
  exists w',
    _runOptimization 1 24000 adjustedWorld = Returned tt w' /\
    sameField adjustedWorld w' /\
    browser w' = browser adjustedWorld.
Proof.
  destruct (continuous_adjustments_are_rate_limited (updateConfig 1) 24000 20000 adjustedWorld)
    as (w' & E & S & B & _).
  - reflexivity.
  - reflexivity.
  - intro H. discriminate H.
  - reflexivity.
  - exists w'. split; [exact E|]. split; [exact S | exact B].
Defined.

Lemma truncate_inject_Z (k : Z) : truncate (inject_Z k) = k.
Proof. unfold truncate. cbn. apply Z.quot_1_r. Qed.

(** X16. The count the calibration ends with is stored and read back at the next
    cold start.  When an evaluation of the initial phase finds the rate
    within [0.9, 1.5] of the target, or no attempt left, the field is left
    alone, the calibration is complete and both timers are set to [now]; a
    storage that throws is ignored;
    otherwise the count is written, reads back as its integer part, and
    [_detectDeviceCapability] of an instance created later returns it when
    it is an integer between 100 and that instance's [maxStarCount]. *)
Theorem calibration_result_is_persisted
  (upd : Options.t -> M unit) (now : Q) (w : World) :
  Stats.initialCalibrationComplete (Starfield.performanceStats (this w)) = false ->
  calibrationEnds now w = true ->
  exists w',
    _runOptimization_body upd now w = Returned tt w' /\
    sameField w w' /\
    Stats.initialCalibrationComplete (Starfield.performanceStats (this w')) = true /\
    Stats.lastOptimizationTime (Starfield.performanceStats (this w')) = Some now /\
    Stats.calibrationStartTime (Starfield.performanceStats (this w')) = Some now /\
    (* storage that throws is ignored *)
    (Browser.localStorage (browser w) = StorageUnavailable -> browser w' = browser w) /\
    (* otherwise the count is written ... *)
    (Browser.localStorage (browser w) <> StorageUnavailable ->
     Browser.localStorage (browser w') = Storage (Some (Written (Starfield.starCount (this w)))) /\
     readCache (browser w') = Some (truncate (Starfield.starCount (this w))) /\
     (* ... and an instance created later with 'auto' starts from it *)
     forall (k : Z) (s : Starfield.t),
       Starfield.starCount (this w) = inject_Z k ->
       100 <= inject_Z k ->
       inject_Z k <= Config.maxStarCount (Starfield.config s) ->
       _detectDeviceCapability (mkWorld s (browser w')) =
       Returned (inject_Z k) (mkWorld s (browser w'))).
Proof.
  intros C E. unfold calibrationEnds, waiting in E. rewrite C in E.
  apply andb_true_iff in E. destruct E as [E E3].
  apply andb_true_iff in E. destruct E as [E1 E2].
  apply negb_true_iff in E1, E2.
  unfold _runOptimization_body. rewrite bind_getThis, C. cbn [negb andb].
  rewrite E1, E2.
  fold (fpsRatioOf (Stats.frameTimestamps (Starfield.performanceStats (this w)))).
  rewrite E3.
  unfold completeCalibration. rewrite !bind_modifyStats.
  rewrite (bind_run _ _ _ _ _ (trySetItem_run _ _)).
  cbn [modifyStats modifyThis].
  eexists. split; [reflexivity|].
  split; [repeat split|]. split; [reflexivity|]. split; [reflexivity|]. split; [reflexivity|].
  unfold stored. cbn [this browser].
  destruct (Browser.localStorage (browser w)) as [|item] eqn:L.
  - split; [reflexivity|]. intro H. contradiction.
  - split; [discriminate|]. intros _.
    split; [reflexivity|]. split; [reflexivity|].
    intros k s K Lo Hi. rewrite detectDeviceCapability_run.
    unfold cachedCount. cbn [browser setLocalStorage Browser.localStorage nonEmpty parseInt].
    rewrite K, truncate_inject_Z.
    assert (A : Qle_bool 100 (inject_Z k) = true) by (apply Qle_bool_iff; exact Lo).
    assert (B : Qle_bool (inject_Z k) (Config.maxStarCount (Starfield.config s)) = true)
      by (apply Qle_bool_iff; exact Hi).
    cbn [this Starfield.config]. rewrite A, B. reflexivity.
Qed.

Lemma calibration_result_is_persisted_witness :
  exists w',
    _runOptimization 1 (30000 + (50 # 3)) settledWorld = Returned tt w' /\
    Stats.initialCalibrationComplete (Starfield.performanceStats (this w')) = true /\
    readCache (browser w') = Some 500%Z.
Proof.
  destruct (calibration_result_is_persisted (updateConfig 1) (30000 + (50 # 3)) settledWorld)
    as (w' & E & _ & C & _ & _ & _ & S).
  - reflexivity.
  - vm_compute. reflexivity.
  - exists w'. split; [exact E|]. split; [exact C|].
    destruct S as (_ & R & _); [discriminate|]. exact R.
Defined.

(** [updateConfig({ starCount: q })] for a count validation accepts, up to
    the restart. *)
Lemma count_update_run (start : M unit) (q : Q) (w : World) :
  1 <= q -> q <= 10000 ->
  exists w1,
    updateConfig_body start (starCountOnly (Fin q)) w =
      (if Starfield.isRunning (this w) then start w1 else Returned tt w1) /\
    Starfield.starCount (this w1) = q /\
    Starfield.isRunning (this w1) = false /\
    Starfield.performanceStats (this w1) = Starfield.performanceStats (this w) /\
    Browser.localStorage (browser w1) = Browser.localStorage (browser w) /\
    (forall i old new,
       nth_error (Starfield.stars (this w)) i = Some old ->
       nth_error (Starfield.stars (this w1)) i = Some new ->
       new = old).
Proof.
  intros Q1 Q2. rewrite updateConfig_body_run.
  rewrite (validate_starCountOnly q Q1 Q2). cbv zeta.
  set (w0 := if Starfield.isRunning (this w) then stopped w else w).
  assert (K : Starfield.isRunning (this w0) = false /\
              Starfield.stars (this w0) = Starfield.stars (this w) /\
              Starfield.performanceStats (this w0) = Starfield.performanceStats (this w) /\
              Browser.localStorage (browser w0) = Browser.localStorage (browser w)).
  { unfold w0. destruct (Starfield.isRunning (this w)) eqn:R; [|repeat split; exact R].
    pose proof (stopped_spec w) as (A & _ & B & _ & D & _ & _ & E & _).
    repeat split; assumption. }
  destruct K as (K0 & K1 & K2 & K3).
  set (wm := merged (starCountOnly (Fin q)) w0).
  destruct (recalculateStarCount_run wm) as (k & E).
  assert (T : targetCount wm = q).
  { unfold targetCount. unfold wm at 1. rewrite merged_starCountOnly. reflexivity. }
  rewrite T in E.
  unfold applyStarChanges. cbn [starCountOnly Options.starCount Options.background isSome when].
  unfold bind at 1. unfold bind at 1. rewrite E. cbn [ret].
  eexists. split.
  { destruct (Starfield.isRunning (this w)); reflexivity. }
  cbn [this browser setStars setStarCount Starfield.starCount Starfield.isRunning
       Starfield.performanceStats Starfield.stars].
  split; [reflexivity|]. split; [exact K0|]. split; [exact K2|]. split; [exact K3|].
  intros i old new Ho Hn. apply (resized_keeps wm i old new); [|exact Hn].
  cbn [wm merged this setConfig Starfield.stars]. rewrite K1. exact Ho.
Qed.

(** X15. An attempt of the initial calibration whose count [q] passes validation
    ([q <= 10000]).  The count is at least 100, and at most [maxStarCount]
    when that is at least 100; [_runOptimization] returns, or ends as
    [start()] on, an instance with the count [q], one more attempt on
    record, the calibration not complete and the measurement window
    restarted at [now]; nothing is stored, and the stars that are kept are
    not touched. *)
Theorem calibration_step_applied (depth : nat) (now q : Q) (w : World) :
  Stats.initialCalibrationComplete (Starfield.performanceStats (this w)) = false ->
  resizeDue now w = true ->
  calibrationCount (Starfield.starCount (this w))
    (Config.maxStarCount (Starfield.config (this w)))
    (fpsRatioOf (Stats.frameTimestamps (Starfield.performanceStats (this w)))) = Fin q ->
  q <= 10000 ->
  100 <= q /\
  (100 <= Config.maxStarCount (Starfield.config (this w)) ->
   q <= Config.maxStarCount (Starfield.config (this w))) /\
  exists w1,
    _runOptimization depth now w =
      (if Starfield.isRunning (this w) then start depth w1 else Returned tt w1) /\
    Starfield.starCount (this w1) = q /\
    Stats.initialCalibrationAttempts (Starfield.performanceStats (this w1)) =
      (Stats.initialCalibrationAttempts (Starfield.performanceStats (this w)) + 1)%Z /\
    Stats.initialCalibrationComplete (Starfield.performanceStats (this w1)) = false /\
    Stats.calibrationStartTime (Starfield.performanceStats (this w1)) = Some now /\
    (* an attempt stores nothing *)
    Browser.localStorage (browser w1) = Browser.localStorage (browser w) /\
    (* the stars that are kept are not touched *)
    (forall i old new,
       nth_error (Starfield.stars (this w)) i = Some old ->
       nth_error (Starfield.stars (this w1)) i = Some new ->
       new = old).
Proof.
  intros C Due Hc Q2.
  assert (Lo : 100 <= q) by (apply (calibrationCount_lower _ _ _ _ Hc)).
  split; [exact Lo|]. split.
  { intro M. unfold calibrationCount in Hc. cbv zeta in Hc.
    match type of Hc with
    | Js.max _ (Js.min _ ?v) = _ =>
        destruct (clamp_fin 100 (Config.maxStarCount (Starfield.config (this w))) v M)
          as (c & Ec & _ & Hi & _)
    end.
    - intro N. rewrite N in Hc. discriminate Hc.
    - rewrite Ec in Hc. injection Hc as <-. exact Hi. }
  unfold _runOptimization. rewrite (calibration_resize _ now w C Due). rewrite Hc.
  assert (Q1 : 1 <= q) by (clear - Lo; lra).
  destruct (count_update_run (start depth) q (nextAttempt now w) Q1 Q2)
    as (w1 & E & N & _ & St & Ls & Keep).
  exists w1. split; [exact E|]. split; [exact N|].
  rewrite St. split; [reflexivity|]. split; [exact C|]. split; [reflexivity|].
  split; [exact Ls|]. exact Keep.
Qed.

(** ** [_render] and the gradient it caches *)

(** X17. What [_render] draws, and when it throws.  When the background can be
    drawn, [_render] returns with the canvas holding the background (if one
    is configured), then the previous frame (if [trailEffect > 0]), then
    the stars, and with its size unchanged; the gradient is built at most
    once, the next call finding it cached; the stars, the configuration, the
    count, the statistics and the browser are untouched.  Otherwise it
    throws a TypeError and leaves the canvas cleared. *)
Theorem render_draws_the_layers (w : World) :
  (renders (this w) = true ->
   exists w',
     _render w = Returned tt w' /\
     Canvas.calls (Starfield.canvas (this w')) =
       backgroundLayer (this w) ++ trailLayer (this w) ++
       renderStars (this w) (Starfield.stars (this w)) /\
     Canvas.width (Starfield.canvas (this w')) = Canvas.width (Starfield.canvas (this w)) /\
     Canvas.height (Starfield.canvas (this w')) = Canvas.height (Starfield.canvas (this w)) /\
     Starfield.backgroundGradient (this w') = gradientInForce (this w) /\
     (* the gradient is built once: the next call finds it cached *)
     gradientInForce (this w') = gradientInForce (this w) /\
     renders (this w') = true /\
     Starfield.stars (this w') = Starfield.stars (this w) /\
     Starfield.config (this w') = Starfield.config (this w) /\
     Starfield.starCount (this w') = Starfield.starCount (this w) /\
     Starfield.performanceStats (this w') = Starfield.performanceStats (this w) /\
     browser w' = browser w) /\
  (renders (this w) = false ->
   exists what w',
     _render w = Threw (TypeError what) w' /\
     Canvas.calls (Starfield.canvas (this w')) = []).
Proof.
  split.
  - intro R. rewrite (render_explicit w R). eexists. split; [reflexivity|].
    cbn [this browser].
    destruct (renderedInstance_fields (this w)) as (K1 & K2 & K3 & K4 & K5 & K6 & K7).
    split; [exact K1|]. split; [reflexivity|]. split; [reflexivity|].
    split; [exact K2|].
    split.
    { unfold gradientInForce at 1. rewrite K4, K2.
      unfold gradientInForce.
      destruct (Config.background (Starfield.config (this w))) as [bg|]; [|reflexivity].
      destruct (Starfield.backgroundGradient (this w)) as [g|]; [reflexivity|].
      unfold freshGradient. destruct (isRadial bg); reflexivity. }
    split.
    { apply (renders_rendered (this w) (Starfield.animationId (this w))) in R.
      rewrite <- R. apply renders_ext; reflexivity. }
    split; [exact K3|]. split; [exact K4|]. split; [exact K5|]. split; [exact K7|].
    reflexivity.
  - apply render_throws.
Qed.

(** ** The cached gradient *)

Lemma gradientCoherent_ext (s s' : Starfield.t) :
  backdrop s' = backdrop s -> gradientCoherent s -> gradientCoherent s'.
Proof.
  unfold backdrop, gradientCoherent, freshGradient. intro E.
  injection E as E1 E2 E3 E4 E5 E6. rewrite E1, E2, E3, E4, E5, E6. auto.
Qed.

Lemma gradientCoherent_None (s : Starfield.t) :
  Starfield.backgroundGradient s = None -> gradientCoherent s.
Proof. unfold gradientCoherent. intros ->. exact I. Qed.

Section Backdrop.

Let Inv := onThis gradientCoherent.

Lemma backdrop_modifyBrowser (f : Browser.t -> Browser.t) : stable Inv (modifyBrowser f).
Proof. intros w H. exact H. Qed.

(** A write to [this] that leaves the backdrop alone. *)
Lemma backdrop_modifyThis (f : Starfield.t -> Starfield.t) :
  (forall s, backdrop (f s) = backdrop s) -> stable Inv (modifyThis f).
Proof.
  intros Hf w H. unfold Inv, onThis in *. cbn [modifyThis this].
  apply (gradientCoherent_ext (this w)); [apply Hf | exact H].
Qed.

(** A write that empties the cache. *)
Lemma backdrop_invalidate (f : Starfield.t -> Starfield.t) :
  (forall s, Starfield.backgroundGradient (f s) = None) -> stable Inv (modifyThis f).
Proof.
  intros Hf w H. unfold Inv, onThis in *. cbn [modifyThis this].
  apply gradientCoherent_None, Hf.
Qed.

Ltac backdrop_step :=
  match goal with
  | |- stable _ (bind _ _) => apply stable_bind; [|intro]
  | |- stable _ (ret _) => apply stable_ret
  | |- stable _ (throw _) => apply stable_throw
  | |- stable _ (when _ _) => apply stable_when
  | |- stable _ getThis => apply stable_getThis
  | |- stable _ getBrowser => apply stable_getBrowser
  | |- stable _ (modifyBrowser _) => apply backdrop_modifyBrowser
  | |- stable _ (modifyStats _) => apply backdrop_modifyThis; intro; reflexivity
  | |- stable _ (modifyThis _) =>
      first [ apply backdrop_modifyThis; intro; reflexivity
            | apply backdrop_invalidate; intro; reflexivity ]
  | |- stable _ (forEach _ _) => apply stable_forEach; intro
  | |- stable _ (times _ _) => apply stable_times
  | |- stable _ (if ?c then _ else _) => destruct c eqn:?
  | |- stable _ (match ?x with _ => _ end) => destruct x eqn:?
  | |- stable _ (let '(_, _) := ?x in _) => destruct x eqn:?
  end.

Ltac backdrop_auto := repeat backdrop_step.

Lemma backdrop_Math_random : stable Inv Math_random.
Proof. unfold Math_random. backdrop_auto. Qed.

Lemma backdrop_createStar : stable Inv _createStar.
Proof. unfold _createStar. backdrop_auto; apply backdrop_Math_random. Qed.

Lemma backdrop_detectDeviceCapability : stable Inv _detectDeviceCapability.
Proof. unfold _detectDeviceCapability. backdrop_auto. Qed.

(** [resize()] empties the cache it makes stale. *)
Lemma backdrop_resize : stable Inv resize.
Proof.
  intros w _. unfold resize. rewrite bind_getBrowser. cbv zeta.
  rewrite !bind_modifyThis. cbn [modifyThis].
  apply gradientCoherent_None. reflexivity.
Qed.

Lemma backdrop_update : stable Inv _update.
Proof.
  unfold _update. backdrop_auto. unfold updateStar.
  backdrop_auto. apply backdrop_createStar.
Qed.

Lemma backdrop_draw (c : DrawCall) : stable Inv (draw c).
Proof. unfold draw. backdrop_auto. Qed.

(** [_drawBackgroundGradient] caches what it builds. *)
Lemma backdrop_drawBackgroundGradient : stable Inv _drawBackgroundGradient.
Proof.
  intros w H. unfold Inv, onThis in *.
  destruct w as [s b]. cbn [this] in H.
  destruct s as [cv c stars n id run g cx cy temp stats].
  unfold gradientCoherent, freshGradient, isRadial in *.
  unfold _drawBackgroundGradient. rewrite bind_getThis.
  cbn [this Starfield.config Starfield.backgroundGradient Starfield.canvas
       Starfield.centerX Starfield.centerY] in *.
  destruct (Config.background c) as [bg|] eqn:B.
  - destruct g as [g|].
    + rewrite bind_ret, bind_getThis. cbn. rewrite B. exact H.
    + destruct (BackgroundO.colors bg) as [[|stop stops]|] eqn:C.
      * destruct (BackgroundO.type bg) as [t|] eqn:T; [destruct (String.eqb t "radial") eqn:E|];
          cbn; rewrite ?B, ?T, ?E, ?C; try exact I.
        rewrite ?T, ?C. cbn. rewrite ?E. reflexivity.
      * destruct (BackgroundO.type bg) as [t|] eqn:T; [destruct (String.eqb t "radial") eqn:E|];
          cbn; rewrite ?B, ?T, ?E, ?C; try exact I.
        rewrite ?T, ?C. cbn. rewrite ?E. reflexivity.
      * destruct (BackgroundO.type bg) as [t|] eqn:T; [destruct (String.eqb t "radial") eqn:E|];
          cbn; rewrite ?B, ?T, ?E, ?C; try exact I.
        rewrite ?T, ?C. cbn. rewrite ?E. reflexivity.
  - cbn. rewrite B. exact H.
Qed.

Lemma backdrop_render : stable Inv _render.
Proof.
  unfold _render. apply stable_bind; [apply stable_getThis|]. intro s. cbv zeta.
  apply stable_bind; [apply backdrop_modifyThis; intro; reflexivity|]. intros _.
  apply stable_bind; [unfold clearRect; apply backdrop_modifyThis; intro; reflexivity|].
  intros _.
  apply stable_bind; [apply backdrop_drawBackgroundGradient|]. intros _.
  apply stable_bind; [apply stable_when, backdrop_draw|]. intros _.
  intros w H. rewrite bind_getThis. cbn [modifyThis]. unfold Inv, onThis in *. cbn [this].
  apply (gradientCoherent_ext (this w)); [reflexivity | exact H].
Qed.

Lemma backdrop_stop : stable Inv stop.
Proof. unfold stop, cancelAnimationFrame. backdrop_auto. Qed.

Lemma backdrop_trySetItem (item : StoredItem) : stable Inv (trySetItem item).
Proof. unfold trySetItem. backdrop_auto. Qed.

Lemma backdrop_start_body (animate : M unit) :
  stable Inv animate -> stable Inv (start_body animate).
Proof. intro H. unfold start_body. backdrop_auto. exact H. Qed.

Lemma backdrop_recalculateStarCount : stable Inv recalculateStarCount.
Proof.
  unfold recalculateStarCount. backdrop_auto;
    first [apply backdrop_detectDeviceCapability | apply backdrop_createStar].
Qed.

(** The star changes of [updateConfig] return; they empty the cache when the
    update names [background] and leave the backdrop alone otherwise. *)
Lemma applyStarChanges_backdrop (newConfig : Options.t) (w : World) :
  exists w',
    applyStarChanges newConfig w = Returned tt w' /\
    (if isSome (Options.background newConfig)
     then Starfield.backgroundGradient (this w') = None
     else backdrop (this w') = backdrop (this w)).
Proof.
  unfold applyStarChanges.
  assert (First : exists w1,
    (if isSome (Options.starCount newConfig) then recalculateStarCount
     else if isSome (Options.starColors newConfig) || isSome (Options.starSize newConfig)
     then s <- getThis ;;
          stars' <- forEach (restyleStar newConfig (Starfield.config s)) (Starfield.stars s) ;;
          modifyThis (setStars stars')
     else ret tt) w = Returned tt w1 /\
    backdrop (this w1) = backdrop (this w)).
  { destruct (isSome (Options.starCount newConfig)).
    - destruct (recalculateStarCount_run w) as (k & E). rewrite E.
      eexists. split; reflexivity.
    - destruct (isSome (Options.starColors newConfig) || isSome (Options.starSize newConfig)).
      + rewrite bind_getThis.
        destruct (forEach_restyleStar_run newConfig (Starfield.config (this w))
                    (Starfield.stars (this w)) w) as (k & stars' & E & _).
        rewrite (bind_run _ _ _ _ _ E). cbn [modifyThis].
        eexists. split; reflexivity.
      + exists w. split; reflexivity. }
  destruct First as (w1 & E & B).
  rewrite (bind_run _ _ _ _ _ E).
  destruct (isSome (Options.background newConfig)); cbn [when].
  - eexists. split; reflexivity.
  - exists w1. split; [reflexivity | exact B].
Qed.

Lemma background_kept (c : Config.t) (newConfig : Options.t) :
  Options.background newConfig = None ->
  Config.background (configAfter c newConfig) = Config.background c.
Proof. intro H. unfold configAfter. cbn. rewrite H. reflexivity. Qed.

(** [updateConfig] empties the cache when it changes the background. *)
Lemma backdrop_updateConfig_body (start : M unit) (newConfig : Options.t) :
  stable Inv start -> stable Inv (updateConfig_body start newConfig).
Proof.
  intros Hs w H. rewrite updateConfig_body_run. cbv zeta.
  set (w0 := if Starfield.isRunning (this w) then stopped w else w).
  assert (H0 : Inv w0).
  { unfold w0. destruct (Starfield.isRunning (this w)); [|exact H].
    pose proof (backdrop_stop w H) as K. rewrite stop_run in K. exact K. }
  destruct (_validateConfig newConfig); [exact H0|].
  destruct (applyStarChanges_backdrop newConfig (merged newConfig w0)) as (w' & E & B).
  rewrite (bind_run _ _ _ _ _ E).
  assert (H' : Inv w').
  { unfold Inv, onThis in *.
    destruct (Options.background newConfig) as [b|] eqn:Bg; cbn [isSome] in B.
    - apply gradientCoherent_None. exact B.
    - apply (gradientCoherent_ext (this w0)); [|exact H0].
      rewrite B. unfold backdrop, merged. cbn [this setConfig Starfield.config
        Starfield.backgroundGradient Starfield.centerX Starfield.centerY Starfield.canvas].
      fold (configAfter (Starfield.config (this w0)) newConfig).
      rewrite (background_kept _ _ Bg). reflexivity. }
  apply (stable_when Inv (Starfield.isRunning (this w)) start Hs w' H').
Qed.

Lemma backdrop_completeCalibration (now stored : Q) :
  stable Inv (completeCalibration now stored).
Proof. unfold completeCalibration. backdrop_auto. apply backdrop_trySetItem. Qed.

Lemma backdrop_runOptimization_body (updateConfig : Options.t -> M unit) (now : Q) :
  (forall c, stable Inv (updateConfig c)) ->
  stable Inv (_runOptimization_body updateConfig now).
Proof.
  intro H. unfold _runOptimization_body. backdrop_auto;
    try apply backdrop_completeCalibration; try apply backdrop_trySetItem; try apply H.
Qed.

Lemma backdrop_animate_body (runOptimization : Q -> M unit) :
  (forall now, stable Inv (runOptimization now)) ->
  stable Inv (_animate_body runOptimization).
Proof.
  intro H. unfold _animate_body, performance_now, requestAnimationFrame.
  backdrop_auto; first [apply H | apply backdrop_update | apply backdrop_render].
Qed.

Lemma backdrop_animate (depth : nat) : stable Inv (_animate depth).
Proof.
  induction depth as [|d IH].
  - intros w H. exact I.
  - simpl. apply backdrop_animate_body. intro now.
    apply backdrop_runOptimization_body. intro c.
    apply backdrop_updateConfig_body. apply backdrop_start_body. exact IH.
Qed.

Lemma backdrop_start (depth : nat) : stable Inv (start depth).
Proof. apply backdrop_start_body, backdrop_animate. Qed.

Lemma backdrop_updateConfig (depth : nat) (newConfig : Options.t) :
  stable Inv (updateConfig depth newConfig).
Proof. apply backdrop_updateConfig_body, backdrop_start. Qed.

Lemma backdrop_destroy : stable Inv destroy.
Proof. unfold destroy, clearRect. backdrop_auto. apply backdrop_stop. Qed.

Lemma backdrop_runCallback (depth : nat) : stable Inv (runCallback depth).
Proof. unfold runCallback. backdrop_auto. apply backdrop_animate. Qed.

End Backdrop.

(** X18. The cached gradient is never stale: whenever [this.backgroundGradient]
    is set and a background is configured, it is the gradient that
    [_drawBackgroundGradient] would build from the current background,
    centre and canvas size.  This holds for the instance the constructor
    leaves and is kept by [updateConfig], [_animate], a frame callback,
    [start], [_render], [stop], [resize] and [destroy]; hence what a frame
    fills the canvas with is the gradient of the current configuration.
    (A cache left in place while no background is configured, as after
    [updateConfig({ background: undefined })], is never drawn: every update
    that gives [background] a value empties it.) *)
Theorem cached_gradient_is_never_stale :
  (forall depth options b,
     match new_Starfield depth options b with
     | Returned _ w => onThis gradientCoherent w
     | _ => True
     end) /\
  (forall depth,
     (forall newConfig, stable (onThis gradientCoherent) (updateConfig depth newConfig)) /\
     stable (onThis gradientCoherent) (_animate depth) /\
     stable (onThis gradientCoherent) (runCallback depth) /\
     stable (onThis gradientCoherent) (start depth) /\
     stable (onThis gradientCoherent) _render /\
     stable (onThis gradientCoherent) stop /\
     stable (onThis gradientCoherent) resize /\
     stable (onThis gradientCoherent) destroy) /\
  (* so that what a frame fills the canvas with is the gradient of the
     current centre, size and colour stops *)
  (forall s bg,
     gradientCoherent s ->
     Config.background (Starfield.config s) = Some bg ->
     gradientInForce s = freshGradient s bg).
Proof.
  split; [|split].
  - intros depth options b. rewrite constructor_run.
    destruct (_validateConfig _); [exact I|].
    assert (S0 : onThis gradientCoherent (constructed options b)) by exact I.
    destruct (Config.autoStart _); [|exact S0].
    pose proof (backdrop_start depth (constructed options b) S0) as H.
    destruct (start depth (constructed options b)); auto.
  - intro depth. split; [|split; [|split; [|split; [|split; [|split; [|split]]]]]].
    + intro newConfig. apply backdrop_updateConfig.
    + apply backdrop_animate.
    + apply backdrop_runCallback.
    + apply backdrop_start.
    + apply backdrop_render.
    + apply backdrop_stop.
    + apply backdrop_resize.
    + apply backdrop_destroy.
  - intros s bg H B. unfold gradientInForce, gradientCoherent in *. rewrite B in *.
    destruct (Starfield.backgroundGradient s) as [g|]; [|reflexivity].
    symmetry. exact H.
Qed.

(** ** The device heuristic *)

Lemma startsWithCI_spec (word s : string) :
  startsWithCI word s = true <->
  exists mid post, s = (mid ++ post)%string /\ lowerString mid = lowerString word.
Proof.
  revert s. induction word as [|a word IH]; intro s.
  - split; [|reflexivity]. intros _. exists EmptyString, s. split; reflexivity.
  - destruct s as [|b s]; cbn [startsWithCI].
    + split; [discriminate|]. intros (mid & post & E & L).
      destruct mid; cbn in L; [discriminate|]. cbn in E. discriminate.
    + rewrite andb_true_iff, IH. split.
      * intros [A (mid & post & E & L)]. apply Ascii.eqb_eq in A.
        exists (String b mid), post. split.
        -- cbn. rewrite E. reflexivity.
        -- cbn. rewrite L, A. reflexivity.
      * intros (mid & post & E & L).
        destruct mid as [|c mid]; cbn in L; [discriminate|].
        cbn in E. injection E as -> ->. injection L as L1 L2.
        split; [apply Ascii.eqb_eq; symmetry; exact L1|].
        exists mid, post. split; [reflexivity | exact L2].
Qed.

Lemma containsCI_spec (word s : string) : containsCI word s = true <-> occursCI word s.
Proof.
  unfold occursCI. induction s as [|b s IH].
  - cbn [containsCI]. rewrite orb_false_r, startsWithCI_spec. split.
    + intros (mid & post & E & L). exists EmptyString, mid, post. split; assumption.
    + intros (pre & mid & post & E & L).
      destruct pre; [|discriminate]. exists mid, post. split; assumption.
  - cbn [containsCI]. rewrite orb_true_iff, IH, startsWithCI_spec. split.
    + intros [(mid & post & E & L) | (pre & mid & post & E & L)].
      * exists EmptyString, mid, post. split; assumption.
      * exists (String b pre), mid, post. split; [cbn; rewrite E; reflexivity | exact L].
    + intros (pre & mid & post & E & L). destruct pre as [|c pre].
      * left. exists mid, post. split; assumption.
      * right. cbn in E. injection E as -> ->. exists pre, mid, post.
        split; [reflexivity | exact L].
Qed.

(** X19. The count of the device heuristic.  Without a usable cached count,
    [_detectDeviceCapability] returns [deviceDetection.mobile] when the user
    agent contains Android, iPhone, iPad or iPod in any letter case, or when
    [navigator.hardwareConcurrency] is a non-zero number of at most 4, and
    [deviceDetection.desktop] otherwise; the instance and the browser are
    untouched. *)
Theorem device_heuristic_count (w : World) :
  let c := Starfield.config (this w) in
  let b := browser w in
  cachedCount b (Config.maxStarCount c) = None ->
  let mobileAgent :=
    occursCI "Android" (Browser.userAgent b) \/ occursCI "iPhone" (Browser.userAgent b) \/
    occursCI "iPad" (Browser.userAgent b) \/ occursCI "iPod" (Browser.userAgent b) in
  let fewCores :=
    exists cores, Browser.hardwareConcurrency b = Some cores /\ cores <> 0%Z /\ (cores <= 4)%Z in
  exists n,
    _detectDeviceCapability w = Returned n w /\
    (mobileAgent \/ fewCores -> n = DeviceDetection.mobile (Config.deviceDetection c)) /\
    (~ (mobileAgent \/ fewCores) -> n = DeviceDetection.desktop (Config.deviceDetection c)).
Proof.
  intros c b Cache mobileAgent fewCores.
  rewrite detectDeviceCapability_run. fold c. fold b. rewrite Cache.
  eexists. split; [reflexivity|].
  assert (A : isMobileAgent (Browser.userAgent b) = true <-> mobileAgent).
  { unfold isMobileAgent, mobileAgent. rewrite !orb_true_iff, !containsCI_spec. tauto. }
  assert (L : lowEnd b = true <-> fewCores).
  { unfold lowEnd, fewCores. destruct (Browser.hardwareConcurrency b) as [k|].
    - rewrite andb_true_iff, negb_true_iff, Z.eqb_neq, Z.leb_le. split.
      + intros [K1 K2]. exists k. auto.
      + intros (cores & E & K1 & K2). injection E as <-. auto.
    - split; [discriminate|]. intros (cores & E & _). discriminate. }
  unfold deviceCount. fold c. fold b.
  destruct (isMobileAgent (Browser.userAgent b) || lowEnd b) eqn:E.
  - split; [reflexivity|]. intro N. exfalso. apply N.
    apply orb_true_iff in E. destruct E as [E|E]; [left; apply A | right; apply L]; exact E.
  - split; [|reflexivity]. intro P. exfalso.
    apply orb_false_iff in E. destruct E as [E1 E2].
    destruct P as [P|P]; [apply A in P | apply L in P]; congruence.
Qed.

Lemma device_heuristic_count_witness :
  exists n,
    _detectDeviceCapability (mkWorld (this field200) phoneBrowser) =
      Returned n (mkWorld (this field200) phoneBrowser) /\
    n = 200.
Proof.
  destruct (device_heuristic_count (mkWorld (this field200) phoneBrowser) eq_refl)
    as (n & E & M & _).
  exists n. split; [exact E|]. apply M. left. right. left.
  exists "Mozilla/5.0 ("%string, "iPhone"%string,
    "; CPU iPhone OS 17_0 like Mac OS X) Safari/604.1"%string.
  split; reflexivity.
Defined.

(** ** [start()] followed by [stop()] *)





(** ** Further theorems at concrete instances *)

Lemma background_lost_after_false_witness :
  exists w1,
    updateConfig 0 (backgroundOnly radialBackground) field200 = Returned tt w1 /\
    Config.background (Starfield.config (this w1)) = Some BackgroundO.empty /\
    exists w2, _render w1 = Threw (TypeError "colors.forEach") w2.
Proof.
  destruct (background_lost_after_false 0 radialBackground field200 eq_refl eq_refl)
    as (w1 & E & C & _ & T & _).
  exists w1. split; [exact E|]. split; [exact C|].
  destruct (T (browser w1)) as (w2 & E2). exists w2.
  destruct w1. exact E2.
Defined.


Lemma style_update_resamples_every_star_witness :
  exists w1,
    updateConfig 0 styleOnly field200 = Returned tt w1 /\
    Starfield.starCount (this w1) = 200 /\
    Forall2
      (restyled styleOnly (Starfield.config (this w1)) (Browser.Math_random (browser field200)))
      (Starfield.stars (this field200)) (Starfield.stars (this w1)).
Proof.
  destruct (style_update_resamples_every_star 0 styleOnly field200 eq_refl eq_refl)
    as (w1 & E & _ & _ & N & F).
  exists w1. split; [exact E|]. split; [exact N | exact F].
Defined.




Lemma calibration_step_applied_witness :
  exists w1,
    _runOptimization 1 30000 calibratingWorld = start 1 w1 /\
    Starfield.starCount (this w1) = 194 /\
    Stats.initialCalibrationAttempts (Starfield.performanceStats (this w1)) = 1%Z.
Proof.
  destruct (calibration_step_applied 1 30000 194 calibratingWorld eq_refl)
    as (_ & _ & w1 & E & N & A & _).
  - vm_compute. reflexivity.
  - vm_compute. reflexivity.
  - discriminate.
  - exists w1. split; [exact E|]. split; [exact N | exact A].
Defined.

Lemma constructor_builds_the_field_witness :
  exists w1,
    new_Starfield 0 threeNoStart (exampleBrowser 0 (50 # 3)) = Returned tt w1 /\
    List.length (Starfield.stars (this w1)) = 3%nat /\
    Starfield.isRunning (this w1) = false.
Proof.
  destruct (constructor_builds_the_field 0 (valuesOnly threeNoStart) (exampleBrowser 0 (50 # 3)))
    as (_ & _ & _ & H).
  destruct (H eq_refl eq_refl) as (E & _ & _ & _ & R & _ & _ & _ & _ & L & _).
  eexists. split; [exact E|]. split; [exact L | exact R].
Defined.

Lemma render_draws_the_layers_witness :
  exists w' rest,
    _render threeStars = Returned tt w' /\
    Canvas.calls (Starfield.canvas (this w')) = DrawPreviousFrame (3 # 10) :: rest /\
    Starfield.stars (this w') = Starfield.stars (this threeStars).
Proof.
  destruct (render_draws_the_layers threeStars) as [H _].
  destruct (H eq_refl) as (w' & E & C & _ & _ & _ & _ & _ & S & _).
  exists w'. eexists. split; [exact E|]. split; [exact C | exact S].
Defined.
